(** * Ergonomic risk scoring and recommendation engine

    A shallow embedding of [src/lib/ergonomics/calculations.ts], of the
    recommendation generator that follows it in the same file, and of the
    risk-assessment utilities ([performRiskAnalysis], [identifyPriorityAreas],
    [calculateRiskTrend]), followed by the properties the written
    specification states about them.

    Beside these the file embeds the helpers that stand next to them
    ([filterRecommendations], [sortRecommendationsByPriority],
    [compareAssessments], [getRiskLevelRecommendations]), the queries on the
    equipment table, and helpers of the API routes and of the assessment
    form, with properties read off the code.

    Modelling conventions.
    - A JavaScript [number] is a rational ([Q]); arithmetic is exact, the
      rounding of IEEE doubles is not modelled, and [NaN] and the infinities
      are not values.  Numbers are compared with [==] ([Qeq]), never with
      Leibniz equality.
    - [calculateImprovement] is the exception: the integer it returns
      depends on how the quotient of two scores is rounded to a double, so
      its numbers are IEEE binary64 values ([Double.double]) and every
      operation rounds as the machine does.
    - [Math.round] rounds half-way cases upwards: [floor (x + 1/2)].
    - A [Date] is its [getTime()] value, an integer count of milliseconds.
    - String-literal union types are inductive types with one constructor per
      literal; interfaces are records.
    - [Array.prototype.sort] is the stable sort of the language standard,
      written as an insertion sort driven by the sign of the comparator.
    - The wall clock ([Date.now()], [new Date()]) is a function from the
      number of the reading to the time read. *)

From Stdlib Require Import QArith Qabs Qround ZArith List Bool Lia Lqa.
From Stdlib Require Import SpecFloat.
From Stdlib Require Import Ascii String DecimalString.
From Stdlib Require Import Permutation Sorted.
From Stdlib Require DecimalPos DecimalZ Finite.
Import ListNotations.

Local Open Scope string_scope.
Local Open Scope Q_scope.

(** ** JavaScript numbers *)

Module Js.

Definition number : Type := Q.

(** [x < y] and [x > y] on numbers. *)
Definition ltb (x y : number) : bool := negb (Qle_bool y x).
Definition gtb (x y : number) : bool := ltb y x.

Definition Math_abs (x : number) : number := Qabs x.
Definition Math_min (x y : number) : number := if ltb y x then y else x.
Definition Math_max (x y : number) : number := if ltb x y then y else x.
Definition Math_round (x : number) : number := inject_Z (Qfloor (x + (1 # 2))).

(** [number === number]. *)
Definition num_eqb (x y : number) : bool := Qeq_bool x y.

(** Decimal rendering of an integer, as template literals do. *)
Definition string_of_Z (z : Z) : string := NilZero.string_of_int (Z.to_int z).
Definition string_of_nat (n : nat) : string := string_of_Z (Z.of_nat n).

(** [s.includes(sub)]. *)
Fixpoint includes (sub s : string) : bool :=
  String.prefix sub s ||
  match s with
  | EmptyString => false
  | String _ s' => includes sub s'
  end.

(** [arr.slice(0, n)]. *)
Definition slice0 {A : Type} (n : nat) (l : list A) : list A := firstn n l.

(** [arr.push(x)] and [arr.unshift(x)], as new lists. *)
Definition push {A : Type} (l : list A) (x : A) : list A := l ++ [x].
Definition unshift {A : Type} (l : list A) (x : A) : list A := x :: l.

(** [arr.sort(cmp)]: [cmp a b > 0] sends [a] behind [b]; otherwise the
    element met first stays first, which is what makes the sort stable. *)
Fixpoint insert_by {A : Type} (cmp : A -> A -> number) (x : A) (l : list A)
  : list A :=
  match l with
  | [] => [x]
  | y :: l' => if gtb (cmp x y) 0 then y :: insert_by cmp x l' else x :: l
  end.

Definition Array_sort {A : Type} (cmp : A -> A -> number) (l : list A)
  : list A :=
  fold_right (insert_by cmp) [] l.

(** [new Set(arr)] keeps the first occurrence of every value, in order. *)
Fixpoint Set_of {A : Type} (eqb : A -> A -> bool) (l : list A) : list A :=
  match l with
  | [] => []
  | x :: l' => x :: filter (fun y => negb (eqb x y)) (Set_of eqb l')
  end.

Definition Set_has {A : Type} (eqb : A -> A -> bool) (s : list A) (x : A)
  : bool :=
  existsb (eqb x) s.

End Js.

Import Js.

(** ** JavaScript numbers as IEEE doubles *)

Module Double.

(** Binary64: 53 bits of precision, exponents below 1024.  A finite value
    [S754_finite s m e] is [m * 2 ^ e], negated when [s] holds. *)
Definition prec : Z := 53.
Definition emax : Z := 1024.

Definition double : Type := spec_float.

(** An integer literal. *)
Definition of_Z (z : Z) : double := binary_normalize prec emax z 0 false.

(** [x - y], [x * y] and [x / y], each rounded to the nearest double. *)
Definition sub (x y : double) : double := SFsub prec emax x y.
Definition mul (x y : double) : double := SFmul prec emax x y.
Definition div (x y : double) : double := SFdiv prec emax x y.

(** [x < y], [x > y] and [x === y]; each is false when an operand is
    [NaN]. *)
Definition ltb (x y : double) : bool := SFltb x y.
Definition gtb (x y : double) : bool := ltb y x.
Definition eqb (x y : double) : bool := SFeqb x y.

Definition Math_abs (x : double) : double := SFabs x.

(** [Math.round(x)]: the integer nearest to [x], the upper one of two that
    are equally near; a zero result keeps the sign of [x].  A double whose
    exponent is not negative is an integer already; otherwise
    [floor (x + 1/2)] is computed exactly and has at most 53 bits. *)
Definition Math_round (x : double) : double :=
  match x with
  | S754_finite s m e =>
      if (0 <=? e)%Z then x
      else
        let scale := (2 ^ (- e))%Z in
        let signed := if s then Z.neg m else Z.pos m in
        binary_normalize prec emax ((2 * signed + scale) / (2 * scale)) 0 s
  | S754_zero _ | S754_infinity _ | S754_nan => x
  end.

End Double.

(** ** Domain types ([types/ergonomics.ts]) *)

Inductive DevicePosition := Desktop | Tray | Adjustable.
Inductive LightingQuality := LightPoor | LightFair | LightGood | LightExcellent.
Inductive NoiseLevel := Quiet | NoiseModerate | Loud | VeryLoud.
Inductive ShoulderPosition := Relaxed | Elevated | Hunched | Forward.
Inductive BackCurvature := Natural | Straight | Slouched | Arched.
Inductive WristPosition := Neutral | Extended | Flexed | Deviated.
Inductive FeetPosition := FlatFloor | Footrest | Dangling | Crossed.
Inductive SymptomType :=
  Neck | Shoulder | Back | Wrist | Eye | Hip | Knee | Foot.
Inductive Severity := SevNone | Mild | SevModerate | Severe.
Inductive Frequency := Never | Rarely | Sometimes | Often | Always.
Inductive RiskLevel := Low | Moderate | High | Critical.
Inductive FactorCategory :=
  CatPosture | CatMovement | CatEnvironment | CatEquipment | CatTime.
Inductive AssessmentType := Initial | FollowUp | Annual.
Inductive Trend := Improving | Declining | Stable.

Record UserProfile := {
  user_id : string;
  user_name : string;
  email : string;
  age : number;
  height : number;
  weight : number;
  occupation : string;
  workHoursPerDay : number;
  createdAt : Z;
  updatedAt : Z
}.

Record WorkspaceSetup := {
  deskHeight : number;
  chairHeight : number;
  monitorDistance : number;
  monitorHeight : number;
  keyboardPosition : DevicePosition;
  mousePosition : DevicePosition;
  footSupport : bool;
  lumbarSupport : bool;
  armrestSupport : bool;
  lightingQuality : LightingQuality;
  noiseLevel : NoiseLevel
}.

Record PostureData := {
  neckAngle : number;
  shoulderPosition : ShoulderPosition;
  backCurvature : BackCurvature;
  elbowAngle : number;
  wristPosition : WristPosition;
  hipAngle : number;
  kneeAngle : number;
  feetPosition : FeetPosition
}.

Record RepetitiveMotions := {
  typing : number;
  mouseClicks : number;
  reachingMovements : number
}.

Record MovementPatterns := {
  screenBreakFrequency : number;
  stretchingFrequency : number;
  walkingFrequency : number;
  postureChanges : number;
  repetitiveMotions : RepetitiveMotions
}.

Record HealthSymptom := {
  symptom_id : string;
  symptom_type : SymptomType;
  symptom_severity : Severity;
  symptom_frequency : Frequency;
  symptom_description : string;
  onsetDate : option Z
}.

Record ErgonomicAssessment := {
  assessment_id : string;
  assessment_userId : string;
  assessmentDate : Z;
  workspaceSetup : WorkspaceSetup;
  postureData : PostureData;
  movementPatterns : MovementPatterns;
  assessment_symptoms : list HealthSymptom;
  overallScore : number;
  riskLevel : RiskLevel;
  assessmentType : AssessmentType;
  notes : option string
}.

Record RiskFactor := {
  category : FactorCategory;
  name : string;
  severity : RiskLevel;
  score : number;
  description : string;
  impact : string
}.

Record RiskAnalysis := {
  analysis_assessmentId : string;
  overallRisk : RiskLevel;
  riskScore : number;
  factors : list RiskFactor;
  priorityAreas : list string;
  analysisDate : Z
}.

(** [Pick<UserProfile, 'age' | 'height' | 'weight' | 'workHoursPerDay'>]. *)
Record ProfileSlice := {
  slice_age : number;
  slice_height : number;
  slice_weight : number;
  slice_workHoursPerDay : number
}.

Record RiskCalculationInput := {
  workspace : WorkspaceSetup;
  posture : PostureData;
  movement : MovementPatterns;
  symptoms : list HealthSymptom;
  userProfile : ProfileSlice
}.

Definition RiskLevel_eqb (a b : RiskLevel) : bool :=
  match a, b with
  | Low, Low | Moderate, Moderate | High, High | Critical, Critical => true
  | _, _ => false
  end.

Definition FactorCategory_eqb (a b : FactorCategory) : bool :=
  match a, b with
  | CatPosture, CatPosture | CatMovement, CatMovement
  | CatEnvironment, CatEnvironment | CatEquipment, CatEquipment
  | CatTime, CatTime => true
  | _, _ => false
  end.

(** ** The risk models ([lib/ergonomics/calculations.ts]) *)

Module Calculations.

Definition shoulderRisk (p : ShoulderPosition) : number :=
  match p with Relaxed => 0 | Elevated => 15 | Hunched => 20 | Forward => 18 end.

Definition backRisk (b : BackCurvature) : number :=
  match b with Natural => 0 | Straight => 10 | Slouched => 25 | Arched => 15 end.

Definition wristRisk (w : WristPosition) : number :=
  match w with Neutral => 0 | Extended => 12 | Flexed => 15 | Deviated => 18 end.

Definition feetRisk (f : FeetPosition) : number :=
  match f with FlatFloor => 0 | Footrest => 2 | Dangling => 15 | Crossed => 12 end.

Definition calculatePostureRisk (posture : PostureData)
  (userProfile : ProfileSlice) : number :=
  let riskScore := 0 in
  let riskScore :=
    if gtb (Math_abs (neckAngle posture)) 45 then riskScore + 25
    else if gtb (Math_abs (neckAngle posture)) 30 then riskScore + 15
    else if gtb (Math_abs (neckAngle posture)) 15 then riskScore + 8
    else riskScore in
  let riskScore := riskScore + shoulderRisk (shoulderPosition posture) in
  let riskScore := riskScore + backRisk (backCurvature posture) in
  let elbowDeviation := Math_abs (elbowAngle posture - 100) in
  let riskScore :=
    if gtb elbowDeviation 30 then riskScore + 15
    else if gtb elbowDeviation 15 then riskScore + 8
    else riskScore in
  let riskScore := riskScore + wristRisk (wristPosition posture) in
  let hipDeviation := Math_abs (hipAngle posture - 100) in
  let riskScore :=
    if gtb hipDeviation 20 then riskScore + 10
    else if gtb hipDeviation 10 then riskScore + 5
    else riskScore in
  let riskScore := riskScore + feetRisk (feetPosition posture) in
  let ageMultiplier :=
    if gtb (slice_age userProfile) 50 then 12 # 10
    else if gtb (slice_age userProfile) 35 then 11 # 10
    else 1 in
  let hoursMultiplier :=
    if gtb (slice_workHoursPerDay userProfile) 8 then 13 # 10
    else if gtb (slice_workHoursPerDay userProfile) 6 then 11 # 10
    else 1 in
  Math_min 100 (riskScore * ageMultiplier * hoursMultiplier).

Definition lightingRisk (l : LightingQuality) : number :=
  match l with
  | LightExcellent => 0 | LightGood => 3 | LightFair => 8 | LightPoor => 15
  end.

Definition noiseRisk (n : NoiseLevel) : number :=
  match n with Quiet => 0 | NoiseModerate => 3 | Loud => 8 | VeryLoud => 12 end.

Definition is_desktop (p : DevicePosition) : bool :=
  match p with Desktop => true | _ => false end.

Definition calculateWorkspaceRisk (workspace : WorkspaceSetup)
  (userProfile : ProfileSlice) : number :=
  let riskScore := 0 in
  let idealDeskHeight := slice_height userProfile * (45 # 100) in
  let deskHeightDeviation :=
    Math_abs (deskHeight workspace - idealDeskHeight) in
  let riskScore :=
    if gtb deskHeightDeviation 10 then riskScore + 15
    else if gtb deskHeightDeviation 5 then riskScore + 8
    else riskScore in
  let riskScore :=
    if ltb (monitorDistance workspace) 40
       || gtb (monitorDistance workspace) 80 then riskScore + 12
    else if ltb (monitorDistance workspace) 50
            || gtb (monitorDistance workspace) 70 then riskScore + 6
    else riskScore in
  let riskScore :=
    if gtb (monitorHeight workspace) 15 then riskScore + 10
    else if gtb (monitorHeight workspace) 5 then riskScore + 5
    else if ltb (monitorHeight workspace) (-10) then riskScore + 8
    else riskScore in
  let riskScore :=
    if is_desktop (keyboardPosition workspace) then riskScore + 8
    else riskScore in
  let riskScore :=
    if is_desktop (mousePosition workspace) then riskScore + 6
    else riskScore in
  let riskScore :=
    if negb (footSupport workspace) then riskScore + 8 else riskScore in
  let riskScore :=
    if negb (lumbarSupport workspace) then riskScore + 15 else riskScore in
  let riskScore :=
    if negb (armrestSupport workspace) then riskScore + 10 else riskScore in
  let riskScore := riskScore + lightingRisk (lightingQuality workspace) in
  let riskScore := riskScore + noiseRisk (noiseLevel workspace) in
  Math_min 100 riskScore.

Definition calculateMovementRisk (movement : MovementPatterns) : number :=
  let riskScore := 0 in
  let recommendedBreaks := 2 in
  let riskScore :=
    if ltb (screenBreakFrequency movement) 1 then riskScore + 20
    else if ltb (screenBreakFrequency movement) recommendedBreaks
         then riskScore + 10
    else riskScore in
  let riskScore :=
    if ltb (stretchingFrequency movement) 2 then riskScore + 15
    else if ltb (stretchingFrequency movement) 3 then riskScore + 8
    else riskScore in
  let riskScore :=
    if ltb (walkingFrequency movement) (1 # 2) then riskScore + 18
    else if ltb (walkingFrequency movement) 1 then riskScore + 10
    else riskScore in
  let riskScore :=
    if ltb (postureChanges movement) 1 then riskScore + 12
    else if ltb (postureChanges movement) 2 then riskScore + 6
    else riskScore in
  let '{| typing := typing; mouseClicks := mouseClicks;
          reachingMovements := reachingMovements |} :=
    repetitiveMotions movement in
  let riskScore :=
    if gtb typing 300 then riskScore + 10
    else if gtb typing 400 then riskScore + 15
    else riskScore in
  let riskScore :=
    if gtb mouseClicks 100 then riskScore + 8
    else if gtb mouseClicks 150 then riskScore + 12
    else riskScore in
  let riskScore :=
    if gtb reachingMovements 20 then riskScore + 10
    else if gtb reachingMovements 30 then riskScore + 15
    else riskScore in
  Math_min 100 riskScore.

Definition severityScores (s : Severity) : number :=
  match s with SevNone => 0 | Mild => 1 | SevModerate => 2 | Severe => 3 end.

Definition frequencyScores (f : Frequency) : number :=
  match f with
  | Never => 0 | Rarely => 1 # 2 | Sometimes => 1 | Often => 2 | Always => 3
  end.

Definition is_critical_area (t : SymptomType) : bool :=
  match t with Neck | Back | Wrist => true | _ => false end.

(** The three accumulators the [forEach] of [calculateSymptomsRisk] updates. *)
Record SymptomAcc := {
  acc_riskScore : number;
  acc_severityMultiplier : number;
  acc_frequencyMultiplier : number
}.

Definition symptomStep (acc : SymptomAcc) (symptom : HealthSymptom)
  : SymptomAcc :=
  let riskScore := acc_riskScore acc + 5 in
  let severityMultiplier :=
    acc_severityMultiplier acc + severityScores (symptom_severity symptom) in
  let frequencyMultiplier :=
    acc_frequencyMultiplier acc + frequencyScores (symptom_frequency symptom) in
  let riskScore :=
    if is_critical_area (symptom_type symptom) then riskScore + 5
    else riskScore in
  {| acc_riskScore := riskScore;
     acc_severityMultiplier := severityMultiplier;
     acc_frequencyMultiplier := frequencyMultiplier |}.

Definition calculateSymptomsRisk (symptoms : list HealthSymptom) : number :=
  match symptoms with
  | [] => 0
  | _ :: _ =>
      let acc :=
        fold_left symptomStep symptoms
          {| acc_riskScore := 0; acc_severityMultiplier := 0;
             acc_frequencyMultiplier := 0 |} in
      let len := inject_Z (Z.of_nat (List.length symptoms)) in
      let averageSeverity := acc_severityMultiplier acc / len in
      let averageFrequency := acc_frequencyMultiplier acc / len in
      let riskScore :=
        acc_riskScore acc *
        ((1 + averageSeverity * (5 # 10)) * (1 + averageFrequency * (3 # 10))) in
      Math_min 100 (Math_round riskScore)
  end.

Definition calculateOverallRiskScore (input : RiskCalculationInput) : number :=
  let postureScore := calculatePostureRisk (posture input) (userProfile input) in
  let workspaceScore :=
    calculateWorkspaceRisk (workspace input) (userProfile input) in
  let movementScore := calculateMovementRisk (movement input) in
  let symptomsScore := calculateSymptomsRisk (symptoms input) in
  let weightedScore :=
    postureScore * (3 # 10) + workspaceScore * (25 # 100)
    + movementScore * (25 # 100) + symptomsScore * (2 # 10) in
  Math_min 100 (Math_max 0 (Math_round weightedScore)).

Definition getRiskLevel (score : number) : RiskLevel :=
  if ltb score 25 then Low
  else if ltb score 50 then Moderate
  else if ltb score 75 then High
  else Critical.

(** The factors in the order [generateRiskFactors] pushes them, before the
    final sort.  [Number_toString] renders the number interpolated into the
    description of the work-hours factor. *)
Section RiskFactors.

Variable Number_toString : number -> string.

Definition collectRiskFactors (input : RiskCalculationInput)
  : list RiskFactor :=
  let factors := [] in
  let postureScore := calculatePostureRisk (posture input) (userProfile input) in
  let factors :=
    if gtb postureScore 25 then
      push factors
        {| category := CatPosture;
           name := "Poor Posture Alignment";
           severity := getRiskLevel postureScore;
           score := postureScore;
           description :=
             "Current posture deviates significantly from ergonomic guidelines";
           impact := "May lead to neck, back, and shoulder strain over time" |}
    else factors in
  let workspaceScore :=
    calculateWorkspaceRisk (workspace input) (userProfile input) in
  let factors :=
    if gtb workspaceScore 25 then
      push factors
        {| category := CatEquipment;
           name := "Suboptimal Workspace Setup";
           severity := getRiskLevel workspaceScore;
           score := workspaceScore;
           description :=
             "Workspace configuration does not support proper ergonomics";
           impact :=
             "Increases risk of musculoskeletal disorders and eye strain" |}
    else factors in
  let movementScore := calculateMovementRisk (movement input) in
  let factors :=
    if gtb movementScore 25 then
      push factors
        {| category := CatMovement;
           name := "Insufficient Movement Patterns";
           severity := getRiskLevel movementScore;
           score := movementScore;
           description := "Limited movement and breaks during work hours";
           impact :=
             "May cause muscle stiffness, reduced circulation, and fatigue" |}
    else factors in
  let hours := slice_workHoursPerDay (userProfile input) in
  let factors :=
    if gtb hours 8 then
      push factors
        {| category := CatTime;
           name := "Extended Work Hours";
           severity := if gtb hours 10 then High else Moderate;
           score := Math_min 100 ((hours - 8) * 15);
           description :=
             "Working " ++ Number_toString hours
             ++ " hours per day exceeds recommendations";
           impact := "Prolonged exposure increases all ergonomic risks" |}
    else factors in
  let symptomsScore := calculateSymptomsRisk (symptoms input) in
  let factors :=
    if gtb symptomsScore 0 then
      push factors
        {| category := CatPosture;
           name := "Existing Discomfort/Pain";
           severity := getRiskLevel symptomsScore;
           score := symptomsScore;
           description :=
             "Reported symptoms indicate current ergonomic issues";
           impact := "Existing symptoms may worsen without intervention" |}
    else factors in
  factors.

Definition generateRiskFactors (input : RiskCalculationInput)
  : list RiskFactor :=
  Array_sort (fun a b => score b - score a) (collectRiskFactors input).

End RiskFactors.

Record Improvement := {
  percentage : Double.double;
  improvement_trend : Trend
}.

(** [percentage] as computed on the second line of [calculateImprovement],
    before the absolute value is taken for the result. *)
Definition improvementPercentage (previousScore currentScore : Double.double)
  : Double.double :=
  let difference := Double.sub currentScore previousScore in
  if Double.gtb previousScore (Double.of_Z 0)
  then Double.Math_round
         (Double.mul (Double.div difference previousScore) (Double.of_Z 100))
  else Double.of_Z 0.

Definition calculateImprovement (previousScore currentScore : Double.double)
  : Improvement :=
  let percentage := improvementPercentage previousScore currentScore in
  let trend :=
    if Double.ltb (Double.Math_abs percentage) (Double.of_Z 5) then Stable
    else if Double.ltb percentage (Double.of_Z 0) then Improving
    else Declining in
  {| percentage := Double.Math_abs percentage; improvement_trend := trend |}.

End Calculations.

(** ** Risk assessment utilities *)

Module RiskAssessment.

Import Calculations.

Definition is_high_or_critical (factor : RiskFactor) : bool :=
  RiskLevel_eqb (severity factor) Critical
  || RiskLevel_eqb (severity factor) High.

Definition is_critical_discomfort (f : RiskFactor) : bool :=
  FactorCategory_eqb (category f) CatPosture
  && includes "Discomfort" (name f)
  && RiskLevel_eqb (severity f) Critical.

Definition identifyPriorityAreas (factors : list RiskFactor) : list string :=
  let priorities : list string := [] in
  let sortedFactors :=
    Array_sort (fun a b => score b - score a)
      (filter is_high_or_critical factors) in
  let categories :=
    Set_of FactorCategory_eqb (map category (slice0 3 sortedFactors)) in
  let has := Set_has FactorCategory_eqb categories in
  let priorities :=
    if has CatPosture
    then push priorities "Improve posture alignment and body positioning"
    else priorities in
  let priorities :=
    if has CatEquipment
    then push priorities "Upgrade workspace equipment and setup"
    else priorities in
  let priorities :=
    if has CatMovement
    then push priorities "Increase movement and break frequency"
    else priorities in
  let priorities :=
    if has CatEnvironment
    then push priorities "Optimize environmental conditions"
    else priorities in
  let priorities :=
    if has CatTime
    then push priorities "Manage work duration and scheduling"
    else priorities in
  let criticalSymptoms := filter is_critical_discomfort factors in
  let priorities :=
    if (0 <? List.length criticalSymptoms)%nat
    then unshift priorities "Address existing pain and discomfort immediately"
    else priorities in
  slice0 5 priorities.

Definition performRiskAnalysis (Number_toString : number -> string)
  (now : Z) (assessment : ErgonomicAssessment) (profile : UserProfile)
  : RiskAnalysis :=
  let input :=
    {| workspace := workspaceSetup assessment;
       posture := postureData assessment;
       movement := movementPatterns assessment;
       symptoms := assessment_symptoms assessment;
       userProfile :=
         {| slice_age := age profile;
            slice_height := height profile;
            slice_weight := weight profile;
            slice_workHoursPerDay := workHoursPerDay profile |} |} in
  let riskScore := calculateOverallRiskScore input in
  let overallRisk := getRiskLevel riskScore in
  let factors := generateRiskFactors Number_toString input in
  let priorityAreas := identifyPriorityAreas factors in
  {| analysis_assessmentId := assessment_id assessment;
     overallRisk := overallRisk;
     riskScore := riskScore;
     factors := factors;
     priorityAreas := priorityAreas;
     analysisDate := now |}.

Record ProgressionPoint := {
  point_date : Z;
  point_score : number
}.

Record RiskTrend := {
  trend : Trend;
  changeRate : number;
  riskProgression : list ProgressionPoint
}.

Definition progressionPoint (a : ErgonomicAssessment) : ProgressionPoint :=
  {| point_date := assessmentDate a; point_score := overallScore a |}.

(** The comparator of the sort by date. *)
Definition byDate (a b : ErgonomicAssessment) : number :=
  inject_Z (assessmentDate a) - inject_Z (assessmentDate b).

Definition msPerDay : number := 1000 * 60 * 60 * 24.

(** On the second branch the list has at least two entries, so [sorted[0]]
    and [sorted[sorted.length - 1]] exist and the default handed to [nth]
    is never returned. *)
Definition calculateRiskTrend (assessments : list ErgonomicAssessment)
  : RiskTrend :=
  match assessments with
  | [] | [_] =>
      {| trend := Stable;
         changeRate := 0;
         riskProgression := map progressionPoint assessments |}
  | a0 :: _ :: _ =>
      let sorted := Array_sort byDate assessments in
      let first := nth 0 sorted a0 in
      let last := nth (List.length sorted - 1) sorted a0 in
      let totalChange := overallScore last - overallScore first in
      let timeSpan :=
        (inject_Z (assessmentDate last) - inject_Z (assessmentDate first))
        / msPerDay in
      let changeRate := if gtb timeSpan 0 then totalChange / timeSpan else 0 in
      let trend :=
        if ltb (Math_abs totalChange) 5 then Stable
        else if ltb totalChange 0 then Improving
        else Declining in
      {| trend := trend;
         changeRate := Math_abs changeRate;
         riskProgression := map progressionPoint sorted |}
  end.

End RiskAssessment.

(** ** Recommendations *)

Module Recommendations.

Inductive RecCategory := Immediate | ShortTerm | LongTerm.
Inductive Priority := PrioLow | PrioMedium | PrioHigh | PrioCritical.
Inductive RecType :=
  TypePosture | TypeEquipment | TypeMovement | TypeEnvironment | TypeBehavior.
Inductive Cost := Free | CostLow | CostMedium | CostHigh.
Inductive Difficulty := Easy | DiffMedium | Hard.

Record Recommendation := {
  rec_id : string;
  rec_category : RecCategory;
  priority : Priority;
  rec_type : RecType;
  title : string;
  rec_description : string;
  actionSteps : list string;
  expectedBenefit : string;
  timeframe : string;
  estimatedCost : Cost;
  implementationDifficulty : Difficulty
}.

(** A [RecommendationSet]; [R] is what the entries of [recommendations] are. *)
Record RecommendationSet (R : Type) := {
  assessmentId : string;
  userId : string;
  recommendations : list R;
  generatedDate : Z;
  aiGenerated : bool
}.

Arguments assessmentId {R}.
Arguments userId {R}.
Arguments recommendations {R}.
Arguments generatedDate {R}.
Arguments aiGenerated {R}.

(** The three templates keyed by factor category and the three conditional
    ones, each as a function of the id it is given. *)
Definition postureTemplate (id : string) : Recommendation :=
  {| rec_id := id;
     rec_category := Immediate;
     priority := PrioHigh;
     rec_type := TypePosture;
     title := "Improve Posture Alignment";
     rec_description :=
       "Your current posture shows significant deviations that require immediate correction.";
     actionSteps :=
       [ "Adjust monitor height so top of screen is at or below eye level";
         "Position feet flat on floor or footrest";
         "Keep shoulders relaxed and elbows at 90-110 degrees";
         "Maintain neutral spine with lumbar support" ];
     expectedBenefit :=
       "Reduced neck, shoulder, and back strain within 1-2 weeks";
     timeframe := "Implement immediately, habit formation in 2-3 weeks";
     estimatedCost := Free;
     implementationDifficulty := Easy |}.

Definition movementTemplate (id : string) : Recommendation :=
  {| rec_id := id;
     rec_category := Immediate;
     priority := PrioHigh;
     rec_type := TypeMovement;
     title := "Increase Movement and Breaks";
     rec_description :=
       "Your current movement patterns are insufficient for long work periods.";
     actionSteps :=
       [ "Take a 1-2 minute break every 20-30 minutes";
         "Stand and walk for 5 minutes every hour";
         "Perform neck and shoulder stretches 3-5 times per day";
         "Change sitting position every 15-20 minutes" ];
     expectedBenefit :=
       "Improved circulation, reduced stiffness, increased energy";
     timeframe := "Start immediately, establish routine in 1 week";
     estimatedCost := Free;
     implementationDifficulty := Easy |}.

Definition equipmentTemplate (id : string) : Recommendation :=
  {| rec_id := id;
     rec_category := ShortTerm;
     priority := PrioHigh;
     rec_type := TypeEquipment;
     title := "Workspace Equipment Optimization";
     rec_description :=
       "Current equipment setup contributes to ergonomic risks.";
     actionSteps :=
       [ "Adjust chair height for proper elbow angle";
         "Position keyboard and mouse at same level";
         "Use document holder to avoid neck strain";
         "Consider ergonomic accessories if needed" ];
     expectedBenefit := "Better support and positioning, reduced strain";
     timeframe := "1-2 weeks for adjustments, 2-4 weeks for new equipment";
     estimatedCost := CostLow;
     implementationDifficulty := DiffMedium |}.

Definition screenBreakTemplate (id : string) : Recommendation :=
  {| rec_id := id;
     rec_category := Immediate;
     priority := PrioMedium;
     rec_type := TypeBehavior;
     title := "Implement 20-20-20 Rule";
     rec_description :=
       "Reduce eye strain and encourage regular movement breaks.";
     actionSteps :=
       [ "Every 20 minutes, look at something 20 feet away for 20 seconds";
         "Set up hourly reminders for movement breaks";
         "Use apps or timers to maintain consistency";
         "Blink consciously to prevent dry eyes" ];
     expectedBenefit := "Reduced eye strain and fatigue, better focus";
     timeframe := "Start immediately, habit in 1-2 weeks";
     estimatedCost := Free;
     implementationDifficulty := Easy |}.

Definition lumbarTemplate (id : string) : Recommendation :=
  {| rec_id := id;
     rec_category := ShortTerm;
     priority := PrioMedium;
     rec_type := TypeEquipment;
     title := "Add Lumbar Support";
     rec_description := "Proper back support is essential for spinal health.";
     actionSteps :=
       [ "Adjust existing chair lumbar support if available";
         "Use a lumbar cushion or rolled towel as temporary solution";
         "Consider upgrading to ergonomic chair with proper lumbar support";
         "Position support at natural curve of lower back" ];
     expectedBenefit := "Reduced lower back pain and improved posture";
     timeframe := "1-3 weeks";
     estimatedCost := CostLow;
     implementationDifficulty := Easy |}.

Definition lightingTemplate (id : string) : Recommendation :=
  {| rec_id := id;
     rec_category := ShortTerm;
     priority := PrioMedium;
     rec_type := TypeEnvironment;
     title := "Improve Lighting Conditions";
     rec_description :=
       "Poor lighting contributes to eye strain and posture problems.";
     actionSteps :=
       [ "Position monitor perpendicular to windows to avoid glare";
         "Use adjustable task lighting for document work";
         "Adjust screen brightness to match surrounding lighting";
         "Consider anti-glare screen filter if needed" ];
     expectedBenefit := "Reduced eye strain, less squinting and leaning";
     timeframe := "1-2 weeks";
     estimatedCost := CostLow;
     implementationDifficulty := Easy |}.

(** The mutable locals of [generateTemplateRecommendations]: the array under
    construction and the counter [id].  The clock is read once per push, so
    [next_id] is also the number of readings taken so far. *)
Record GenState := {
  emitted : list Recommendation;
  next_id : nat
}.

Section Clock.

Variable clock : nat -> Z.

Definition freshId (st : GenState) : string :=
  "rec_" ++ string_of_Z (clock (next_id st)) ++ "_"
  ++ string_of_nat (next_id st).

Definition emit (st : GenState) (template : string -> Recommendation)
  : GenState :=
  {| emitted := push (emitted st) (template (freshId st));
     next_id := S (next_id st) |}.

Definition factorStep (st : GenState) (factor : RiskFactor) : GenState :=
  let st :=
    if FactorCategory_eqb (category factor) CatPosture
    then emit st postureTemplate else st in
  let st :=
    if FactorCategory_eqb (category factor) CatMovement
    then emit st movementTemplate else st in
  let st :=
    if FactorCategory_eqb (category factor) CatEquipment
    then emit st equipmentTemplate else st in
  st.

Definition is_poor_or_fair (l : LightingQuality) : bool :=
  match l with LightPoor | LightFair => true | _ => false end.

(** Everything [generateTemplateRecommendations] pushes, before the final
    [slice(0, 8)]. *)
Definition emitAll (assessment : ErgonomicAssessment)
  (riskAnalysis : RiskAnalysis) : GenState :=
  let st := {| emitted := []; next_id := 0 |} in
  let criticalFactors :=
    filter RiskAssessment.is_high_or_critical (factors riskAnalysis) in
  let st := fold_left factorStep criticalFactors st in
  let st :=
    if ltb (screenBreakFrequency (movementPatterns assessment)) 2
    then emit st screenBreakTemplate else st in
  let st :=
    if negb (lumbarSupport (workspaceSetup assessment))
    then emit st lumbarTemplate else st in
  let st :=
    if is_poor_or_fair (lightingQuality (workspaceSetup assessment))
    then emit st lightingTemplate else st in
  st.

Definition generateTemplateRecommendations (assessment : ErgonomicAssessment)
  (riskAnalysis : RiskAnalysis) (profile : UserProfile)
  : RecommendationSet Recommendation :=
  let st := emitAll assessment riskAnalysis in
  {| assessmentId := assessment_id assessment;
     userId := user_id profile;
     recommendations := slice0 8 (emitted st);
     generatedDate := clock (next_id st);
     aiGenerated := false |}.

End Clock.

(** *** The external generator

    What [JSON.parse] returns, and what a [RecommendationSet] holds at run
    time.  An object is the list of its properties in creation order, each
    key occurring once; properties are read by key. *)
#[local] Set Warnings "-register-all".
Inductive json :=
| JNull
| JBool (b : bool)
| JNumber (n : number)
| JString (s : string)
| JArray (items : list json)
| JObject (fields : list (string * json)).

Fixpoint getField (key : string) (fields : list (string * json))
  : option json :=
  match fields with
  | [] => None
  | (k, v) :: rest => if String.eqb k key then Some v else getField key rest
  end.

(** [obj[key] = v]: an existing property keeps its place. *)
Fixpoint setField (key : string) (v : json) (fields : list (string * json))
  : list (string * json) :=
  match fields with
  | [] => [(key, v)]
  | (k, w) :: rest =>
      if String.eqb k key then (k, v) :: rest
      else (k, w) :: setField key v rest
  end.

Definition indexed (items : list json) : list (string * json) :=
  map (fun p => (string_of_nat (fst p), snd p))
      (combine (seq 0 (List.length items)) items).

Fixpoint characters (s : string) : list json :=
  match s with
  | EmptyString => []
  | String c s' => JString (String c EmptyString) :: characters s'
  end.

(** The own enumerable properties an object spread [...rec] copies. *)
Definition ownProperties (rec : json) : list (string * json) :=
  match rec with
  | JObject fields => fields
  | JArray items => indexed items
  | JString s => indexed (characters s)
  | JNull | JBool _ | JNumber _ => []
  end.

(** [{ id: id, ...rec }]. *)
Definition withId (id : string) (rec : json) : json :=
  JObject
    (fold_left (fun obj kv => setField (fst kv) (snd kv) obj)
       (ownProperties rec) [("id", JString id)]).

Definition RecCategory_name (c : RecCategory) : string :=
  match c with
  | Immediate => "immediate" | ShortTerm => "short-term"
  | LongTerm => "long-term"
  end.

Definition Priority_name (p : Priority) : string :=
  match p with
  | PrioLow => "low" | PrioMedium => "medium" | PrioHigh => "high"
  | PrioCritical => "critical"
  end.

Definition RecType_name (t : RecType) : string :=
  match t with
  | TypePosture => "posture" | TypeEquipment => "equipment"
  | TypeMovement => "movement" | TypeEnvironment => "environment"
  | TypeBehavior => "behavior"
  end.

Definition Cost_name (c : Cost) : string :=
  match c with
  | Free => "free" | CostLow => "low" | CostMedium => "medium"
  | CostHigh => "high"
  end.

Definition Difficulty_name (d : Difficulty) : string :=
  match d with Easy => "easy" | DiffMedium => "medium" | Hard => "hard" end.

(** A typed recommendation as the object it is at run time. *)
Definition Recommendation_object (r : Recommendation) : json :=
  JObject
    [ ("id", JString (rec_id r));
      ("category", JString (RecCategory_name (rec_category r)));
      ("priority", JString (Priority_name (priority r)));
      ("type", JString (RecType_name (rec_type r)));
      ("title", JString (title r));
      ("description", JString (rec_description r));
      ("actionSteps", JArray (map JString (actionSteps r)));
      ("expectedBenefit", JString (expectedBenefit r));
      ("timeframe", JString (timeframe r));
      ("estimatedCost", JString (Cost_name (estimatedCost r)));
      ("implementationDifficulty",
       JString (Difficulty_name (implementationDifficulty r))) ].

Definition RecommendationSet_objects (s : RecommendationSet Recommendation)
  : RecommendationSet json :=
  {| assessmentId := assessmentId s;
     userId := userId s;
     recommendations := map Recommendation_object (recommendations s);
     generatedDate := generatedDate s;
     aiGenerated := aiGenerated s |}.

(** The statements inside [try] either produce a value or throw. *)
Inductive attempt (A : Type) :=
| Value (a : A)
| Thrown (message : string).

Arguments Value {A}.
Arguments Thrown {A}.

Definition bind {A B : Type} (m : attempt A) (k : A -> attempt B)
  : attempt B :=
  match m with
  | Value a => k a
  | Thrown message => Thrown message
  end.

Notation "x <- m ;; k" := (bind m (fun x => k))
  (at level 61, m at next level, right associativity).

(** How the exchange with the remote service ended, as far as the code
    distinguishes it: [fetch] rejected, the status was not a success, the
    body was not JSON, the message content was missing or empty, the content
    did not parse, or it parsed to a value.  The prompt built from the
    assessment only goes into the request and is not modelled. *)
Inductive GeneratorReply :=
| FetchRejected
| HttpError (status : Z)
| BodyRejected
| NoContent
| ContentNotJson
| ParsedContent (parsedRecommendations : json).

Definition parsedContent (reply : GeneratorReply) : attempt json :=
  match reply with
  | FetchRejected => Thrown "fetch failed"
  | HttpError status => Thrown ("AI request failed: " ++ string_of_Z status)
  | BodyRejected => Thrown "Unexpected token"
  | NoContent => Thrown "No content in AI response"
  | ContentNotJson => Thrown "Unexpected token"
  | ParsedContent parsedRecommendations => Value parsedRecommendations
  end.

(** [parsedRecommendations.recommendations.map]: only an array has a
    callable [map]. *)
Definition recommendationsArray (parsedRecommendations : json)
  : attempt (list json) :=
  match parsedRecommendations with
  | JObject fields =>
      match getField "recommendations" fields with
      | Some (JArray items) => Value items
      | _ => Thrown "recommendations.map is not a function"
      end
  | _ => Thrown "Cannot read properties of undefined (reading 'map')"
  end.

Section Generator.

Variable clock : nat -> Z.

Definition tryGenerate (reply : GeneratorReply)
  (assessment : ErgonomicAssessment) (profile : UserProfile)
  : attempt (RecommendationSet json) :=
  parsedRecommendations <- parsedContent reply ;;
  items <- recommendationsArray parsedRecommendations ;;
  let recommendations :=
    map (fun p =>
           withId ("rec_" ++ string_of_Z (clock (fst p)) ++ "_"
                   ++ string_of_nat (fst p)) (snd p))
        (combine (seq 0 (List.length items)) items) in
  Value {| assessmentId := assessment_id assessment;
           userId := user_id profile;
           recommendations := recommendations;
           generatedDate := clock (List.length items);
           aiGenerated := true |}.

Definition generateAIRecommendations (reply : GeneratorReply)
  (assessment : ErgonomicAssessment) (riskAnalysis : RiskAnalysis)
  (profile : UserProfile) : RecommendationSet json :=
  match tryGenerate reply assessment profile with
  | Value set => set
  | Thrown _ =>
      RecommendationSet_objects
        (generateTemplateRecommendations clock assessment riskAnalysis profile)
  end.

End Generator.

(** The schema of the Recommendation entity as the specification describes
    it; the source has no such check.  An object matches when its three
    classifying fields and its cost and difficulty fields hold one of the
    listed literals, its text fields hold strings and its action steps are
    an array of strings. *)
Definition holdsOneOf (literals : list string) (v : option json) : bool :=
  match v with
  | Some (JString s) => existsb (String.eqb s) literals
  | _ => false
  end.

Definition holdsString (v : option json) : bool :=
  match v with Some (JString _) => true | _ => false end.

Definition holdsStrings (v : option json) : bool :=
  match v with
  | Some (JArray items) =>
      forallb (fun i => match i with JString _ => true | _ => false end) items
  | _ => false
  end.

Definition matchesRecommendationSchema (rec : json) : bool :=
  match rec with
  | JObject fields =>
      holdsOneOf ["immediate"; "short-term"; "long-term"]
        (getField "category" fields)
      && holdsOneOf ["low"; "medium"; "high"; "critical"]
           (getField "priority" fields)
      && holdsOneOf
           ["posture"; "equipment"; "movement"; "environment"; "behavior"]
           (getField "type" fields)
      && holdsString (getField "title" fields)
      && holdsString (getField "description" fields)
      && holdsStrings (getField "actionSteps" fields)
      && holdsString (getField "expectedBenefit" fields)
      && holdsString (getField "timeframe" fields)
      && holdsOneOf ["free"; "low"; "medium"; "high"]
           (getField "estimatedCost" fields)
      && holdsOneOf ["easy"; "medium"; "hard"]
           (getField "implementationDifficulty" fields)
  | _ => false
  end.

(** The parsed content matches when it is an object whose [recommendations]
    is an array of matching objects. *)
Definition contentMatchesSchema (parsedRecommendations : json) : bool :=
  match parsedRecommendations with
  | JObject fields =>
      match getField "recommendations" fields with
      | Some (JArray items) => forallb matchesRecommendationSchema items
      | _ => false
      end
  | _ => false
  end.

End Recommendations.

(** ** Filtering and ranking recommendations *)

Module RecommendationTools.

Import Recommendations.

(** The optional fields of the [filters] argument. *)
Record RecommendationFilters := {
  filter_category : option string;
  filter_priority : option string;
  filter_type : option string;
  filter_cost : option string;
  filter_difficulty : option string
}.

(** [filters.field && actual !== filters.field]: a missing field and the
    empty string are both falsy and reject nothing. *)
Definition rejects (given : option string) (actual : string) : bool :=
  match given with
  | None => false
  | Some EmptyString => false
  | Some wanted => negb (String.eqb actual wanted)
  end.

Definition filterRecommendations (recommendations : list Recommendation)
  (filters : RecommendationFilters) : list Recommendation :=
  filter
    (fun rec =>
       if rejects (filter_category filters)
            (RecCategory_name (rec_category rec)) then false
       else if rejects (filter_priority filters)
                 (Priority_name (priority rec)) then false
       else if rejects (filter_type filters) (RecType_name (rec_type rec))
            then false
       else if rejects (filter_cost filters)
                 (Cost_name (estimatedCost rec)) then false
       else if rejects (filter_difficulty filters)
                 (Difficulty_name (implementationDifficulty rec)) then false
       else true)
    recommendations.

Definition priorityOrder (p : Priority) : number :=
  match p with
  | PrioCritical => 4 | PrioHigh => 3 | PrioMedium => 2 | PrioLow => 1
  end.

Definition categoryOrder (c : RecCategory) : number :=
  match c with Immediate => 3 | ShortTerm => 2 | LongTerm => 1 end.

Definition costOrder (c : Cost) : number :=
  match c with Free => 4 | CostLow => 3 | CostMedium => 2 | CostHigh => 1 end.

(** The comparator handed to [sort]. *)
Definition byPriority (a b : Recommendation) : number :=
  let priorityDiff := priorityOrder (priority b) - priorityOrder (priority a) in
  if negb (num_eqb priorityDiff 0) then priorityDiff
  else
    let categoryDiff :=
      categoryOrder (rec_category b) - categoryOrder (rec_category a) in
    if negb (num_eqb categoryDiff 0) then categoryDiff
    else costOrder (estimatedCost b) - costOrder (estimatedCost a).

(** The array is sorted in place and returned; the list returned here is
    also what the argument holds afterwards. *)
Definition sortRecommendationsByPriority
  (recommendations : list Recommendation) : list Recommendation :=
  Array_sort byPriority recommendations.

End RecommendationTools.

(** ** Comparing assessments and advice per risk level *)

Module AssessmentTools.

Definition RiskLevel_name (l : RiskLevel) : string :=
  match l with
  | Low => "low" | Moderate => "moderate" | High => "high"
  | Critical => "critical"
  end.

Definition SymptomType_name (t : SymptomType) : string :=
  match t with
  | Neck => "neck" | Shoulder => "shoulder" | Back => "back"
  | Wrist => "wrist" | Eye => "eye" | Hip => "hip" | Knee => "knee"
  | Foot => "foot"
  end.

Record LevelAdvice := {
  urgency : string;
  actionItems : list string;
  followUpSchedule : string
}.

(** The [switch] on the name of the risk level; the last equation is its
    [default] branch. *)
Definition getRiskLevelRecommendations (riskLevel : string) : LevelAdvice :=
  if String.eqb riskLevel "low" then
    {| urgency := "Preventive measures recommended";
       actionItems :=
         [ "Maintain current good practices";
           "Implement minor optimizations";
           "Monitor for changes over time";
           "Schedule regular check-ins" ];
       followUpSchedule := "Annual assessment or as needed" |}
  else if String.eqb riskLevel "moderate" then
    {| urgency := "Improvements recommended within 1-2 weeks";
       actionItems :=
         [ "Address identified risk factors";
           "Implement workspace modifications";
           "Establish better movement habits";
           "Consider equipment upgrades" ];
       followUpSchedule := "Quarterly assessment recommended" |}
  else if String.eqb riskLevel "high" then
    {| urgency := "Immediate attention required within 1 week";
       actionItems :=
         [ "Prioritize critical risk factors";
           "Implement immediate interventions";
           "Seek professional consultation if needed";
           "Make workspace adjustments immediately";
           "Start symptom monitoring" ];
       followUpSchedule := "Monthly assessment until improved" |}
  else if String.eqb riskLevel "critical" then
    {| urgency := "URGENT: Address immediately within 1-2 days";
       actionItems :=
         [ "Stop activities causing immediate harm";
           "Seek professional medical/ergonomic consultation";
           "Implement emergency interventions";
           "Consider temporary work modifications";
           "Begin immediate symptom treatment" ];
       followUpSchedule := "Weekly assessment until risk reduced" |}
  else
    {| urgency := "Assessment needed";
       actionItems := ["Complete ergonomic assessment"];
       followUpSchedule := "As soon as possible" |}.

Record AssessmentComparison := {
  scoreDifference : number;
  riskLevelChange : string;
  improvedAreas : list string;
  worsenedAreas : list string;
  newSymptoms : list string;
  resolvedSymptoms : list string
}.

(** The symptom types of an assessment as a [Set] of their names. *)
Definition symptomTypeSet (a : ErgonomicAssessment) : list string :=
  Set_of String.eqb
    (map (fun s => SymptomType_name (symptom_type s)) (assessment_symptoms a)).

Definition compareAssessments
  (previousAssessment currentAssessment : ErgonomicAssessment)
  : AssessmentComparison :=
  let scoreDifference :=
    overallScore currentAssessment - overallScore previousAssessment in
  let riskLevelChange :=
    RiskLevel_name (riskLevel previousAssessment) ++ " â†’ "
    ++ RiskLevel_name (riskLevel currentAssessment) in
  let improvedAreas : list string := [] in
  let worsenedAreas : list string := [] in
  let '(improvedAreas, worsenedAreas) :=
    if ltb (Math_abs (neckAngle (postureData currentAssessment)))
           (Math_abs (neckAngle (postureData previousAssessment)))
    then (push improvedAreas "Neck positioning", worsenedAreas)
    else if gtb (Math_abs (neckAngle (postureData currentAssessment)))
                (Math_abs (neckAngle (postureData previousAssessment)))
    then (improvedAreas, push worsenedAreas "Neck positioning")
    else (improvedAreas, worsenedAreas) in
  let '(improvedAreas, worsenedAreas) :=
    if gtb (screenBreakFrequency (movementPatterns currentAssessment))
           (screenBreakFrequency (movementPatterns previousAssessment))
    then (push improvedAreas "Break frequency", worsenedAreas)
    else if ltb (screenBreakFrequency (movementPatterns currentAssessment))
                (screenBreakFrequency (movementPatterns previousAssessment))
    then (improvedAreas, push worsenedAreas "Break frequency")
    else (improvedAreas, worsenedAreas) in
  let previousSymptomTypes := symptomTypeSet previousAssessment in
  let currentSymptomTypes := symptomTypeSet currentAssessment in
  let newSymptoms :=
    filter (fun type => negb (Set_has String.eqb previousSymptomTypes type))
      currentSymptomTypes in
  let resolvedSymptoms :=
    filter (fun type => negb (Set_has String.eqb currentSymptomTypes type))
      previousSymptomTypes in
  {| scoreDifference := scoreDifference;
     riskLevelChange := riskLevelChange;
     improvedAreas := improvedAreas;
     worsenedAreas := worsenedAreas;
     newSymptoms := newSymptoms;
     resolvedSymptoms := resolvedSymptoms |}.

End AssessmentTools.

(** ** The quick score of the assessments route *)

Module AssessmentRoute.

(** [Partial<UserProfile>]: every property may be missing. *)
Record PartialUserProfile := {
  partial_id : option string;
  partial_name : option string;
  partial_email : option string;
  partial_age : option number;
  partial_height : option number;
  partial_weight : option number;
  partial_occupation : option string;
  partial_workHoursPerDay : option number;
  partial_createdAt : option Z;
  partial_updatedAt : option Z
}.

(** [symptoms] is read with [?.], so a body without it is accepted. *)
Record AssessmentFormData := {
  form_userProfile : PartialUserProfile;
  form_workspaceSetup : WorkspaceSetup;
  form_postureData : PostureData;
  form_movementPatterns : MovementPatterns;
  form_symptoms : option (list HealthSymptom);
  form_notes : option string
}.

(** The callback of [reduce]. *)
Definition addSeverity (acc : number) (symptom : HealthSymptom) : number :=
  match symptom_severity symptom with
  | Severe => acc + 25
  | SevModerate => acc + 15
  | Mild => acc + 5
  | SevNone => acc
  end.

(** The comparisons of the conditions with string literals. *)
Definition is_relaxed (p : ShoulderPosition) : bool :=
  match p with Relaxed => true | _ => false end.
Definition is_slouched (b : BackCurvature) : bool :=
  match b with Slouched => true | _ => false end.
Definition is_neutral (w : WristPosition) : bool :=
  match w with Neutral => true | _ => false end.
Definition is_poor (l : LightingQuality) : bool :=
  match l with LightPoor => true | _ => false end.

Definition calculateBasicRiskScore (data : AssessmentFormData) : number :=
  let riskScore := 0 in
  let riskScore :=
    if gtb (Math_abs (neckAngle (form_postureData data))) 30
    then riskScore + 20
    else if gtb (Math_abs (neckAngle (form_postureData data))) 15
    then riskScore + 10
    else riskScore in
  let riskScore :=
    if negb (is_relaxed (shoulderPosition (form_postureData data)))
    then riskScore + 15 else riskScore in
  let riskScore :=
    if is_slouched (backCurvature (form_postureData data))
    then riskScore + 20 else riskScore in
  let riskScore :=
    if negb (is_neutral (wristPosition (form_postureData data)))
    then riskScore + 10 else riskScore in
  let riskScore :=
    if negb (lumbarSupport (form_workspaceSetup data))
    then riskScore + 15 else riskScore in
  let riskScore :=
    if negb (footSupport (form_workspaceSetup data))
    then riskScore + 10 else riskScore in
  let riskScore :=
    if is_poor (lightingQuality (form_workspaceSetup data))
    then riskScore + 10 else riskScore in
  let riskScore :=
    if ltb (screenBreakFrequency (form_movementPatterns data)) 1
    then riskScore + 15 else riskScore in
  let riskScore :=
    if ltb (stretchingFrequency (form_movementPatterns data)) 2
    then riskScore + 10 else riskScore in
  let symptomSeverity :=
    match form_symptoms data with
    | Some symptoms => fold_left addSeverity symptoms 0
    | None => 0
    end in
  let riskScore := riskScore + Math_min 30 symptomSeverity in
  Math_min 100 riskScore.

Definition getRiskLevelFromScore (score : number) : RiskLevel :=
  if ltb score 25 then Low
  else if ltb score 50 then Moderate
  else if ltb score 75 then High
  else Critical.

End AssessmentRoute.

(** ** The equipment table and its queries *)

Module Equipment.

Inductive EquipmentCategory :=
| Chair | Desk | Monitor | Keyboard | Mouse | Accessories.
Inductive PriceRange := Budget | MidRange | Premium | Luxury.
(** The [budget] argument of [getRecommendedEquipment]; an omitted argument
    is [AnyBudget]. *)
Inductive BudgetChoice := OnlyBudget | OnlyMidRange | OnlyPremium | AnyBudget.

Definition EquipmentCategory_name (c : EquipmentCategory) : string :=
  match c with
  | Chair => "chair" | Desk => "desk" | Monitor => "monitor"
  | Keyboard => "keyboard" | Mouse => "mouse" | Accessories => "accessories"
  end.

Definition PriceRange_name (p : PriceRange) : string :=
  match p with
  | Budget => "budget" | MidRange => "mid-range" | Premium => "premium"
  | Luxury => "luxury"
  end.

Definition BudgetChoice_name (b : BudgetChoice) : string :=
  match b with
  | OnlyBudget => "budget" | OnlyMidRange => "mid-range"
  | OnlyPremium => "premium" | AnyBudget => "any"
  end.

Record EquipmentItem := {
  item_id : string;
  item_name : string;
  item_category : EquipmentCategory;
  item_description : string;
  features : list string;
  ergonomicBenefits : list string;
  priceRange : PriceRange;
  rating : number;
  imageUrl : string;
  specifications : list (string * string);
  suitableFor : list string
}.

(** [parts.join(sep)]. *)
Definition join (sep : string) (parts : list string) : string :=
  String.concat sep parts.

(** The queries read the table [equipmentDatabase] of the module and lower
    the case of strings with [toLowerCase]; what follows holds whatever the
    table lists and however case is lowered. *)
Section Database.

Variable equipmentDatabase : list EquipmentItem.
Variable toLowerCase : string -> string.

Definition getEquipmentByCategory (category : string) : list EquipmentItem :=
  filter
    (fun item => String.eqb (EquipmentCategory_name (item_category item))
                   category)
    equipmentDatabase.

Definition searchEquipment (query : string) : list EquipmentItem :=
  let lowerQuery := toLowerCase query in
  filter
    (fun item =>
       includes lowerQuery (toLowerCase (item_name item))
       || includes lowerQuery (toLowerCase (item_description item))
       || existsb (fun feature => includes lowerQuery (toLowerCase feature))
            (features item)
       || existsb (fun benefit => includes lowerQuery (toLowerCase benefit))
            (ergonomicBenefits item))
    equipmentDatabase.

Definition is_any (budget : BudgetChoice) : bool :=
  match budget with AnyBudget => true | _ => false end.

Definition getRecommendedEquipment
  (riskFactors : list string) (budget : BudgetChoice) : list EquipmentItem :=
  let recommendations : list EquipmentItem := [] in
  let riskString := toLowerCase (join " " riskFactors) in
  let recommendations :=
    if includes "back" riskString || includes "posture" riskString
       || includes "lumbar" riskString
    then
      let chairs :=
        if is_any budget then getEquipmentByCategory "chair"
        else filter
               (fun item => String.eqb (PriceRange_name (priceRange item))
                              (BudgetChoice_name budget))
               (getEquipmentByCategory "chair") in
      (recommendations ++ slice0 2 chairs)%list
    else recommendations in
  let recommendations :=
    if includes "standing" riskString || includes "height" riskString
       || includes "movement" riskString
    then
      let desks :=
        if is_any budget then getEquipmentByCategory "desk"
        else filter
               (fun item => String.eqb (PriceRange_name (priceRange item))
                              (BudgetChoice_name budget))
               (getEquipmentByCategory "desk") in
      (recommendations ++ slice0 1 desks)%list
    else recommendations in
  let recommendations :=
    if includes "neck" riskString || includes "eye" riskString
       || includes "monitor" riskString
    then
      let monitors :=
        if is_any budget then getEquipmentByCategory "monitor"
        else filter
               (fun item => String.eqb (PriceRange_name (priceRange item))
                              (BudgetChoice_name budget))
               (getEquipmentByCategory "monitor") in
      (recommendations ++ slice0 1 monitors)%list
    else recommendations in
  let recommendations :=
    if includes "wrist" riskString || includes "hand" riskString
       || includes "repetitive" riskString
    then
      let keyboards :=
        if is_any budget then getEquipmentByCategory "keyboard"
        else filter
               (fun item => String.eqb (PriceRange_name (priceRange item))
                              (BudgetChoice_name budget))
               (getEquipmentByCategory "keyboard") in
      let mice :=
        if is_any budget then getEquipmentByCategory "mouse"
        else filter
               (fun item => String.eqb (PriceRange_name (priceRange item))
                              (BudgetChoice_name budget))
               (getEquipmentByCategory "mouse") in
      (recommendations ++ slice0 1 keyboards ++ slice0 1 mice)%list
    else recommendations in
  let accessories :=
    if is_any budget then getEquipmentByCategory "accessories"
    else filter
           (fun item => String.eqb (PriceRange_name (priceRange item))
                          (BudgetChoice_name budget))
           (getEquipmentByCategory "accessories") in
  let recommendations := (recommendations ++ slice0 2 accessories)%list in
  slice0 6 recommendations.

End Database.

End Equipment.

(** ** Helpers of the equipment route *)

Module EquipmentRoute.

Import Equipment.

(** [list.includes(x)] on an array of strings. *)
Definition Array_includes (list : list string) (x : string) : bool :=
  existsb (String.eqb x) list.

Definition findCommonFeatures (items : list EquipmentItem) : list string :=
  match items with
  | [] => []
  | first :: _ =>
      filter
        (fun feature =>
           forallb (fun item => Array_includes (features item) feature) items)
        (features first)
  end.

End EquipmentRoute.

(** ** The wellbeing score of the health metrics route *)

Module HealthMetrics.





End HealthMetrics.

(** ** Form fields and completion *)

Module FormTemplates.

Import Recommendations.

(** Of a [FormField] the functions below read the name and the optional
    [required] flag only; labels, units, bounds, options and help texts are
    left out. *)
Record FormField := {
  field_name : string;
  required : option bool
}.

Definition workspaceFormFields : list FormField :=
  [ {| field_name := "deskHeight"; required := Some true |};
    {| field_name := "chairHeight"; required := Some true |};
    {| field_name := "monitorDistance"; required := Some true |};
    {| field_name := "monitorHeight"; required := Some true |};
    {| field_name := "keyboardPosition"; required := Some true |};
    {| field_name := "mousePosition"; required := Some true |};
    {| field_name := "footSupport"; required := None |};
    {| field_name := "lumbarSupport"; required := None |};
    {| field_name := "armrestSupport"; required := None |};
    {| field_name := "lightingQuality"; required := Some true |};
    {| field_name := "noiseLevel"; required := Some true |} ].

Definition postureFormFields : list FormField :=
  [ {| field_name := "neckAngle"; required := Some true |};
    {| field_name := "shoulderPosition"; required := Some true |};
    {| field_name := "backCurvature"; required := Some true |};
    {| field_name := "elbowAngle"; required := Some true |};
    {| field_name := "wristPosition"; required := Some true |};
    {| field_name := "hipAngle"; required := Some true |};
    {| field_name := "kneeAngle"; required := Some true |};
    {| field_name := "feetPosition"; required := Some true |} ].

Definition movementFormFields : list FormField :=
  [ {| field_name := "screenBreakFrequency"; required := Some true |};
    {| field_name := "stretchingFrequency"; required := Some true |};
    {| field_name := "walkingFrequency"; required := Some true |};
    {| field_name := "postureChanges"; required := Some true |};
    {| field_name := "typing"; required := Some true |};
    {| field_name := "mouseClicks"; required := Some true |};
    {| field_name := "reachingMovements"; required := Some true |} ].

(** The form as it is at run time: each section is an object, any of whose
    properties may still be missing. *)
Record FormObjects := {
  workspaceSetup_object : list (string * json);
  postureData_object : list (string * json);
  movementPatterns_object : list (string * json);
  repetitiveMotions_object : list (string * json)
}.

(** [field.required] as a condition. *)
Definition is_required (field : FormField) : bool :=
  match required field with
  | Some true => true
  | _ => false
  end.

(** [obj[key] !== undefined]. *)
Definition defined (obj : list (string * json)) (key : string) : bool :=
  match getField key obj with
  | Some _ => true
  | None => false
  end.

(** One round of a [forEach]; the pair is [(completed, total)]. *)
Definition countField (complete : FormField -> bool)
  (counts : number * number) (field : FormField) : number * number :=
  let '(completed, total) := counts in
  let total := total + 1 in
  if is_required field && complete field
  then (completed + 1, total)
  else (completed, total).

Definition getAssessmentProgress (data : FormObjects) : number :=
  let counts := (0, 0) in
  let counts :=
    fold_left
      (countField
         (fun field => defined (workspaceSetup_object data) (field_name field)))
      workspaceFormFields counts in
  let counts :=
    fold_left
      (countField
         (fun field => defined (postureData_object data) (field_name field)))
      postureFormFields counts in
  let counts :=
    fold_left
      (countField
         (fun field =>
            if String.eqb (field_name field) "typing"
               || String.eqb (field_name field) "mouseClicks"
               || String.eqb (field_name field) "reachingMovements"
            then defined (repetitiveMotions_object data) (field_name field)
            else defined (movementPatterns_object data) (field_name field)))
      movementFormFields counts in
  let '(completed, total) := counts in
  Math_round (completed / total * 100).

End FormTemplates.

(** * Vocabulary of the specification

    The notions the written specification uses to state its properties, and
    the invariants the proofs below maintain. *)

Module Spec.

Import Calculations RiskAssessment Recommendations.

Definition in_range (x : number) : Prop := 0 <= x /\ x <= 100.

(** The accumulators of the symptom loop never go below zero. *)
Definition acc_nonneg (acc : SymptomAcc) : Prop :=
  0 <= acc_riskScore acc /\ 0 <= acc_severityMultiplier acc
  /\ 0 <= acc_frequencyMultiplier acc.

(** The order low < moderate < high < critical. *)
Definition rank (l : RiskLevel) : nat :=
  match l with Low => 0 | Moderate => 1 | High => 2 | Critical => 3 end.

(** What the first four blocks of [calculateMovementRisk] (breaks,
    stretching, walking, posture changes) add to the score. *)
Definition frequencyPenalties (movement : MovementPatterns) : number :=
  let riskScore := 0 in
  let recommendedBreaks := 2 in
  let riskScore :=
    if ltb (screenBreakFrequency movement) 1 then riskScore + 20
    else if ltb (screenBreakFrequency movement) recommendedBreaks
         then riskScore + 10
    else riskScore in
  let riskScore :=
    if ltb (stretchingFrequency movement) 2 then riskScore + 15
    else if ltb (stretchingFrequency movement) 3 then riskScore + 8
    else riskScore in
  let riskScore :=
    if ltb (walkingFrequency movement) (1 # 2) then riskScore + 18
    else if ltb (walkingFrequency movement) 1 then riskScore + 10
    else riskScore in
  let riskScore :=
    if ltb (postureChanges movement) 1 then riskScore + 12
    else if ltb (postureChanges movement) 2 then riskScore + 6
    else riskScore in
  riskScore.

(** What each of the three [if ... else if ...] statements on the
    repetitive motions adds to the score. *)
Definition typingPenalty (typing : number) : number :=
  if gtb typing 300 then 10 else if gtb typing 400 then 15 else 0.

Definition mouseClicksPenalty (mouseClicks : number) : number :=
  if gtb mouseClicks 100 then 8 else if gtb mouseClicks 150 then 12 else 0.

Definition reachingPenalty (reachingMovements : number) : number :=
  if gtb reachingMovements 20 then 10
  else if gtb reachingMovements 30 then 15
  else 0.

(** A band as the specification words it: [penalty] is added whenever the
    rate exceeds [threshold], whatever the other bands do. *)
Definition independentBand (threshold penalty rate : number) : number :=
  if gtb rate threshold then penalty else 0.

(** The movement score if the six repetitive-motion bands were additive. *)
Definition additiveMovementRisk (movement : MovementPatterns) : number :=
  let r := repetitiveMotions movement in
  Math_min 100
    (frequencyPenalties movement
     + independentBand 300 10 (typing r) + independentBand 400 15 (typing r)
     + independentBand 100 8 (mouseClicks r)
     + independentBand 150 12 (mouseClicks r)
     + independentBand 20 10 (reachingMovements r)
     + independentBand 30 15 (reachingMovements r)).

(** The percentage the specification gives, with its sign: the quotient
    and the product are rounded to doubles one after the other, as an
    evaluation of the formula on numbers is. *)
Definition signedPercentage (previousScore currentScore : Double.double)
  : Double.double :=
  Double.Math_round
    (Double.mul
       (Double.div (Double.sub currentScore previousScore) previousScore)
       (Double.of_Z 100)).

(** The exact value of round((current - previous) / previous * 100) for
    integer scores, without any intermediate rounding. *)
Definition exactPercentage (previousScore currentScore : Z) : Z :=
  Qfloor
    ((inject_Z currentScore - inject_Z previousScore)
       / inject_Z previousScore * 100 + (1 # 2)).

(** Largest key first. *)
Definition descending {A : Type} (key : A -> number) (a b : A) : Prop :=
  key b <= key a.

(** The elements whose key is [s]; a stable sort keeps their order. *)
Definition has_key {A : Type} (key : A -> number) (s : number) (a : A)
  : bool :=
  num_eqb (key a) s.

(** [l] can be obtained from [full] by leaving entries out. *)
Fixpoint subsequence (l full : list string) : bool :=
  match l, full with
  | [], _ => true
  | _ :: _, [] => false
  | x :: l', y :: full' =>
      if String.eqb x y then subsequence l' full' else subsequence l full'
  end.

Definition emissionOrder : list string :=
  [ "Poor Posture Alignment"; "Suboptimal Workspace Setup";
    "Insufficient Movement Patterns"; "Extended Work Hours";
    "Existing Discomfort/Pain" ].

Definition urgentSentence : string :=
  "Address existing pain and discomfort immediately".

Definition environmentSentence : string :=
  "Optimize environmental conditions".

Definition produced_category (f : RiskFactor) : Prop :=
  category f = CatPosture \/ category f = CatEquipment
  \/ category f = CatMovement \/ category f = CatTime.

(** Ascending dates are descending negated dates. *)
Definition negDate (a : ErgonomicAssessment) : number :=
  - inject_Z (assessmentDate a).

Definition ascendingDates (a b : ErgonomicAssessment) : Prop :=
  (assessmentDate a <= assessmentDate b)%Z.

(** What the function computes once the two ends of the sorted history are
    known. *)
Definition classify (totalChange : number) : Trend :=
  if ltb (Math_abs totalChange) 5 then Stable
  else if ltb totalChange 0 then Improving
  else Declining.

Definition elapsedDays (first last : ErgonomicAssessment) : number :=
  (inject_Z (assessmentDate last) - inject_Z (assessmentDate first))
  / msPerDay.





End Spec.

(** * Sample inputs *)

Module Samples.

Import Calculations RiskAssessment Recommendations.

(** Good habits, nothing repetitive except 500 keystrokes a minute. *)
Definition fastTypist : MovementPatterns :=
  {| screenBreakFrequency := 2;
     stretchingFrequency := 3;
     walkingFrequency := 1;
     postureChanges := 2;
     repetitiveMotions :=
       {| typing := 500; mouseClicks := 0; reachingMovements := 0 |} |}.

(** 350 keystrokes, 120 clicks a minute and 25 reaches an hour. *)
Definition busyHands : MovementPatterns :=
  {| screenBreakFrequency := 2;
     stretchingFrequency := 3;
     walkingFrequency := 1;
     postureChanges := 2;
     repetitiveMotions :=
       {| typing := 350; mouseClicks := 120; reachingMovements := 25 |} |}.

(** A user whose posture and workspace both score 30 and whose movement
    habits score 35. *)
Definition tiedInput : RiskCalculationInput :=
  {| workspace :=
       {| deskHeight := 72; chairHeight := 45; monitorDistance := 60;
          monitorHeight := 0; keyboardPosition := Tray;
          mousePosition := Tray; footSupport := true;
          lumbarSupport := false; armrestSupport := true;
          lightingQuality := LightPoor; noiseLevel := Quiet |};
     posture :=
       {| neckAngle := 0; shoulderPosition := Hunched;
          backCurvature := Straight; elbowAngle := 100;
          wristPosition := Neutral; hipAngle := 100; kneeAngle := 90;
          feetPosition := FlatFloor |};
     movement :=
       {| screenBreakFrequency := 0; stretchingFrequency := 0;
          walkingFrequency := 1; postureChanges := 2;
          repetitiveMotions :=
            {| typing := 0; mouseClicks := 0; reachingMovements := 0 |} |};
     symptoms := [];
     userProfile :=
       {| slice_age := 30; slice_height := 160; slice_weight := 60;
          slice_workHoursPerDay := 6 |} |}.

(** A rendering of numbers that prints the whole part, enough for whole
    hours. *)
Definition plainDigits (n : number) : string :=
  string_of_Z (Qfloor n).

Definition criticalPain : RiskFactor :=
  {| category := CatPosture;
     name := "Existing Discomfort/Pain";
     severity := Critical;
     score := 90;
     description := "Reported symptoms indicate current ergonomic issues";
     impact := "Existing symptoms may worsen without intervention" |}.

Definition longHours : RiskFactor :=
  {| category := CatTime;
     name := "Extended Work Hours";
     severity := High;
     score := 60;
     description := "Working 12 hours per day exceeds recommendations";
     impact := "Prolonged exposure increases all ergonomic risks" |}.

Definition sampleWorkspace : WorkspaceSetup :=
  {| deskHeight := 74; chairHeight := 45; monitorDistance := 60;
     monitorHeight := 0; keyboardPosition := Tray; mousePosition := Tray;
     footSupport := false; lumbarSupport := false; armrestSupport := true;
     lightingQuality := LightFair; noiseLevel := Quiet |}.

Definition samplePosture : PostureData :=
  {| neckAngle := 35; shoulderPosition := Hunched;
     backCurvature := Slouched; elbowAngle := 100;
     wristPosition := Neutral; hipAngle := 100; kneeAngle := 90;
     feetPosition := FlatFloor |}.

Definition sampleMovement : MovementPatterns :=
  {| screenBreakFrequency := 1 # 2; stretchingFrequency := 3;
     walkingFrequency := 1; postureChanges := 2;
     repetitiveMotions :=
       {| typing := 200; mouseClicks := 50; reachingMovements := 10 |} |}.

(** An assessment taken at [date] with overall score [value]. *)
Definition assessedAt (date : Z) (value : number) : ErgonomicAssessment :=
  {| assessment_id := "assessment_1";
     assessment_userId := "user_1";
     assessmentDate := date;
     workspaceSetup := sampleWorkspace;
     postureData := samplePosture;
     movementPatterns := sampleMovement;
     assessment_symptoms := [];
     overallScore := value;
     riskLevel := Calculations.getRiskLevel value;
     assessmentType := FollowUp;
     notes := None |}.

Definition severeSlouch : RiskFactor :=
  {| category := CatPosture;
     name := "Poor Posture Alignment";
     severity := High;
     score := 60;
     description :=
       "Current posture deviates significantly from ergonomic guidelines";
     impact := "May lead to neck, back, and shoulder strain over time" |}.

(** An analysis that lists the same high posture factor nine times. *)
Definition crowdedAnalysis : RiskAnalysis :=
  {| analysis_assessmentId := "assessment_1";
     overallRisk := High;
     riskScore := 60;
     factors := repeat severeSlouch 9;
     priorityAreas := ["Improve posture alignment and body positioning"];
     analysisDate := 0 |}.

Definition sampleProfile : UserProfile :=
  {| user_id := "user_1"; user_name := "Sam"; email := "sam@example.org";
     age := 45; height := 175; weight := 70; occupation := "Engineer";
     workHoursPerDay := 9; createdAt := 0; updatedAt := 0 |}.

Definition frozenClock (n : nat) : Z := 1700000000000.

Definition backPain : HealthSymptom :=
  {| symptom_id := "symptom_1"; symptom_type := Back;
     symptom_severity := Severe; symptom_frequency := Always;
     symptom_description := "Lower back pain"; onsetDate := None |}.

Definition footAche : HealthSymptom :=
  {| symptom_id := "symptom_2"; symptom_type := Foot;
     symptom_severity := Mild; symptom_frequency := Rarely;
     symptom_description := "Sore feet"; onsetDate := None |}.

(** A reply whose only recommendation uses a category, a priority and a type
    outside the enumerations and lacks most fields. *)
Definition offSchemaContent : json :=
  JObject
    [ ("recommendations",
       JArray
         [ JObject
             [ ("category", JString "urgent");
               ("priority", JString "extreme");
               ("type", JString "diet");
               ("title", JString "Drink water") ] ]) ].

End Samples.

(** * Further vocabulary *)

Module ListSpec.

(** [l] with some entries left out, the others in their order. *)
Inductive Subseq {A : Type} : list A -> list A -> Prop :=
| Subseq_nil : Subseq [] []
| Subseq_skip x l l' : Subseq l l' -> Subseq l (x :: l')
| Subseq_keep x l l' : Subseq l l' -> Subseq (x :: l) (x :: l').

End ListSpec.

Module ToolSpec.

Import Recommendations RecommendationTools.

(** A filter field is in force when it is present and not empty. *)
Definition in_force (given : option string) (wanted : string) : Prop :=
  given = Some wanted /\ wanted <> EmptyString.

(** [rec] passes [filters]: every field in force names the value [rec]
    has. *)
Definition passes (filters : RecommendationFilters) (rec : Recommendation)
  : Prop :=
  (forall s, in_force (filter_category filters) s ->
             RecCategory_name (rec_category rec) = s)
  /\ (forall s, in_force (filter_priority filters) s ->
                Priority_name (priority rec) = s)
  /\ (forall s, in_force (filter_type filters) s ->
                RecType_name (rec_type rec) = s)
  /\ (forall s, in_force (filter_cost filters) s ->
                Cost_name (estimatedCost rec) = s)
  /\ (forall s, in_force (filter_difficulty filters) s ->
                Difficulty_name (implementationDifficulty rec) = s).

Definition noFilters : RecommendationFilters :=
  {| filter_category := None; filter_priority := None; filter_type := None;
     filter_cost := None; filter_difficulty := None |}.

(** The three ranks of a recommendation, most significant first. *)
Definition ranks (r : Recommendation) : nat * nat * nat :=
  (match priority r with
   | PrioCritical => 4 | PrioHigh => 3 | PrioMedium => 2 | PrioLow => 1
   end,
   match rec_category r with Immediate => 3 | ShortTerm => 2 | LongTerm => 1 end,
   match estimatedCost r with
   | Free => 4 | CostLow => 3 | CostMedium => 2 | CostHigh => 1
   end)%nat.

(** [a] may stand before [b]: its ranks are lexicographically at least
    those of [b]. *)
Definition ranks_before (a b : Recommendation) : Prop :=
  let '(pa, ca, ka) := ranks a in
  let '(pb, cb, kb) := ranks b in
  (pb < pa \/ (pb = pa /\ (cb < ca \/ (cb = ca /\ kb <= ka))))%nat.

Definition same_ranks (a b : Recommendation) : bool :=
  let '(pa, ca, ka) := ranks a in
  let '(pb, cb, kb) := ranks b in
  ((pa =? pb) && (ca =? cb) && (ka =? kb))%nat.

(** The three ranks packed into one number. *)
Definition rankKey (r : Recommendation) : number :=
  priorityOrder (priority r) * 100 + categoryOrder (rec_category r) * 10
  + costOrder (estimatedCost r).

End ToolSpec.

Module ModelSpec.

Import Calculations.

(** Nothing about the posture is penalised. *)
Definition neutralPosture (p : PostureData) : Prop :=
  Qabs (neckAngle p) <= 15
  /\ shoulderPosition p = Relaxed
  /\ backCurvature p = Natural
  /\ Qabs (elbowAngle p - 100) <= 15
  /\ wristPosition p = Neutral
  /\ Qabs (hipAngle p - 100) <= 10
  /\ feetPosition p = FlatFloor.

(** Nothing about the movement habits is penalised. *)
Definition activeHabits (m : MovementPatterns) : Prop :=
  2 <= screenBreakFrequency m
  /\ 3 <= stretchingFrequency m
  /\ 1 <= walkingFrequency m
  /\ 2 <= postureChanges m
  /\ typing (repetitiveMotions m) <= 300
  /\ mouseClicks (repetitiveMotions m) <= 100
  /\ reachingMovements (repetitiveMotions m) <= 20.

End ModelSpec.

Module FactorSpec.

Import Calculations.

(** [movement] with another typing rate, click rate or reaching rate. *)
Definition withTyping (movement : MovementPatterns) (rate : number)
  : MovementPatterns :=
  {| screenBreakFrequency := screenBreakFrequency movement;
     stretchingFrequency := stretchingFrequency movement;
     walkingFrequency := walkingFrequency movement;
     postureChanges := postureChanges movement;
     repetitiveMotions :=
       {| typing := rate;
          mouseClicks := mouseClicks (repetitiveMotions movement);
          reachingMovements := reachingMovements (repetitiveMotions movement) |} |}.

Definition withMouseClicks (movement : MovementPatterns) (rate : number)
  : MovementPatterns :=
  {| screenBreakFrequency := screenBreakFrequency movement;
     stretchingFrequency := stretchingFrequency movement;
     walkingFrequency := walkingFrequency movement;
     postureChanges := postureChanges movement;
     repetitiveMotions :=
       {| typing := typing (repetitiveMotions movement);
          mouseClicks := rate;
          reachingMovements := reachingMovements (repetitiveMotions movement) |} |}.

Definition withReaching (movement : MovementPatterns) (rate : number)
  : MovementPatterns :=
  {| screenBreakFrequency := screenBreakFrequency movement;
     stretchingFrequency := stretchingFrequency movement;
     walkingFrequency := walkingFrequency movement;
     postureChanges := postureChanges movement;
     repetitiveMotions :=
       {| typing := typing (repetitiveMotions movement);
          mouseClicks := mouseClicks (repetitiveMotions movement);
          reachingMovements := rate |} |}.

Definition discomfortName : string := "Existing Discomfort/Pain".

(** What every factor of a ranked list satisfies. *)
Definition well_formed_factor (f : RiskFactor) : Prop :=
  0 < score f /\ score f <= 100
  /\ (category f <> CatTime -> severity f = getRiskLevel (score f))
  /\ (category f = CatTime -> severity f = Moderate \/ severity f = High).

End FactorSpec.

Module ModelSamples.

Import Calculations Samples.

(** [tiedInput] with one severe, constant back symptom added. *)
Definition tiedInputWithPain : RiskCalculationInput :=
  {| workspace := workspace tiedInput;
     posture := posture tiedInput;
     movement := movement tiedInput;
     symptoms := [backPain];
     userProfile := userProfile tiedInput |}.

End ModelSamples.

Module IdSpec.

Import Recommendations.

Definition is_underscore (c : ascii) : bool := Ascii.eqb c "_".

Fixpoint no_underscore (s : string) : bool :=
  match s with
  | EmptyString => true
  | String c s' => negb (is_underscore c) && no_underscore s'
  end.

(** What follows the last underscore of [s]. *)
Fixpoint lastField (s : string) : string :=
  match s with
  | EmptyString => EmptyString
  | String c s' =>
      if no_underscore s' then (if is_underscore c then s' else s)
      else lastField s'
  end.

(** The property [key] of an object, and nothing for other values. *)
Definition property (key : string) (v : json) : option json :=
  match v with
  | JObject fields => getField key fields
  | _ => None
  end.

(** The value the last entry for [key] gives it. *)
Definition lastAssigned (key : string) (entries : list (string * json))
  : option json :=
  getField key (rev entries).

(** A factor the template loop answers with a recommendation. *)
Definition answered (f : RiskFactor) : bool :=
  RiskAssessment.is_high_or_critical f
  && (FactorCategory_eqb (category f) CatPosture
      || FactorCategory_eqb (category f) CatMovement
      || FactorCategory_eqb (category f) CatEquipment).

(** The ids pushed so far carry the indices 0, 1, 2, ... in order. *)
Definition numbered (st : GenState) : Prop :=
  map (fun r => lastField (rec_id r)) (emitted st)
  = map string_of_nat (seq 0 (next_id st)).

End IdSpec.

Module CompareSpec.

Import AssessmentTools.

(** Some symptom of assessment [a] is of the type named [t]. *)
Definition reported (a : ErgonomicAssessment) (t : string) : Prop :=
  exists s,
    In s (assessment_symptoms a) /\ SymptomType_name (symptom_type s) = t.

(** What the [default] branch of [getRiskLevelRecommendations] returns. *)
Definition defaultAdvice : LevelAdvice :=
  {| urgency := "Assessment needed";
     actionItems := ["Complete ergonomic assessment"];
     followUpSchedule := "As soon as possible" |}.

End CompareSpec.

Module EdgeSpec.

Import Calculations.

(** No change: 0 percent, stable. *)
Definition noChange : Improvement :=
  {| percentage := Double.of_Z 0; improvement_trend := Stable |}.

(** No percentage at all, reported as a decline. *)
Definition undefinedDecline : Improvement :=
  {| percentage := S754_nan; improvement_trend := Declining |}.

End EdgeSpec.

Module RouteSpec.

Import AssessmentRoute.

(** [data] with other symptoms, or none at all. *)
Definition withSymptoms (data : AssessmentFormData)
  (symptoms : option (list HealthSymptom)) : AssessmentFormData :=
  {| form_userProfile := form_userProfile data;
     form_workspaceSetup := form_workspaceSetup data;
     form_postureData := form_postureData data;
     form_movementPatterns := form_movementPatterns data;
     form_symptoms := symptoms;
     form_notes := form_notes data |}.

End RouteSpec.

Module EquipmentSpec.

Import Equipment.

(** The words [getRecommendedEquipment] looks for in the risk factors. *)
Definition keywords : list string :=
  [ "back"; "posture"; "lumbar"; "standing"; "height"; "movement";
    "neck"; "eye"; "monitor"; "wrist"; "hand"; "repetitive" ].

(** [item] fits the budget. *)
Definition affordable (budget : BudgetChoice) (item : EquipmentItem) : Prop :=
  budget = AnyBudget
  \/ PriceRange_name (priceRange item) = BudgetChoice_name budget.

(** The first [count] items of a category that fit the budget, in the order
    of the table. *)
Definition offered (equipmentDatabase : list EquipmentItem)
  (budget : BudgetChoice) (category : string) (count : nat)
  : list EquipmentItem :=
  slice0 count
    (if is_any budget then getEquipmentByCategory equipmentDatabase category
     else filter
            (fun item => String.eqb (PriceRange_name (priceRange item))
                           (BudgetChoice_name budget))
            (getEquipmentByCategory equipmentDatabase category)).

(** All that can be offered, in the order in which it is pushed. *)
Definition everything (equipmentDatabase : list EquipmentItem)
  (budget : BudgetChoice) : list EquipmentItem :=
  ((((offered equipmentDatabase budget "chair" 2
      ++ offered equipmentDatabase budget "desk" 1)
     ++ offered equipmentDatabase budget "monitor" 1)
    ++ (offered equipmentDatabase budget "keyboard" 1
        ++ offered equipmentDatabase budget "mouse" 1))
   ++ offered equipmentDatabase budget "accessories" 2)%list.

End EquipmentSpec.

Module WellbeingSpec.

Import HealthMetrics.









End WellbeingSpec.

Module ProgressSpec.

Import Recommendations FormTemplates.

(** The tests of the three loops of [getAssessmentProgress]. *)
Definition workspaceGiven (data : FormObjects) (field : FormField) : bool :=
  defined (workspaceSetup_object data) (field_name field).

Definition postureGiven (data : FormObjects) (field : FormField) : bool :=
  defined (postureData_object data) (field_name field).

Definition movementGiven (data : FormObjects) (field : FormField) : bool :=
  if String.eqb (field_name field) "typing"
     || String.eqb (field_name field) "mouseClicks"
     || String.eqb (field_name field) "reachingMovements"
  then defined (repetitiveMotions_object data) (field_name field)
  else defined (movementPatterns_object data) (field_name field).

(** How many fields of a table count as completed. *)
Definition completedOf (complete : FormField -> bool)
  (fields : list FormField) : nat :=
  List.length (filter (fun field => is_required field && complete field) fields).

(** Every field marked as required has a value. *)
Definition allRequiredGiven (data : FormObjects) : Prop :=
  (forall field,
     In field workspaceFormFields -> is_required field = true ->
     workspaceGiven data field = true)
  /\ (forall field,
        In field postureFormFields -> is_required field = true ->
        postureGiven data field = true)
  /\ (forall field,
        In field movementFormFields -> is_required field = true ->
        movementGiven data field = true).

End ProgressSpec.

Import Spec Samples.

(** * Properties *)

(** ** Numbers *)

Section NumberFacts.

Lemma ltb_true (x y : number) : ltb x y = true <-> x < y.
Proof.
  unfold ltb. rewrite negb_true_iff.
  destruct (Qle_bool y x) eqn:E.
  - apply Qle_bool_iff in E. split; [discriminate | intro H].
    exfalso. apply (Qlt_not_le _ _ H E).
  - split; [intros _ | reflexivity].
    apply Qnot_le_lt. intro H. apply Qle_bool_iff in H. congruence.
Qed.

Lemma ltb_false (x y : number) : ltb x y = false <-> y <= x.
Proof.
  unfold ltb. rewrite negb_false_iff. apply Qle_bool_iff.
Qed.

Lemma gtb_true (x y : number) : gtb x y = true <-> y < x.
Proof. apply ltb_true. Qed.

Lemma gtb_false (x y : number) : gtb x y = false <-> x <= y.
Proof. apply ltb_false. Qed.

Lemma ltb_cases (x y : number) :
  (ltb x y = true /\ x < y) \/ (ltb x y = false /\ y <= x).
Proof.
  destruct (ltb x y) eqn:E; [left | right]; split; trivial.
  - now apply ltb_true.
  - now apply ltb_false.
Qed.

Lemma Math_min_le_l (x y : number) : Math_min x y <= x.
Proof.
  unfold Math_min. destruct (ltb_cases y x) as [[-> H] | [-> H]]; lra.
Qed.

Lemma Math_min_le_r (x y : number) : Math_min x y <= y.
Proof.
  unfold Math_min. destruct (ltb_cases y x) as [[-> H] | [-> H]]; lra.
Qed.

Lemma Math_min_glb (z x y : number) : z <= x -> z <= y -> z <= Math_min x y.
Proof.
  unfold Math_min. now destruct (ltb y x).
Qed.

Lemma Math_max_ge_l (x y : number) : x <= Math_max x y.
Proof.
  unfold Math_max. destruct (ltb_cases x y) as [[-> H] | [-> H]]; lra.
Qed.

Lemma Math_round_nonneg (x : number) : 0 <= x -> 0 <= Math_round x.
Proof.
  intro H. unfold Math_round.
  change 0 with (inject_Z 0). rewrite <- Zle_Qle.
  change 0%Z with (Qfloor 0). apply Qfloor_resp_le. lra.
Qed.

Lemma Math_abs_nonneg (x : number) : 0 <= Math_abs x.
Proof. apply Qabs_nonneg. Qed.

Lemma Qdiv_nonneg (x y : Q) : 0 <= x -> 0 < y -> 0 <= x / y.
Proof.
  intros Hx Hy. unfold Qdiv.
  apply Qmult_le_0_compat; [assumption |].
  apply Qlt_le_weak, Qinv_lt_0_compat, Hy.
Qed.

End NumberFacts.


(** ** Ranges of the scores *)

Module ScoreRange.

Import Calculations.

Ltac destruct_ifs :=
  repeat match goal with
         | |- context [if ?c then _ else _] => destruct c
         end.

(** Names the value bound by the outermost [let] of a goal [0 <= let ...],
    shows it non-negative when it is a running score, and forgets how it was
    computed. *)
Ltac name_let :=
  match goal with
  | |- 0 <= (let x := ?a in @?b x) =>
      let r := fresh "r" in
      let Hr := fresh "Hr" in
      pose (r := a); change (0 <= b r); cbv beta;
      first [ assert (Hr : 0 <= r) by (subst r; destruct_ifs; lra)
            | idtac ];
      clearbody r
  end.

Lemma shoulderRisk_nonneg p : 0 <= shoulderRisk p.
Proof. destruct p; simpl; lra. Qed.

Lemma backRisk_nonneg b : 0 <= backRisk b.
Proof. destruct b; simpl; lra. Qed.

Lemma wristRisk_nonneg w : 0 <= wristRisk w.
Proof. destruct w; simpl; lra. Qed.

Lemma feetRisk_nonneg f : 0 <= feetRisk f.
Proof. destruct f; simpl; lra. Qed.

Lemma lightingRisk_nonneg l : 0 <= lightingRisk l.
Proof. destruct l; simpl; lra. Qed.

Lemma noiseRisk_nonneg n : 0 <= noiseRisk n.
Proof. destruct n; simpl; lra. Qed.

Lemma severityScores_nonneg s : 0 <= severityScores s.
Proof. destruct s; simpl; lra. Qed.

Lemma frequencyScores_nonneg f : 0 <= frequencyScores f.
Proof. destruct f; simpl; lra. Qed.

Lemma calculatePostureRisk_range posture profile :
  in_range (calculatePostureRisk posture profile).
Proof.
  split.
  - pose proof (shoulderRisk_nonneg (shoulderPosition posture)).
    pose proof (backRisk_nonneg (backCurvature posture)).
    pose proof (wristRisk_nonneg (wristPosition posture)).
    pose proof (feetRisk_nonneg (feetPosition posture)).
    cbv delta [calculatePostureRisk]; cbv beta. repeat name_let.
    apply Math_min_glb; [lra |].
    apply Qmult_le_0_compat; [apply Qmult_le_0_compat |]; assumption.
  - unfold calculatePostureRisk. apply Math_min_le_l.
Qed.

Lemma calculateWorkspaceRisk_range workspace profile :
  in_range (calculateWorkspaceRisk workspace profile).
Proof.
  split.
  - pose proof (lightingRisk_nonneg (lightingQuality workspace)).
    pose proof (noiseRisk_nonneg (noiseLevel workspace)).
    cbv delta [calculateWorkspaceRisk]; cbv beta. repeat name_let.
    apply Math_min_glb; lra.
  - unfold calculateWorkspaceRisk. cbv zeta. apply Math_min_le_l.
Qed.

Lemma calculateMovementRisk_range movement :
  in_range (calculateMovementRisk movement).
Proof.
  split.
  - cbv delta [calculateMovementRisk]; cbv beta. repeat name_let.
    destruct (repetitiveMotions movement) as [t c e]. cbv beta iota.
    repeat name_let.
    apply Math_min_glb; [lra | assumption].
  - unfold calculateMovementRisk.
    destruct (repetitiveMotions movement) as [t c e].
    apply Math_min_le_l.
Qed.

Lemma symptomStep_nonneg acc symptom :
  acc_nonneg acc -> acc_nonneg (symptomStep acc symptom).
Proof.
  intros (Hr & Hs & Hf). unfold symptomStep, acc_nonneg. simpl.
  pose proof (severityScores_nonneg (symptom_severity symptom)).
  pose proof (frequencyScores_nonneg (symptom_frequency symptom)).
  repeat split; destruct_ifs; lra.
Qed.

Lemma symptom_loop_nonneg symptoms : forall acc,
  acc_nonneg acc -> acc_nonneg (fold_left symptomStep symptoms acc).
Proof.
  induction symptoms as [| s rest IH]; intros acc Hacc; simpl.
  - assumption.
  - apply IH, symptomStep_nonneg, Hacc.
Qed.

Lemma calculateSymptomsRisk_range symptoms :
  in_range (calculateSymptomsRisk symptoms).
Proof.
  unfold calculateSymptomsRisk.
  destruct symptoms as [| s rest]; [split; lra |].
  set (l := s :: rest). cbv zeta.
  set (acc := fold_left symptomStep l _).
  assert (Hacc : acc_nonneg acc).
  { apply symptom_loop_nonneg. unfold acc_nonneg. simpl. lra. }
  destruct Hacc as (Hr & Hs & Hf).
  assert (Hlen : 0 < inject_Z (Z.of_nat (List.length l))).
  { change 0 with (inject_Z 0). rewrite <- Zlt_Qlt. subst l. simpl. lia. }
  pose proof (Qdiv_nonneg _ _ Hs Hlen) as Hsev.
  pose proof (Qdiv_nonneg _ _ Hf Hlen) as Hfreq.
  split.
  - apply Math_min_glb; [lra |]. apply Math_round_nonneg.
    apply Qmult_le_0_compat; [assumption |].
    apply Qmult_le_0_compat.
    + assert (0 <= acc_severityMultiplier acc
                   / inject_Z (Z.of_nat (List.length l)) * (5 # 10))
        by (apply Qmult_le_0_compat; lra).
      lra.
    + assert (0 <= acc_frequencyMultiplier acc
                   / inject_Z (Z.of_nat (List.length l)) * (3 # 10))
        by (apply Qmult_le_0_compat; lra).
      lra.
  - apply Math_min_le_l.
Qed.

Lemma calculateOverallRiskScore_range input :
  in_range (calculateOverallRiskScore input).
Proof.
  unfold calculateOverallRiskScore. cbv zeta. split.
  - apply Math_min_glb; [lra | apply Math_max_ge_l].
  - apply Math_min_le_l.
Qed.

(** C5.  Whatever the input, the posture, workspace, movement and symptom
    scores and the overall score all lie between 0 and 100, both ends
    included. *)
Theorem scores_between_0_and_100 (input : RiskCalculationInput) :
  in_range (calculatePostureRisk (posture input) (userProfile input))
  /\ in_range (calculateWorkspaceRisk (workspace input) (userProfile input))
  /\ in_range (calculateMovementRisk (movement input))
  /\ in_range (calculateSymptomsRisk (symptoms input))
  /\ in_range (calculateOverallRiskScore input).
Proof.
  split; [apply calculatePostureRisk_range |].
  split; [apply calculateWorkspaceRisk_range |].
  split; [apply calculateMovementRisk_range |].
  split; [apply calculateSymptomsRisk_range |].
  apply calculateOverallRiskScore_range.
Qed.

End ScoreRange.

(** The model run on the symptom cases of the specification: no symptom
    scores 0, and one severe, constant back symptom scores more than one
    mild, rare foot symptom. *)
Example symptom_scores :
  Calculations.calculateSymptomsRisk [] = 0
  /\ Calculations.calculateSymptomsRisk [backPain] = 48
  /\ Calculations.calculateSymptomsRisk [footAche] = 9.
Proof. vm_compute. repeat split. Qed.

(** ** Risk levels *)

Module RiskLevels.

Import Calculations.

Lemma getRiskLevel_low score : score < 25 -> getRiskLevel score = Low.
Proof.
  intro H. unfold getRiskLevel.
  now replace (ltb score 25) with true by (symmetry; now apply ltb_true).
Qed.

Lemma getRiskLevel_moderate score :
  25 <= score -> score < 50 -> getRiskLevel score = Moderate.
Proof.
  intros H1 H2. unfold getRiskLevel.
  replace (ltb score 25) with false by (symmetry; now apply ltb_false).
  now replace (ltb score 50) with true by (symmetry; now apply ltb_true).
Qed.

Lemma getRiskLevel_high score :
  50 <= score -> score < 75 -> getRiskLevel score = High.
Proof.
  intros H1 H2. unfold getRiskLevel.
  replace (ltb score 25) with false by (symmetry; apply ltb_false; lra).
  replace (ltb score 50) with false by (symmetry; now apply ltb_false).
  now replace (ltb score 75) with true by (symmetry; now apply ltb_true).
Qed.

Lemma getRiskLevel_critical score :
  75 <= score -> getRiskLevel score = Critical.
Proof.
  intro H. unfold getRiskLevel.
  replace (ltb score 25) with false by (symmetry; apply ltb_false; lra).
  replace (ltb score 50) with false by (symmetry; apply ltb_false; lra).
  now replace (ltb score 75) with false by (symmetry; now apply ltb_false).
Qed.

Lemma getRiskLevel_monotone s t :
  s <= t -> (rank (getRiskLevel s) <= rank (getRiskLevel t))%nat.
Proof.
  intro Hst. unfold getRiskLevel.
  destruct (ltb_cases s 25) as [[E1 H1] | [E1 H1]];
  destruct (ltb_cases t 25) as [[E2 H2] | [E2 H2]];
  destruct (ltb_cases s 50) as [[E3 H3] | [E3 H3]];
  destruct (ltb_cases t 50) as [[E4 H4] | [E4 H4]];
  destruct (ltb_cases s 75) as [[E5 H5] | [E5 H5]];
  destruct (ltb_cases t 75) as [[E6 H6] | [E6 H6]];
  rewrite E1, E2, ?E3, ?E4, ?E5, ?E6;
  simpl; first [ lia | exfalso; lra ].
Qed.

(** C6.  [getRiskLevel] never goes down when the score goes up, and it sends
    every score below 25 to low, every score from 25 up to but excluding 50
    to moderate, every score from 50 up to but excluding 75 to high and
    every score from 75 on to critical; so 24 is low, 25 and 49 moderate,
    50 and 74 high, 75 critical. *)
Theorem getRiskLevel_monotone_bands (s t : number) :
  s <= t ->
  (rank (getRiskLevel s) <= rank (getRiskLevel t))%nat
  /\ (s < 25 -> getRiskLevel s = Low)
  /\ (25 <= s -> s < 50 -> getRiskLevel s = Moderate)
  /\ (50 <= s -> s < 75 -> getRiskLevel s = High)
  /\ (75 <= s -> getRiskLevel s = Critical)
  /\ getRiskLevel 24 = Low
  /\ getRiskLevel 25 = Moderate
  /\ getRiskLevel 49 = Moderate
  /\ getRiskLevel 50 = High
  /\ getRiskLevel 74 = High
  /\ getRiskLevel 75 = Critical.
Proof.
  intro Hst.
  split; [now apply getRiskLevel_monotone |].
  split; [apply getRiskLevel_low |].
  split; [apply getRiskLevel_moderate |].
  split; [apply getRiskLevel_high |].
  split; [apply getRiskLevel_critical |].
  repeat split; reflexivity.
Qed.

Lemma getRiskLevel_monotone_bands_witness :
  (rank (getRiskLevel 24%Q) <= rank (getRiskLevel (51 # 2)%Q))%nat
  /\ getRiskLevel 24 = Low.
Proof.
  assert (H : 24 <= 51 # 2) by (unfold Qle; simpl; lia).
  destruct (getRiskLevel_monotone_bands 24 (51 # 2) H)
    as (Hmono & Hlow & _).
  split; [exact Hmono |].
  apply Hlow. unfold Qlt; simpl; lia.
Defined.

End RiskLevels.

(** ** Repetitive motions in the movement model *)

Module MovementBands.

Import Calculations.

Example fastTypist_scores_10 : calculateMovementRisk fastTypist = 10.
Proof. reflexivity. Qed.

Example fastTypist_additive_25 : additiveMovementRisk fastTypist = 25.
Proof. reflexivity. Qed.

(** C1, as stated, fails: at 500 keystrokes a minute the code adds 10 for
    typing, not 10 + 15. *)
Lemma repetitive_bands_not_additive :
  ~ (forall movement,
       calculateMovementRisk movement == additiveMovementRisk movement).
Proof.
  intro H. specialize (H fastTypist).
  rewrite fastTypist_scores_10, fastTypist_additive_25 in H.
  discriminate H.
Qed.

Lemma exclusive_pair lo hi plo phi rate :
  let p := if gtb rate lo then plo else if gtb rate hi then phi else 0 in
  (rate <= lo -> lo <= hi -> p == 0)
  /\ (lo < rate -> p == plo)
  /\ (p == 0 \/ p == plo \/ p == phi).
Proof.
  cbv zeta. unfold gtb.
  destruct (ltb_cases lo rate) as [[E1 H1] | [E1 H1]];
  destruct (ltb_cases hi rate) as [[E2 H2] | [E2 H2]];
  rewrite E1, ?E2;
  (split; [| split]); intros;
    first [ reflexivity | exfalso; lra
          | left; reflexivity | right; left; reflexivity
          | right; right; reflexivity ].
Qed.

(** The function adds up what its seven blocks add. *)
Lemma calculateMovementRisk_blocks movement :
  let r := repetitiveMotions movement in
  calculateMovementRisk movement
  = Math_min 100
      (frequencyPenalties movement + typingPenalty (typing r)
       + mouseClicksPenalty (mouseClicks r)
       + reachingPenalty (reachingMovements r)).
Proof.
  cbv zeta.
  unfold calculateMovementRisk, frequencyPenalties, typingPenalty,
    mouseClicksPenalty, reachingPenalty.
  destruct (repetitiveMotions movement) as [t c e]. cbn [typing mouseClicks reachingMovements].
  repeat match goal with
         | |- context [if ?b then _ else _] => destruct b
         end;
    reflexivity.
Qed.

(** C1, amended.  The two bands of a pair exclude each other: typing adds
    0, 10 or 15, mouse clicks 0, 8 or 12, reaching 0, 10 or 15, never the
    sum of both penalties of a pair.  A rate at or below the lower
    threshold adds nothing, and every rate above the lower threshold and at
    most the upper one adds the lower penalty (300 < typing <= 400 adds 10,
    100 < mouseClicks <= 150 adds 8, 20 < reachingMovements <= 30 adds
    10). *)
Theorem repetitive_bands_exclusive (movement : MovementPatterns) :
  let r := repetitiveMotions movement in
  let t := typingPenalty (typing r) in
  let c := mouseClicksPenalty (mouseClicks r) in
  let e := reachingPenalty (reachingMovements r) in
  calculateMovementRisk movement
  == Math_min 100 (frequencyPenalties movement + t + c + e)
  /\ (t == 0 \/ t == 10 \/ t == 15)
  /\ (c == 0 \/ c == 8 \/ c == 12)
  /\ (e == 0 \/ e == 10 \/ e == 15)
  /\ (typing r <= 300 -> t == 0)
  /\ (300 < typing r -> typing r <= 400 -> t == 10)
  /\ (mouseClicks r <= 100 -> c == 0)
  /\ (100 < mouseClicks r -> mouseClicks r <= 150 -> c == 8)
  /\ (reachingMovements r <= 20 -> e == 0)
  /\ (20 < reachingMovements r -> reachingMovements r <= 30 -> e == 10).
Proof.
  cbv zeta.
  destruct (exclusive_pair 300 400 10 15
              (typing (repetitiveMotions movement))) as (T0 & T1 & T2).
  destruct (exclusive_pair 100 150 8 12
              (mouseClicks (repetitiveMotions movement))) as (C0 & C1 & C2).
  destruct (exclusive_pair 20 30 10 15
              (reachingMovements (repetitiveMotions movement)))
    as (E0 & E1 & E2).
  split; [rewrite calculateMovementRisk_blocks; reflexivity |].
  split; [exact T2 |]. split; [exact C2 |]. split; [exact E2 |].
  split; [intro H; apply T0; [exact H | lra] |].
  split; [intros H _; apply T1, H |].
  split; [intro H; apply C0; [exact H | lra] |].
  split; [intros H _; apply C1, H |].
  split; [intro H; apply E0; [exact H | lra] |].
  intros H _; apply E1, H.
Qed.

Lemma repetitive_bands_exclusive_witness :
  typingPenalty (typing (repetitiveMotions busyHands)) == 10
  /\ mouseClicksPenalty (mouseClicks (repetitiveMotions busyHands)) == 8
  /\ reachingPenalty (reachingMovements (repetitiveMotions busyHands)) == 10.
Proof.
  destruct (repetitive_bands_exclusive busyHands)
    as (_ & _ & _ & _ & _ & Ht & _ & Hc & _ & He).
  split; [| split].
  - apply Ht; simpl; unfold Qlt, Qle; simpl; lia.
  - apply Hc; simpl; unfold Qlt, Qle; simpl; lia.
  - apply He; simpl; unfold Qlt, Qle; simpl; lia.
Defined.

End MovementBands.

(** ** Improvement between two scores *)

Module ImprovementFacts.

Import Calculations.

Example halved_score :
  percentage (calculateImprovement (Double.of_Z 100) (Double.of_Z 50))
  = Double.of_Z 50.
Proof. vm_compute. reflexivity. Qed.

Example halved_score_signed :
  signedPercentage (Double.of_Z 100) (Double.of_Z 50) = Double.of_Z (-50).
Proof. vm_compute. reflexivity. Qed.

(** The quotient -11/40 is not a double; the nearest double times 100 is
    just below -27.5, so that the percentage from 40 to 29 is 28, where
    exact arithmetic would give 27. *)
Example rounded_as_doubles :
  Double.mul
    (Double.div (Double.sub (Double.of_Z 29) (Double.of_Z 40))
       (Double.of_Z 40))
    (Double.of_Z 100)
  = S754_finite true 7740561859543041 (-48)
  /\ percentage (calculateImprovement (Double.of_Z 40) (Double.of_Z 29))
     = Double.of_Z 28
  /\ exactPercentage 40 29 = (-27)%Z.
Proof. vm_compute. repeat split. Qed.

Lemma Math_abs_not_negative (x : Double.double) :
  Double.ltb (Double.Math_abs x) (Double.of_Z 0) = false.
Proof. destruct x as [s | s | | s m e]; reflexivity. Qed.

(** C3, as stated, fails: when the score drops from 100 to 50 the returned
    percentage is 50, not the negative -50. *)
Lemma returned_percentage_not_signed :
  ~ (forall previousScore currentScore,
       Double.gtb previousScore (Double.of_Z 0) = true ->
       Double.eqb
         (percentage (calculateImprovement previousScore currentScore))
         (signedPercentage previousScore currentScore) = true).
Proof.
  intro H. specialize (H (Double.of_Z 100) (Double.of_Z 50)).
  rewrite halved_score, halved_score_signed in H.
  assert (Hpos : Double.gtb (Double.of_Z 100) (Double.of_Z 0) = true)
    by reflexivity.
  specialize (H Hpos). vm_compute in H. discriminate H.
Qed.

(** C3, amended.  For a positive previous score the returned percentage is
    the absolute value of round((current - previous) / previous * 100),
    each operation rounded to a double as the code evaluates it, and is
    never negative; the trend is stable when that rounded percentage is
    below 5 in absolute value, otherwise improving when it is negative, and
    declining in every other case. *)
Theorem calculateImprovement_spec
  (previousScore currentScore : Double.double) :
  Double.gtb previousScore (Double.of_Z 0) = true ->
  let signed := signedPercentage previousScore currentScore in
  let result := calculateImprovement previousScore currentScore in
  percentage result = Double.Math_abs signed
  /\ Double.ltb (percentage result) (Double.of_Z 0) = false
  /\ (Double.ltb (Double.Math_abs signed) (Double.of_Z 5) = true ->
      improvement_trend result = Stable)
  /\ (Double.ltb (Double.Math_abs signed) (Double.of_Z 5) = false ->
      Double.ltb signed (Double.of_Z 0) = true ->
      improvement_trend result = Improving)
  /\ (Double.ltb (Double.Math_abs signed) (Double.of_Z 5) = false ->
      Double.ltb signed (Double.of_Z 0) = false ->
      improvement_trend result = Declining).
Proof.
  intro Hpos. cbv zeta.
  unfold calculateImprovement, improvementPercentage, signedPercentage.
  cbv zeta. rewrite Hpos.
  set (p := Double.Math_round _). cbn [percentage improvement_trend].
  split; [reflexivity |].
  split; [apply Math_abs_not_negative |].
  split; [| split].
  - intros ->. reflexivity.
  - intros -> ->. reflexivity.
  - intros -> ->. reflexivity.
Qed.

Lemma calculateImprovement_spec_witness :
  percentage (calculateImprovement (Double.of_Z 40) (Double.of_Z 29))
  = Double.of_Z 28
  /\ improvement_trend
       (calculateImprovement (Double.of_Z 40) (Double.of_Z 29))
     = Improving.
Proof.
  assert (Hpos : Double.gtb (Double.of_Z 40) (Double.of_Z 0) = true)
    by reflexivity.
  destruct (calculateImprovement_spec (Double.of_Z 40) (Double.of_Z 29) Hpos)
    as (Hp & _ & _ & Himp & _).
  split.
  - rewrite Hp. vm_compute. reflexivity.
  - apply Himp; vm_compute; reflexivity.
Defined.

End ImprovementFacts.

(** ** The stable sort *)

Module SortFacts.

Section Insertion.

Context {A : Type} (cmp : A -> A -> number).

Lemma insert_by_perm x l : Permutation (x :: l) (insert_by cmp x l).
Proof.
  induction l as [| y l IH]; simpl.
  - apply Permutation_refl.
  - destruct (gtb (cmp x y) 0).
    + apply perm_trans with (y :: x :: l); [apply perm_swap |].
      apply perm_skip, IH.
    + apply Permutation_refl.
Qed.

Lemma Array_sort_perm l : Permutation l (Array_sort cmp l).
Proof.
  induction l as [| x l IH]; simpl.
  - apply perm_nil.
  - apply perm_trans with (x :: Array_sort cmp l).
    + apply perm_skip, IH.
    + apply insert_by_perm.
Qed.

Lemma Array_sort_length l : List.length (Array_sort cmp l) = List.length l.
Proof. symmetry. apply Permutation_length, Array_sort_perm. Qed.

Lemma Array_sort_In x l : In x (Array_sort cmp l) <-> In x l.
Proof.
  split; apply Permutation_in;
    [apply Permutation_sym |]; apply Array_sort_perm.
Qed.

(** Sorting by a key, largest first: the comparator is positive exactly when
    its first argument has the smaller key. *)
Variable key : A -> number.
Hypothesis cmp_key : forall a b, 0 < cmp a b <-> key a < key b.

Lemma insert_by_sorted x l :
  StronglySorted (descending key) l -> StronglySorted (descending key) (insert_by cmp x l).
Proof.
  induction l as [| y l IH]; intro Hs; simpl.
  - constructor; constructor.
  - apply StronglySorted_inv in Hs. destruct Hs as [Hl Hy].
    destruct (ltb_cases 0 (cmp x y)) as [[E H] | [E H]];
      unfold gtb; rewrite E.
    + apply cmp_key in H. constructor; [now apply IH |].
      apply Permutation_Forall with (x :: l); [apply insert_by_perm |].
      constructor; [unfold descending; lra | assumption].
    + assert (Hxy : key y <= key x).
      { apply Qnot_lt_le. intro C. apply cmp_key in C. lra. }
      constructor; [constructor; assumption |].
      constructor; [exact Hxy |].
      eapply Forall_impl; [| exact Hy].
      unfold descending. intros z Hz. lra.
Qed.

Lemma Array_sort_sorted l : StronglySorted (descending key) (Array_sort cmp l).
Proof.
  induction l as [| x l IH]; simpl.
  - constructor.
  - now apply insert_by_sorted.
Qed.

Lemma insert_by_stable s x l :
  filter (has_key key s) (insert_by cmp x l) = filter (has_key key s) (x :: l).
Proof.
  induction l as [| y l IH]; [reflexivity |].
  cbn [insert_by].
  destruct (ltb_cases 0 (cmp x y)) as [[E H] | [E H]];
    unfold gtb; rewrite E; [| reflexivity].
  apply cmp_key in H.
  cbn [filter] in *. rewrite IH.
  destruct (has_key key s x) eqn:Ex; [| reflexivity].
  destruct (has_key key s y) eqn:Ey; [| reflexivity].
  exfalso. unfold has_key, num_eqb in Ex, Ey.
  apply Qeq_bool_iff in Ex, Ey. lra.
Qed.

Lemma Array_sort_stable s l :
  filter (has_key key s) (Array_sort cmp l) = filter (has_key key s) l.
Proof.
  induction l as [| x l IH]; [reflexivity |].
  cbn [Array_sort fold_right]. fold (Array_sort cmp l).
  rewrite insert_by_stable. cbn [filter]. now rewrite IH.
Qed.

Lemma has_key_same x : has_key key (key x) x = true.
Proof. apply Qeq_bool_iff. reflexivity. Qed.

Lemma has_key_true s x : has_key key s x = true <-> key x == s.
Proof. apply Qeq_bool_iff. Qed.

(** The head of a sorted list carries the largest key. *)
Lemma head_key_largest x l y :
  StronglySorted (descending key) (x :: l) -> In y (x :: l) -> key y <= key x.
Proof.
  intros Hs [<- | Hin]; [lra |].
  apply StronglySorted_inv in Hs. destruct Hs as [_ Hall].
  rewrite Forall_forall in Hall. apply Hall, Hin.
Qed.

(** Two sorted lists that agree key by key are the same list: the result of
    a stable sort does not depend on the sorting algorithm. *)
Lemma sorted_stable_unique l1 : forall l2,
  StronglySorted (descending key) l1 -> StronglySorted (descending key) l2 ->
  (forall s, filter (has_key key s) l1 = filter (has_key key s) l2) ->
  l1 = l2.
Proof.
  induction l1 as [| x l1 IH]; intros l2 H1 H2 Hf.
  - destruct l2 as [| y l2]; [reflexivity |].
    specialize (Hf (key y)). cbn [filter] in Hf.
    rewrite has_key_same in Hf. discriminate Hf.
  - destruct l2 as [| y l2].
    { specialize (Hf (key x)). cbn [filter] in Hf.
      rewrite has_key_same in Hf. discriminate Hf. }
    assert (Hyx : key y <= key x).
    { apply (head_key_largest x l1 y H1).
      assert (Hy : In y (filter (has_key key (key y)) (x :: l1))).
      { rewrite (Hf (key y)). cbn [filter]. rewrite has_key_same.
        now left. }
      apply filter_In in Hy. apply Hy. }
    assert (Hxy : key x <= key y).
    { apply (head_key_largest y l2 x H2).
      assert (Hx : In x (filter (has_key key (key x)) (y :: l2))).
      { rewrite <- (Hf (key x)). cbn [filter]. rewrite has_key_same.
        now left. }
      apply filter_In in Hx. apply Hx. }
    assert (Heq : x = y).
    { pose proof (Hf (key x)) as Hk. cbn [filter] in Hk.
      rewrite has_key_same in Hk.
      replace (has_key key (key x) y) with true in Hk
        by (symmetry; apply has_key_true; lra).
      now injection Hk. }
    subst y. f_equal.
    apply StronglySorted_inv in H1, H2.
    apply IH; [apply H1 | apply H2 |].
    intro s. specialize (Hf s). cbn [filter] in Hf.
    destruct (has_key key s x); [now injection Hf | exact Hf].
Qed.

Lemma Array_sort_unique l sorted :
  StronglySorted (descending key) sorted ->
  (forall s, filter (has_key key s) sorted = filter (has_key key s) l) ->
  sorted = Array_sort cmp l.
Proof.
  intros Hs Hf. apply sorted_stable_unique.
  - exact Hs.
  - apply Array_sort_sorted.
  - intro s. rewrite Array_sort_stable. apply Hf.
Qed.

End Insertion.

Lemma StronglySorted_adjacent {A : Type} (R : A -> A -> Prop) l :
  StronglySorted R l ->
  forall i a b,
    nth_error l i = Some a -> nth_error l (S i) = Some b -> R a b.
Proof.
  induction 1 as [| x l Hs IH Hall]; intros i a b Ha Hb.
  - destruct i; discriminate.
  - destruct i as [| i]; simpl in Ha, Hb.
    + injection Ha as <-. destruct l as [| y l]; [discriminate |].
      simpl in Hb. injection Hb as <-.
      now apply Forall_inv in Hall.
    + eapply IH; eassumption.
Qed.

(** The comparator [(a, b) => b.score - a.score]. *)
Lemma byScore_key (a b : RiskFactor) :
  0 < score b - score a <-> score a < score b.
Proof. split; intro H; lra. Qed.

End SortFacts.

(** ** The ranked list of risk factors *)

Module RankedFactors.

Import Calculations SortFacts.

Section Factors.

Variable Number_toString : number -> string.

Lemma collectRiskFactors_order input :
  subsequence (map name (collectRiskFactors Number_toString input))
    emissionOrder = true.
Proof.
  unfold collectRiskFactors.
  destruct (gtb (calculatePostureRisk _ _) 25);
  destruct (gtb (calculateWorkspaceRisk _ _) 25);
  destruct (gtb (calculateMovementRisk _) 25);
  destruct (gtb (slice_workHoursPerDay _) 8);
  destruct (gtb (calculateSymptomsRisk _) 0);
  reflexivity.
Qed.

Lemma generateRiskFactors_perm input :
  Permutation (collectRiskFactors Number_toString input)
    (generateRiskFactors Number_toString input).
Proof. apply Array_sort_perm. Qed.

Lemma generateRiskFactors_sorted input :
  StronglySorted (descending score)
    (generateRiskFactors Number_toString input).
Proof. apply Array_sort_sorted. intros a b. apply byScore_key. Qed.

End Factors.

(** C4.  The list [generateRiskFactors] returns holds the pushed factors,
    each score is at least the score that follows it, and for every score
    the factors that have it appear in the order in which they were pushed,
    which is posture, equipment, movement, time, symptoms. *)
Theorem generateRiskFactors_sorted_stable
  (Number_toString : number -> string) (input : RiskCalculationInput) :
  let pushed := collectRiskFactors Number_toString input in
  let ranked := generateRiskFactors Number_toString input in
  (forall i a b,
     nth_error ranked i = Some a -> nth_error ranked (S i) = Some b ->
     score b <= score a)
  /\ Permutation pushed ranked
  /\ (forall s,
        filter (fun f => num_eqb (score f) s) ranked
        = filter (fun f => num_eqb (score f) s) pushed)
  /\ subsequence (map name pushed) emissionOrder = true.
Proof.
  cbv zeta. split; [| split; [| split]].
  - intros i a b.
    apply (StronglySorted_adjacent (descending score)).
    apply generateRiskFactors_sorted.
  - apply generateRiskFactors_perm.
  - intro s. unfold generateRiskFactors.
    apply (Array_sort_stable _ score byScore_key s).
  - apply collectRiskFactors_order.
Qed.

End RankedFactors.

Module RankedFactorsWitness.

Import Calculations RankedFactors.

Example tiedInput_pushed :
  map (fun f => (name f, score f)) (collectRiskFactors plainDigits tiedInput)
  = [ ("Poor Posture Alignment", 30);
      ("Suboptimal Workspace Setup", 30);
      ("Insufficient Movement Patterns", 35) ].
Proof. vm_compute. reflexivity. Qed.

Example tiedInput_ranking :
  map (fun f => (name f, score f)) (generateRiskFactors plainDigits tiedInput)
  = [ ("Insufficient Movement Patterns", 35);
      ("Poor Posture Alignment", 30);
      ("Suboptimal Workspace Setup", 30) ].
Proof. vm_compute. reflexivity. Qed.

Lemma generateRiskFactors_sorted_stable_witness :
  exists a b,
    nth_error (generateRiskFactors plainDigits tiedInput) 1 = Some a
    /\ nth_error (generateRiskFactors plainDigits tiedInput) 2 = Some b
    /\ name a = "Poor Posture Alignment"
    /\ name b = "Suboptimal Workspace Setup"
    /\ score b <= score a.
Proof.
  eexists. eexists.
  split; [vm_compute; reflexivity |].
  split; [vm_compute; reflexivity |].
  split; [reflexivity |].
  split; [reflexivity |].
  apply (proj1 (generateRiskFactors_sorted_stable plainDigits tiedInput) 1%nat);
    vm_compute; reflexivity.
Defined.

End RankedFactorsWitness.

(** ** Priority areas *)

Module PriorityFacts.

Import Calculations RiskAssessment SortFacts.

Lemma FactorCategory_eqb_eq a b : FactorCategory_eqb a b = true <-> a = b.
Proof. destruct a, b; simpl; split; congruence. Qed.

Lemma RiskLevel_eqb_eq a b : RiskLevel_eqb a b = true <-> a = b.
Proof. destruct a, b; simpl; split; congruence. Qed.

Lemma Set_of_In {A : Type} (eqb : A -> A -> bool) x l :
  In x (Set_of eqb l) -> In x l.
Proof.
  induction l as [| y l IH]; simpl; [trivial |].
  intros [-> | H]; [now left |].
  apply filter_In in H. right. apply IH, H.
Qed.

Lemma Set_has_In c l :
  Set_has FactorCategory_eqb (Set_of FactorCategory_eqb l) c = true ->
  In c l.
Proof.
  unfold Set_has. intro H. apply existsb_exists in H.
  destruct H as (y & Hy & E). apply FactorCategory_eqb_eq in E. subst y.
  eapply Set_of_In, Hy.
Qed.

Lemma In_slice0 {A : Type} (x : A) n l : In x (slice0 n l) -> In x l.
Proof.
  unfold slice0. intro H.
  rewrite <- (firstn_skipn n l). apply in_or_app. now left.
Qed.

(** A category among the top three comes from a factor of the input. *)
Lemma top_category_from_input c factors :
  In c
    (map category
       (slice0 3
          (Array_sort (fun a b => score b - score a)
             (filter is_high_or_critical factors)))) ->
  exists f, In f factors /\ category f = c.
Proof.
  intro H. apply in_map_iff in H. destruct H as (f & Hc & Hf).
  exists f. split; [| exact Hc].
  apply In_slice0, Array_sort_In, filter_In in Hf. apply Hf.
Qed.

Lemma identifyPriorityAreas_length factors :
  (List.length (identifyPriorityAreas factors) <= 5)%nat.
Proof.
  unfold identifyPriorityAreas, slice0. cbv zeta. apply firstn_le_length.
Qed.

Lemma identifyPriorityAreas_urgent_first factors :
  (exists f, In f factors /\ category f = CatPosture
             /\ includes "Discomfort" (name f) = true
             /\ severity f = Critical) ->
  nth_error (identifyPriorityAreas factors) 0 = Some urgentSentence.
Proof.
  intros (f & Hin & Hc & Hn & Hs).
  assert (Hf : In f (filter is_critical_discomfort factors)).
  { apply filter_In. split; [exact Hin |].
    unfold is_critical_discomfort. rewrite Hc, Hn, Hs. reflexivity. }
  unfold identifyPriorityAreas. cbv zeta.
  destruct (filter is_critical_discomfort factors) as [| g rest];
    [destruct Hf |].
  reflexivity.
Qed.

Lemma identifyPriorityAreas_no_environment factors :
  (forall f, In f factors -> category f <> CatEnvironment) ->
  ~ In environmentSentence (identifyPriorityAreas factors).
Proof.
  intros Hcat Hin.
  unfold identifyPriorityAreas in Hin. cbv zeta in Hin.
  apply In_slice0 in Hin.
  set (cats := Set_of FactorCategory_eqb _) in Hin.
  assert (Henv : Set_has FactorCategory_eqb cats CatEnvironment = false).
  { destruct (Set_has FactorCategory_eqb cats CatEnvironment) eqn:E;
      [| reflexivity].
    apply Set_has_In, top_category_from_input in E.
    destruct E as (f & Hf & Hc). now destruct (Hcat f Hf). }
  rewrite Henv in Hin.
  unfold push, unshift, environmentSentence in Hin.
  destruct (Set_has FactorCategory_eqb cats CatPosture);
  destruct (Set_has FactorCategory_eqb cats CatEquipment);
  destruct (Set_has FactorCategory_eqb cats CatMovement);
  destruct (Set_has FactorCategory_eqb cats CatTime);
  destruct (0 <? List.length (filter is_critical_discomfort factors))%nat;
  simpl in Hin;
  repeat (destruct Hin as [Hin | Hin]; [discriminate Hin |]);
  exact Hin.
Qed.

(** C8.  [identifyPriorityAreas] returns at most five strings, and when the
    input holds a posture factor whose name contains Discomfort and whose
    severity is critical, the sentence about existing pain comes first. *)
Theorem identifyPriorityAreas_capped_urgent_first
  (factors : list RiskFactor) :
  (List.length (identifyPriorityAreas factors) <= 5)%nat
  /\ ((exists f, In f factors /\ category f = CatPosture
                 /\ includes "Discomfort" (name f) = true
                 /\ severity f = Critical) ->
      nth_error (identifyPriorityAreas factors) 0 = Some urgentSentence).
Proof.
  split.
  - apply identifyPriorityAreas_length.
  - apply identifyPriorityAreas_urgent_first.
Qed.

Example priorities_of_pain_and_hours :
  identifyPriorityAreas [longHours; criticalPain]
  = [ urgentSentence;
      "Improve posture alignment and body positioning";
      "Manage work duration and scheduling" ].
Proof. vm_compute. reflexivity. Qed.

Lemma identifyPriorityAreas_capped_urgent_first_witness :
  nth_error (identifyPriorityAreas [longHours; criticalPain]) 0
  = Some urgentSentence.
Proof.
  apply (proj2
           (identifyPriorityAreas_capped_urgent_first
              [longHours; criticalPain])).
  exists criticalPain.
  split; [right; left; reflexivity |].
  split; [reflexivity |].
  split; reflexivity.
Defined.

Section Aggregated.

Variable Number_toString : number -> string.

Lemma collectRiskFactors_categories input :
  Forall produced_category (collectRiskFactors Number_toString input).
Proof.
  unfold collectRiskFactors, produced_category, push.
  destruct (gtb (calculatePostureRisk _ _) 25);
  destruct (gtb (calculateWorkspaceRisk _ _) 25);
  destruct (gtb (calculateMovementRisk _) 25);
  destruct (gtb (slice_workHoursPerDay _) 8);
  destruct (gtb (calculateSymptomsRisk _) 0);
  cbn [app];
  repeat (constructor; [cbn [category]; tauto |]); constructor.
Qed.

Lemma generateRiskFactors_categories input :
  Forall produced_category (generateRiskFactors Number_toString input).
Proof.
  eapply Permutation_Forall;
    [apply Array_sort_perm | apply collectRiskFactors_categories].
Qed.

End Aggregated.

(** C10.  Every factor [generateRiskFactors] returns is a posture,
    equipment, movement or time factor, never an environment one, so the
    priority areas computed from them never hold the sentence about
    environmental conditions. *)
Theorem no_environment_from_aggregator
  (Number_toString : number -> string) (input : RiskCalculationInput) :
  Forall produced_category (generateRiskFactors Number_toString input)
  /\ Forall (fun f => category f <> CatEnvironment)
       (generateRiskFactors Number_toString input)
  /\ ~ In environmentSentence
       (identifyPriorityAreas (generateRiskFactors Number_toString input)).
Proof.
  pose proof (generateRiskFactors_categories Number_toString input) as Hcat.
  assert (Hne : Forall (fun f => category f <> CatEnvironment)
                  (generateRiskFactors Number_toString input)).
  { eapply Forall_impl; [| exact Hcat].
    intros f [H | [H | [H | H]]]; rewrite H; discriminate. }
  split; [exact Hcat |]. split; [exact Hne |].
  apply identifyPriorityAreas_no_environment.
  apply Forall_forall, Hne.
Qed.

(** The same on the analysis [performRiskAnalysis] assembles. *)
Corollary performRiskAnalysis_no_environment
  (Number_toString : number -> string) (now : Z)
  (assessment : ErgonomicAssessment) (profile : UserProfile) :
  ~ In environmentSentence
      (priorityAreas
         (performRiskAnalysis Number_toString now assessment profile)).
Proof.
  unfold performRiskAnalysis. cbn [priorityAreas].
  apply identifyPriorityAreas_no_environment.
  apply Forall_forall.
  eapply Forall_impl; [| apply generateRiskFactors_categories].
  intros f [H | [H | [H | H]]]; rewrite H; discriminate.
Qed.

End PriorityFacts.

(** ** Trend over a history of assessments *)

Module TrendFacts.

Import Calculations RiskAssessment SortFacts.

Lemma byDate_key a b : 0 < byDate a b <-> negDate a < negDate b.
Proof. unfold byDate, negDate. split; intro H; lra. Qed.

Lemma sortedByDate_ascending l :
  StronglySorted ascendingDates (Array_sort byDate l).
Proof.
  pose proof (Array_sort_sorted byDate negDate byDate_key l) as H.
  induction H as [| x s Hs IH Hall]; constructor; [exact IH |].
  eapply Forall_impl; [| exact Hall].
  intros y Hy. unfold descending, negDate in Hy. unfold ascendingDates.
  rewrite Zle_Qle. lra.
Qed.

Lemma same_date_key d a :
  has_key negDate (- inject_Z d) a = (assessmentDate a =? d)%Z.
Proof.
  unfold has_key, num_eqb, negDate.
  destruct (Z.eqb_spec (assessmentDate a) d) as [-> | Hne].
  - apply Qeq_bool_iff. reflexivity.
  - apply not_true_is_false. intro E.
    apply Qeq_bool_iff in E. apply Hne.
    apply inject_Z_injective. lra.
Qed.

Lemma sortedByDate_stable d l :
  filter (fun a => (assessmentDate a =? d)%Z) (Array_sort byDate l)
  = filter (fun a => (assessmentDate a =? d)%Z) l.
Proof.
  rewrite <- (filter_ext _ _ (same_date_key d) (Array_sort byDate l)).
  rewrite <- (filter_ext _ _ (same_date_key d) l).
  apply (Array_sort_stable byDate negDate byDate_key).
Qed.

Lemma nth_last_entry {A : Type} (x : A) middle y d :
  nth (List.length (x :: middle ++ [y]) - 1) (x :: middle ++ [y]) d = y.
Proof.
  replace (List.length (x :: middle ++ [y]) - 1)%nat
    with (List.length (x :: middle)).
  - apply (nth_middle (x :: middle) [] y d).
  - simpl. rewrite length_app. simpl. lia.
Qed.

Lemma two_or_more_ends {A : Type} (l : list A) :
  (2 <= List.length l)%nat ->
  exists x middle y, l = x :: middle ++ [y].
Proof.
  destruct l as [| x tail]; simpl; [lia |]. intro H.
  destruct (exists_last (l := tail)) as (middle & y & ->).
  - destruct tail; simpl in H; [lia | discriminate].
  - now exists x, middle, y.
Qed.

Lemma msPerDay_pos : 0 < msPerDay.
Proof. reflexivity. Qed.

Lemma Math_abs_rate totalChange timeSpan :
  0 < timeSpan ->
  Math_abs (totalChange / timeSpan) == Qabs totalChange / timeSpan.
Proof.
  intro H. unfold Math_abs, Qdiv. rewrite Qabs_Qmult.
  rewrite (Qabs_pos (/ timeSpan)); [reflexivity |].
  apply Qlt_le_weak, Qinv_lt_0_compat, H.
Qed.

Lemma calculateRiskTrend_ends assessments first middle last :
  (2 <= List.length assessments)%nat ->
  Array_sort byDate assessments = first :: middle ++ [last] ->
  let totalChange := overallScore last - overallScore first in
  trend (calculateRiskTrend assessments) = classify totalChange
  /\ changeRate (calculateRiskTrend assessments)
     = Math_abs (if gtb (elapsedDays first last) 0
                 then totalChange / elapsedDays first last else 0).
Proof.
  intros Hlen Hsorted. cbv zeta.
  destruct assessments as [| a0 [| a1 rest]]; simpl in Hlen; try lia.
  unfold calculateRiskTrend. cbv zeta. rewrite Hsorted.
  rewrite nth_last_entry. cbn [nth trend changeRate].
  split; reflexivity.
Qed.

Lemma classify_spec totalChange :
  (Qabs totalChange < 5 -> classify totalChange = Stable)
  /\ (5 <= Qabs totalChange -> totalChange < 0 ->
      classify totalChange = Improving)
  /\ (5 <= Qabs totalChange -> 0 <= totalChange ->
      classify totalChange = Declining).
Proof.
  unfold classify, Math_abs.
  destruct (ltb_cases (Qabs totalChange) 5) as [[E1 H1] | [E1 H1]];
  destruct (ltb_cases totalChange 0) as [[E2 H2] | [E2 H2]];
  rewrite E1, ?E2;
  (split; [| split]); intros; first [ reflexivity | exfalso; lra ].
Qed.

Lemma sorted_pair a b :
  (assessmentDate a <= assessmentDate b)%Z ->
  Array_sort byDate [a; b] = a :: [] ++ [b].
Proof.
  intro H. cbn [Array_sort fold_right insert_by app].
  replace (gtb (byDate a b) 0) with false; [reflexivity |].
  symmetry. apply gtb_false. unfold byDate.
  rewrite Zle_Qle in H. lra.
Qed.

Lemma two_points a b :
  (assessmentDate a <= assessmentDate b)%Z ->
  let totalChange := overallScore b - overallScore a in
  trend (calculateRiskTrend [a; b]) = classify totalChange
  /\ changeRate (calculateRiskTrend [a; b])
     = Math_abs (if gtb (elapsedDays a b) 0
                 then totalChange / elapsedDays a b else 0).
Proof.
  intro H.
  apply (calculateRiskTrend_ends [a; b] a [] b); [simpl; lia |].
  now apply sorted_pair.
Qed.

Lemma Qabs_small x y : x == y -> Qabs (x - y) < 5.
Proof.
  intro H. apply Qabs_Qlt_condition. split; lra.
Qed.

Lemma Qabs_large x : 5 <= x \/ x <= -5 -> 5 <= Qabs x.
Proof.
  intros [H | H].
  - apply Qle_trans with x; [exact H | apply Qle_Qabs].
  - rewrite <- Qabs_opp. apply Qle_trans with (- x); [lra | apply Qle_Qabs].
Qed.

(** C7.  With fewer than two assessments the trend is stable and the change
    rate 0.  With two or more, the assessments are put in ascending order of
    date (equal dates keeping their order), the total change is the last
    score minus the first, the trend is stable when the total change is
    below 5 in absolute value, improving when it is negative, declining
    otherwise, and the change rate is the absolute total change divided by
    the days elapsed, or 0 when no time elapsed.  For two assessments in
    date order, scores 80 and 80 give stable with rate 0, 80 then 60
    improving, 60 then 80 declining. *)
Theorem calculateRiskTrend_spec (assessments : list ErgonomicAssessment) :
  let result := calculateRiskTrend assessments in
  ((List.length assessments < 2)%nat ->
   trend result = Stable /\ changeRate result == 0)
  /\ ((2 <= List.length assessments)%nat ->
      exists first middle last,
        let sorted := first :: middle ++ [last] in
        let totalChange := overallScore last - overallScore first in
        let days := elapsedDays first last in
        Array_sort byDate assessments = sorted
        /\ Permutation assessments sorted
        /\ StronglySorted ascendingDates sorted
        /\ (forall d,
              filter (fun a => (assessmentDate a =? d)%Z) sorted
              = filter (fun a => (assessmentDate a =? d)%Z) assessments)
        /\ (Qabs totalChange < 5 -> trend result = Stable)
        /\ (5 <= Qabs totalChange -> totalChange < 0 ->
            trend result = Improving)
        /\ (5 <= Qabs totalChange -> 0 <= totalChange ->
            trend result = Declining)
        /\ (0 < days -> changeRate result == Qabs totalChange / days)
        /\ (days <= 0 -> changeRate result == 0))
  /\ (forall a b,
        (assessmentDate a <= assessmentDate b)%Z ->
        let two := calculateRiskTrend [a; b] in
        (overallScore a == 80 -> overallScore b == 80 ->
         trend two = Stable /\ changeRate two == 0)
        /\ (overallScore a == 80 -> overallScore b == 60 ->
            trend two = Improving)
        /\ (overallScore a == 60 -> overallScore b == 80 ->
            trend two = Declining)).
Proof.
  cbv zeta. split; [| split].
  - intro H.
    destruct assessments as [| a0 [| a1 rest]]; simpl in H; try lia;
      split; reflexivity.
  - intro Hlen.
    destruct (two_or_more_ends (Array_sort byDate assessments))
      as (first & middle & last & Hsorted).
    { now rewrite Array_sort_length. }
    exists first, middle, last.
    destruct (calculateRiskTrend_ends _ _ _ _ Hlen Hsorted) as [Ht Hr].
    cbv zeta in Ht, Hr.
    destruct (classify_spec (overallScore last - overallScore first))
      as (Hs & Hi & Hd).
    rewrite Ht, Hr, <- Hsorted.
    split; [reflexivity |].
    split; [apply Array_sort_perm |].
    split; [apply sortedByDate_ascending |].
    split; [intro d; apply sortedByDate_stable |].
    split; [exact Hs |]. split; [exact Hi |]. split; [exact Hd |].
    split.
    + intro Hdays.
      replace (gtb (elapsedDays first last) 0) with true
        by (symmetry; now apply gtb_true).
      now apply Math_abs_rate.
    + intro Hdays.
      replace (gtb (elapsedDays first last) 0) with false
        by (symmetry; now apply gtb_false).
      reflexivity.
  - intros a b Hdates.
    destruct (two_points a b Hdates) as [Ht Hr]. cbv zeta in Ht, Hr.
    destruct (classify_spec (overallScore b - overallScore a))
      as (Hs & Hi & Hd).
    rewrite Ht, Hr.
    split; [| split].
    + intros Ha Hb. split.
      * apply Hs, Qabs_small. lra.
      * assert (Hz : overallScore b - overallScore a == 0) by lra.
        destruct (gtb (elapsedDays a b) 0).
        -- unfold Math_abs. rewrite Hz. unfold Qdiv.
           rewrite Qmult_0_l. reflexivity.
        -- reflexivity.
    + intros Ha Hb. apply Hi; [apply Qabs_large; right |]; lra.
    + intros Ha Hb. apply Hd; [apply Qabs_large; left |]; lra.
Qed.

End TrendFacts.

Module TrendWitness.

Import RiskAssessment TrendFacts.

Example ten_days_20_points :
  let result :=
    calculateRiskTrend [assessedAt 864000000 60; assessedAt 0 80] in
  trend result = Improving /\ changeRate result == 2.
Proof. vm_compute. split; reflexivity. Qed.

Lemma calculateRiskTrend_spec_witness :
  trend (calculateRiskTrend [assessedAt 0 80; assessedAt 864000000 60])
  = Improving
  /\ trend (calculateRiskTrend [assessedAt 0 80]) = Stable.
Proof.
  split.
  - destruct (calculateRiskTrend_spec []) as (_ & _ & Hpair).
    destruct (Hpair (assessedAt 0 80) (assessedAt 864000000 60))
      as (_ & Himproving & _).
    + simpl. lia.
    + apply Himproving; reflexivity.
  - destruct (calculateRiskTrend_spec [assessedAt 0 80]) as (Hfew & _).
    apply Hfew. simpl. lia.
Defined.

End TrendWitness.

(** ** The template recommendations *)

Module TemplateFacts.

Import Recommendations.


Section TwoClocks.

Variables clock1 clock2 : nat -> Z.





End TwoClocks.



End TemplateFacts.

Module TemplateExamples.

Import Recommendations TemplateFacts TrendWitness.

(** Twelve recommendations are pushed, eight are returned, and those are
    the first eight pushed. *)
Example truncation_keeps_first_eight :
  List.length
    (emitted (emitAll frozenClock (assessedAt 0 60) crowdedAnalysis))
  = 12%nat
  /\ map rec_id
       (recommendations
          (generateTemplateRecommendations frozenClock (assessedAt 0 60)
             crowdedAnalysis sampleProfile))
     = [ "rec_1700000000000_0"; "rec_1700000000000_1";
         "rec_1700000000000_2"; "rec_1700000000000_3";
         "rec_1700000000000_4"; "rec_1700000000000_5";
         "rec_1700000000000_6"; "rec_1700000000000_7" ].
Proof. vm_compute. split; reflexivity. Qed.

End TemplateExamples.

(** ** Replies of the external generator *)

Module GeneratorFacts.

Import Recommendations.

(** Whenever a statement inside [try] throws, the template set is what is
    returned. *)
Lemma fallback_when_thrown clock reply assessment riskAnalysis profile
  message :
  tryGenerate clock reply assessment profile = Thrown message ->
  generateAIRecommendations clock reply assessment riskAnalysis profile
  = RecommendationSet_objects
      (generateTemplateRecommendations clock assessment riskAnalysis profile).
Proof.
  intro H. unfold generateAIRecommendations. now rewrite H.
Qed.

Lemma failed_exchange_falls_back clock reply assessment riskAnalysis profile :
  (forall v, reply <> ParsedContent v) ->
  generateAIRecommendations clock reply assessment riskAnalysis profile
  = RecommendationSet_objects
      (generateTemplateRecommendations clock assessment riskAnalysis profile).
Proof.
  intro H. destruct reply; try reflexivity. now destruct (H parsedRecommendations).
Qed.

(** A parsed reply is accepted exactly when its [recommendations] property
    is an array, whatever the array holds. *)
Lemma accepted_iff_array clock v assessment riskAnalysis profile :
  aiGenerated
    (generateAIRecommendations clock (ParsedContent v) assessment
       riskAnalysis profile) = true
  <-> exists items, recommendationsArray v = Value items.
Proof.
  unfold generateAIRecommendations, tryGenerate, parsedContent, bind.
  destruct (recommendationsArray v) as [items | message].
  - cbn [aiGenerated]. split; [intros _; now exists items | reflexivity].
  - cbn [aiGenerated RecommendationSet_objects generateTemplateRecommendations].
    split; [discriminate | intros (items & H); discriminate H].
Qed.

(** The objects made from the templates match the schema. *)
Lemma template_objects_match_schema (r : Recommendation) :
  matchesRecommendationSchema (Recommendation_object r) = true.
Proof.
  unfold matchesRecommendationSchema, Recommendation_object.
  cbn [getField String.eqb Ascii.eqb Bool.eqb holdsString holdsOneOf
       holdsStrings andb].
  destruct (rec_category r), (priority r), (rec_type r), (estimatedCost r),
    (implementationDifficulty r); cbn;
    induction (actionSteps r) as [| s l IH]; cbn; auto.
Qed.

(** C2 on the code.  The content above does not match the schema, yet the
    function returns it, id added, as an AI-generated set; that set is not
    the template set. *)
Theorem offSchema_reply_accepted (clock : nat -> Z)
  (assessment : ErgonomicAssessment) (riskAnalysis : RiskAnalysis)
  (profile : UserProfile) :
  let result :=
    generateAIRecommendations clock (ParsedContent offSchemaContent)
      assessment riskAnalysis profile in
  contentMatchesSchema offSchemaContent = false
  /\ aiGenerated result = true
  /\ recommendations result
     = [ JObject
           [ ("id", JString ("rec_" ++ string_of_Z (clock 0%nat) ++ "_0"));
             ("category", JString "urgent");
             ("priority", JString "extreme");
             ("type", JString "diet");
             ("title", JString "Drink water") ] ]
  /\ result
     <> RecommendationSet_objects
          (generateTemplateRecommendations clock assessment riskAnalysis
             profile).
Proof.
  cbv zeta. split; [reflexivity |]. split; [reflexivity |].
  split; [reflexivity |].
  intro H. apply (f_equal aiGenerated) in H. discriminate H.
Qed.

End GeneratorFacts.

(** ** Lists and numbers, continued *)

Module ListFacts.

Import ListSpec.

Lemma Subseq_filter {A : Type} (f : A -> bool) l : Subseq (filter f l) l.
Proof.
  induction l as [| x l IH]; simpl.
  - constructor.
  - destruct (f x); now constructor.
Qed.

Lemma Subseq_refl {A : Type} (l : list A) : Subseq l l.
Proof. induction l; now constructor. Qed.

Lemma Subseq_nil_l {A : Type} (l : list A) : Subseq [] l.
Proof. induction l; now constructor. Qed.

Lemma Subseq_trans {A : Type} (l1 l2 l3 : list A) :
  Subseq l1 l2 -> Subseq l2 l3 -> Subseq l1 l3.
Proof.
  intros H12 H23. revert l1 H12.
  induction H23 as [| x l2 l3 H23 IH | x l2 l3 H23 IH]; intros l1 H12.
  - exact H12.
  - apply Subseq_skip. now apply IH.
  - inversion H12; subst.
    + apply Subseq_skip. now apply IH.
    + apply Subseq_keep. now apply IH.
Qed.

Lemma Subseq_In {A : Type} (l l' : list A) x : Subseq l l' -> In x l -> In x l'.
Proof.
  induction 1 as [| y l l' H IH | y l l' H IH]; simpl; intuition.
Qed.

Lemma Subseq_NoDup {A : Type} (l l' : list A) :
  Subseq l l' -> NoDup l' -> NoDup l.
Proof.
  induction 1 as [| y l l' H IH | y l l' H IH]; intro Hnd.
  - exact Hnd.
  - inversion Hnd; subst. now apply IH.
  - inversion Hnd; subst. constructor; [| now apply IH].
    intro Hin. eapply Subseq_In in Hin; eauto.
Qed.

Lemma Subseq_firstn {A : Type} n (l : list A) : Subseq (firstn n l) l.
Proof.
  revert n. induction l as [| x l IH]; intros [| n]; simpl;
    try constructor; try apply Subseq_nil_l; apply IH.
Qed.

Lemma Subseq_suffix {A : Type} (l p : list A) : Subseq p (l ++ p).
Proof. induction l; simpl; [apply Subseq_refl | now constructor]. Qed.

Lemma Subseq_same_end {A : Type} (l l' p : list A) :
  Subseq l l' -> Subseq (l ++ p) (l' ++ p).
Proof.
  induction 1; simpl; [apply Subseq_refl | now constructor | now constructor].
Qed.

Lemma Subseq_longer {A : Type} (l l' p : list A) :
  Subseq l l' -> Subseq l (l' ++ p).
Proof.
  induction 1; simpl; [apply Subseq_nil_l | now constructor | now constructor].
Qed.

Lemma filter_all {A : Type} (f : A -> bool) l :
  (forall x, In x l -> f x = true) -> filter f l = l.
Proof.
  induction l as [| x l IH]; simpl; intro H; [reflexivity |].
  rewrite (H x (or_introl eq_refl)), IH; [reflexivity |].
  intros y Hy. apply H. now right.
Qed.

Lemma filter_nothing {A : Type} (f : A -> bool) l :
  (forall x, f x = false) -> filter f l = [].
Proof.
  intro H. induction l as [| x l IH]; simpl; [reflexivity |].
  now rewrite H.
Qed.

End ListFacts.

Module NumberMore.

Lemma Math_round_mono x y : x <= y -> Math_round x <= Math_round y.
Proof.
  intro H. unfold Math_round. rewrite <- Zle_Qle.
  apply Qfloor_resp_le. lra.
Qed.


Lemma Math_round_compat x y : x == y -> Math_round x == Math_round y.
Proof.
  intro H. unfold Math_round. rewrite H. reflexivity.
Qed.

Lemma Math_min_monotone c x y : x <= y -> Math_min c x <= Math_min c y.
Proof.
  intro H. unfold Math_min.
  destruct (ltb_cases x c) as [[E1 H1] | [E1 H1]];
  destruct (ltb_cases y c) as [[E2 H2] | [E2 H2]];
  rewrite E1, E2; lra.
Qed.

End NumberMore.

(** ** More on the stable sort *)

Module SortMore.

Import ListSpec ListFacts SortFacts.

Lemma filter_comm {A : Type} (f g : A -> bool) l :
  filter f (filter g l) = filter g (filter f l).
Proof.
  induction l as [| x l IH]; simpl; [reflexivity |].
  destruct (f x) eqn:Ef, (g x) eqn:Eg; simpl; rewrite ?Ef, ?Eg, IH;
    reflexivity.
Qed.

Lemma filter_idem {A : Type} (f : A -> bool) l :
  filter f (filter f l) = filter f l.
Proof.
  induction l as [| x l IH]; simpl; [reflexivity |].
  destruct (f x) eqn:Ef; simpl; rewrite ?Ef, IH; reflexivity.
Qed.

Lemma StronglySorted_filter {A : Type} (R : A -> A -> Prop) f l :
  StronglySorted R l -> StronglySorted R (filter f l).
Proof.
  induction 1 as [| x l Hs IH Hall]; simpl; [constructor |].
  destruct (f x); [| exact IH].
  constructor; [exact IH |].
  rewrite Forall_forall in *. intros y Hy. apply filter_In in Hy.
  apply Hall, Hy.
Qed.

Section Keyed.

Context {A : Type} (cmp : A -> A -> number) (key : A -> number).
Hypothesis cmp_key : forall a b, 0 < cmp a b <-> key a < key b.

(** Sorting a sorted list changes nothing. *)
Lemma Array_sort_idem l :
  Array_sort cmp (Array_sort cmp l) = Array_sort cmp l.
Proof.
  symmetry. apply (Array_sort_unique cmp key cmp_key).
  - now apply Array_sort_sorted.
  - reflexivity.
Qed.

Lemma Array_sort_of_sorted l :
  StronglySorted (descending key) l -> Array_sort cmp l = l.
Proof.
  intro H. symmetry. now apply (Array_sort_unique cmp key cmp_key).
Qed.

(** Leaving entries out and sorting can be done in either order. *)
Lemma filter_Array_sort f l :
  filter f (Array_sort cmp l) = Array_sort cmp (filter f l).
Proof.
  apply (Array_sort_unique cmp key cmp_key).
  - apply StronglySorted_filter. now apply Array_sort_sorted.
  - intro s. rewrite filter_comm.
    rewrite (Array_sort_stable cmp key cmp_key). apply filter_comm.
Qed.

(** Two arrangements of the same entries sort to the same list when no two
    entries share a key. *)
Lemma Array_sort_perm_invariant l1 l2 :
  Permutation l1 l2 ->
  (forall s, (List.length (filter (has_key key s) l1) <= 1)%nat) ->
  Array_sort cmp l1 = Array_sort cmp l2.
Proof.
  intros Hperm Hone.
  apply (Array_sort_unique cmp key cmp_key).
  - now apply Array_sort_sorted.
  - intro s. rewrite (Array_sort_stable cmp key cmp_key).
    clear cmp cmp_key.
    induction Hperm as [| x l l' Hp IH | x y l | l l' l'' H1 IH1 H2 IH2].
    + reflexivity.
    + simpl. rewrite IH; [reflexivity |].
      intro s'. specialize (Hone s'). simpl in Hone.
      destruct (has_key key s' x); simpl in Hone; lia.
    + specialize (Hone s). simpl in *.
      destruct (has_key key s y), (has_key key s x); simpl in Hone;
        try reflexivity. lia.
    + rewrite IH1 by exact Hone. apply IH2.
      intro s'. specialize (Hone s').
      assert (Hlen : List.length (filter (has_key key s') l')
                     = List.length (filter (has_key key s') l)).
      { apply Permutation_length, Permutation_sym.
        clear -H1. induction H1; simpl.
        - constructor.
        - destruct (has_key key s' x); [now constructor | assumption].
        - destruct (has_key key s' y), (has_key key s' x);
            try apply Permutation_refl. apply perm_swap.
        - eapply perm_trans; eassumption. }
      lia.
Qed.

End Keyed.

End SortMore.

(** ** Filtering and ranking recommendations *)

Module ToolFacts.

Import Recommendations RecommendationTools ListSpec ListFacts ToolSpec SortFacts
  SortMore.

Lemma rejects_false given actual :
  rejects given actual = false <->
  (forall s, in_force given s -> actual = s).
Proof.
  unfold rejects, in_force. destruct given as [[| c w] |].
  - split; [| reflexivity]. intros _ s [E Hne]. injection E as <-.
    now destruct Hne.
  - rewrite negb_false_iff, String.eqb_eq. split.
    + intros -> s [E _]. now injection E.
    + intro H. apply H. split; [reflexivity | discriminate].
  - split; [| reflexivity]. intros _ s [E _]. discriminate E.
Qed.

Lemma filterRecommendations_In recommendations filters rec :
  In rec (filterRecommendations recommendations filters)
  <-> In rec recommendations /\ passes filters rec.
Proof.
  unfold filterRecommendations, passes. rewrite filter_In.
  rewrite <- !rejects_false.
  destruct (rejects (filter_category filters) _);
  destruct (rejects (filter_priority filters) _);
  destruct (rejects (filter_type filters) _);
  destruct (rejects (filter_cost filters) _);
  destruct (rejects (filter_difficulty filters) _);
  intuition congruence.
Qed.

(** X1.  [filterRecommendations] keeps exactly the recommendations that
    have, for every filter field that is present and not the empty string,
    the value the field names; it keeps them in their order; without
    filters it returns the list unchanged; and a category filter that names
    none of the three categories leaves nothing. *)
Theorem filterRecommendations_spec
  (recommendations : list Recommendation) (filters : RecommendationFilters) :
  (forall rec,
     In rec (filterRecommendations recommendations filters)
     <-> In rec recommendations /\ passes filters rec)
  /\ Subseq (filterRecommendations recommendations filters) recommendations
  /\ filterRecommendations recommendations noFilters = recommendations
  /\ (forall s,
        in_force (filter_category filters) s ->
        (forall c, RecCategory_name c <> s) ->
        filterRecommendations recommendations filters = []).
Proof.
  split; [intro rec; apply filterRecommendations_In |].
  split; [apply Subseq_filter |].
  split; [now apply filter_all |].
  intros s Hs Hnone.
  destruct (filterRecommendations recommendations filters) as [| rec rest] eqn:E;
    [reflexivity |].
  assert (Hin : In rec (filterRecommendations recommendations filters))
    by (rewrite E; now left).
  apply filterRecommendations_In in Hin. destruct Hin as [_ (Hc & _)].
  now destruct (Hnone (rec_category rec) (Hc s Hs)).
Qed.

(** X2.  Two filters can be applied in either order, and applying a filter
    twice is the same as applying it once. *)
Theorem filterRecommendations_compose
  (recommendations : list Recommendation)
  (first second : RecommendationFilters) :
  filterRecommendations (filterRecommendations recommendations first) second
  = filterRecommendations (filterRecommendations recommendations second) first
  /\ filterRecommendations (filterRecommendations recommendations first) first
     = filterRecommendations recommendations first.
Proof.
  unfold filterRecommendations. split; [apply filter_comm | apply filter_idem].
Qed.

Lemma byPriority_key a b : 0 < byPriority a b <-> rankKey a < rankKey b.
Proof.
  unfold byPriority, rankKey.
  destruct (priority a), (priority b), (rec_category a), (rec_category b),
    (estimatedCost a), (estimatedCost b);
    vm_compute; split; congruence.
Qed.

Lemma ranks_before_key a b : ranks_before a b <-> rankKey b <= rankKey a.
Proof.
  unfold ranks_before, ranks, rankKey.
  destruct (priority a), (priority b), (rec_category a), (rec_category b),
    (estimatedCost a), (estimatedCost b);
    cbn [priorityOrder categoryOrder costOrder];
    (split; [intros _; vm_compute; discriminate | intros _; lia])
    || (split; [intro H; exfalso; lia | intro H; exfalso; now vm_compute in H]).
Qed.

Lemma same_ranks_key a b : same_ranks a b = has_key rankKey (rankKey a) b.
Proof.
  unfold same_ranks, ranks, has_key, rankKey.
  destruct (priority a), (priority b), (rec_category a), (rec_category b),
    (estimatedCost a), (estimatedCost b); reflexivity.
Qed.

Lemma StronglySorted_weaken {A : Type} (R S : A -> A -> Prop) l :
  (forall a b, R a b -> S a b) -> StronglySorted R l -> StronglySorted S l.
Proof.
  intros HRS. induction 1 as [| x l Hs IH Hall]; constructor.
  - exact IH.
  - eapply Forall_impl; [| exact Hall]. intros y. apply HRS.
Qed.

(** X3.  [sortRecommendationsByPriority] rearranges its argument so that
    priority never rises along the list, category (immediate, short-term,
    long-term) never rises among equal priorities, and cost (free first)
    never rises among equal priorities and categories; recommendations that
    agree on all three keep the order they had. *)
Theorem sortRecommendationsByPriority_spec
  (recommendations : list Recommendation) :
  let sorted := sortRecommendationsByPriority recommendations in
  Permutation recommendations sorted
  /\ StronglySorted ranks_before sorted
  /\ (forall r,
        filter (same_ranks r) sorted = filter (same_ranks r) recommendations).
Proof.
  cbv zeta. unfold sortRecommendationsByPriority.
  split; [apply Array_sort_perm |]. split.
  - apply (StronglySorted_weaken (descending rankKey)).
    + intros a b H. now apply ranks_before_key.
    + apply Array_sort_sorted, byPriority_key.
  - intro r.
    rewrite (filter_ext _ _ (same_ranks_key r)).
    rewrite (filter_ext _ _ (same_ranks_key r) recommendations).
    apply (Array_sort_stable _ _ byPriority_key).
Qed.

(** X4.  Ranking a ranked list changes nothing; filtering and ranking give
    the same list in either order; and ranking what the empty filter
    returns gives a rearrangement of the whole input. *)
Theorem rank_and_filter_commute
  (recommendations : list Recommendation) (filters : RecommendationFilters) :
  sortRecommendationsByPriority
    (sortRecommendationsByPriority recommendations)
  = sortRecommendationsByPriority recommendations
  /\ filterRecommendations (sortRecommendationsByPriority recommendations)
       filters
     = sortRecommendationsByPriority
         (filterRecommendations recommendations filters)
  /\ Permutation recommendations
       (sortRecommendationsByPriority
          (filterRecommendations recommendations noFilters)).
Proof.
  unfold sortRecommendationsByPriority, filterRecommendations.
  split; [apply (Array_sort_idem _ _ byPriority_key) |].
  split; [apply (filter_Array_sort _ _ byPriority_key) |].
  rewrite filter_all by reflexivity. apply Array_sort_perm.
Qed.

End ToolFacts.

(** ** When a model scores zero *)

Module ZeroScores.

Import Calculations ModelSpec.

(** Names the value bound by the outermost [let] on the left of a goal
    [(let ...) == 0 <-> _]. *)
Ltac expose_let r :=
  match goal with
  | |- (let x := ?a in @?b x) == 0 <-> ?N =>
      pose (r := a); change (b r == 0 <-> N); cbv beta
  end.

(** Splits on every comparison of the goal, keeping what each one says. *)
Ltac split_comparisons :=
  unfold gtb;
  repeat match goal with
         | |- context [ltb ?x ?y] =>
             let E := fresh "E" in
             let H := fresh "H" in
             destruct (ltb_cases x y) as [[E H] | [E H]]; rewrite E
         end.

Ltac band_step :=
  split_comparisons; cbv iota; (split; [lra | split; intro; lra]).

Lemma Math_min_zero x : 0 <= x -> (Math_min 100 x == 0 <-> x == 0).
Proof.
  intro H. unfold Math_min.
  destruct (ltb_cases x 100) as [[E Hx] | [E Hx]]; rewrite E;
    split; intro; lra.
Qed.

Lemma product_zero r a h :
  0 <= r -> 0 < a -> 0 < h -> 0 <= r * a * h /\ (r * a * h == 0 <-> r == 0).
Proof.
  intros Hr Ha Hh.
  assert (Hah : 0 < a * h) by (apply Qmult_lt_0_compat; assumption).
  rewrite <- Qmult_assoc. split.
  - apply Qmult_le_0_compat; lra.
  - split; intro H.
    + destruct (Qmult_integral _ _ H) as [H0 | H0]; [exact H0 | lra].
    + rewrite H. ring.
Qed.

Lemma calculatePostureRisk_zero posture profile :
  calculatePostureRisk posture profile == 0 <-> neutralPosture posture.
Proof.
  unfold neutralPosture.
  cbv delta [calculatePostureRisk]; cbv beta.
  expose_let r0.
  expose_let r1.
  assert (H1 : 0 <= r1 /\ (r1 == 0 <-> Qabs (neckAngle posture) <= 15)).
  { subst r1 r0. clear. unfold Math_abs. band_step. }
  clearbody r1. clear r0.
  expose_let r2.
  assert (H2 : 0 <= r2
               /\ (r2 == 0 <-> r1 == 0 /\ shoulderPosition posture = Relaxed)).
  { subst r2. destruct H1 as [H1 _]; clear - H1.
    destruct (shoulderPosition posture); cbn [shoulderRisk backRisk wristRisk feetRisk];
      (split; [lra | split; [intro; split; [lra | first [reflexivity | exfalso; lra]]
                            | intros [? E]; first [lra | discriminate E]]]). }
  clearbody r2.
  expose_let r3.
  assert (H3 : 0 <= r3
               /\ (r3 == 0 <-> r2 == 0 /\ backCurvature posture = Natural)).
  { subst r3. destruct H2 as [H2 _]; clear - H2.
    destruct (backCurvature posture); cbn [shoulderRisk backRisk wristRisk feetRisk];
      (split; [lra | split; [intro; split; [lra | first [reflexivity | exfalso; lra]]
                            | intros [? E]; first [lra | discriminate E]]]). }
  clearbody r3.
  expose_let elbowDeviation.
  expose_let r4.
  assert (H4 : 0 <= r4
               /\ (r4 == 0 <-> r3 == 0
                               /\ Qabs (elbowAngle posture - 100) <= 15)).
  { subst r4 elbowDeviation. destruct H3 as [H3 _]; clear - H3. unfold Math_abs.
    split_comparisons; cbv iota;
      (split; [lra | split; [intro; split; lra | intros [? ?]; lra]]). }
  clearbody r4. clear elbowDeviation.
  expose_let r5.
  assert (H5 : 0 <= r5
               /\ (r5 == 0 <-> r4 == 0 /\ wristPosition posture = Neutral)).
  { subst r5. destruct H4 as [H4 _]; clear - H4.
    destruct (wristPosition posture); cbn [shoulderRisk backRisk wristRisk feetRisk];
      (split; [lra | split; [intro; split; [lra | first [reflexivity | exfalso; lra]]
                            | intros [? E]; first [lra | discriminate E]]]). }
  clearbody r5.
  expose_let hipDeviation.
  expose_let r6.
  assert (H6 : 0 <= r6
               /\ (r6 == 0 <-> r5 == 0
                               /\ Qabs (hipAngle posture - 100) <= 10)).
  { subst r6 hipDeviation. destruct H5 as [H5 _]; clear - H5. unfold Math_abs.
    split_comparisons; cbv iota;
      (split; [lra | split; [intro; split; lra | intros [? ?]; lra]]). }
  clearbody r6. clear hipDeviation.
  expose_let r7.
  assert (H7 : 0 <= r7
               /\ (r7 == 0 <-> r6 == 0 /\ feetPosition posture = FlatFloor)).
  { subst r7. destruct H6 as [H6 _]; clear - H6.
    destruct (feetPosition posture); cbn [shoulderRisk backRisk wristRisk feetRisk];
      (split; [lra | split; [intro; split; [lra | first [reflexivity | exfalso; lra]]
                            | intros [? E]; first [lra | discriminate E]]]). }
  clearbody r7.
  expose_let am.
  assert (Ha : 0 < am) by (subst am; split_comparisons; lra).
  clearbody am.
  expose_let hm.
  assert (Hh : 0 < hm) by (subst hm; split_comparisons; lra).
  clearbody hm.
  destruct (product_zero r7 am hm (proj1 H7) Ha Hh) as [Hp Hz].
  rewrite (Math_min_zero _ Hp), Hz.
  destruct H1 as [_ H1], H2 as [_ H2], H3 as [_ H3], H4 as [_ H4],
    H5 as [_ H5], H6 as [_ H6], H7 as [_ H7].
  rewrite H7, H6, H5, H4, H3, H2, H1. tauto.
Qed.

Ltac close_step :=
  split_comparisons; cbn [orb negb]; cbv iota;
  (split; [lra | split; [intro; repeat split; lra | intuition lra]]).

Lemma calculateMovementRisk_zero movement :
  calculateMovementRisk movement == 0 <-> activeHabits movement.
Proof.
  unfold activeHabits.
  cbv delta [calculateMovementRisk]; cbv beta.
  expose_let r0. expose_let recommendedBreaks.
  expose_let r1.
  assert (H1 : 0 <= r1 /\ (r1 == 0 <-> 2 <= screenBreakFrequency movement)).
  { subst r1 recommendedBreaks r0. clear.
    split_comparisons; cbv iota; (split; [lra | split; intro; lra]). }
  clearbody r1. clear recommendedBreaks r0.
  expose_let r2.
  assert (H2 : 0 <= r2
               /\ (r2 == 0 <-> r1 == 0 /\ 3 <= stretchingFrequency movement)).
  { subst r2. destruct H1 as [H1 _]; clear - H1. close_step. }
  clearbody r2.
  expose_let r3.
  assert (H3 : 0 <= r3
               /\ (r3 == 0 <-> r2 == 0 /\ 1 <= walkingFrequency movement)).
  { subst r3. destruct H2 as [H2 _]; clear - H2. close_step. }
  clearbody r3.
  expose_let r4.
  assert (H4 : 0 <= r4
               /\ (r4 == 0 <-> r3 == 0 /\ 2 <= postureChanges movement)).
  { subst r4. destruct H3 as [H3 _]; clear - H3. close_step. }
  clearbody r4.
  destruct (repetitiveMotions movement) as [t c e].
  cbv beta iota delta [typing mouseClicks reachingMovements].
  expose_let r5.
  assert (H5 : 0 <= r5 /\ (r5 == 0 <-> r4 == 0 /\ t <= 300)).
  { subst r5. destruct H4 as [H4 _]; clear - H4. close_step. }
  clearbody r5.
  expose_let r6.
  assert (H6 : 0 <= r6 /\ (r6 == 0 <-> r5 == 0 /\ c <= 100)).
  { subst r6. destruct H5 as [H5 _]; clear - H5. close_step. }
  clearbody r6.
  expose_let r7.
  assert (H7 : 0 <= r7 /\ (r7 == 0 <-> r6 == 0 /\ e <= 20)).
  { subst r7. destruct H6 as [H6 _]; clear - H6. close_step. }
  clearbody r7.
  rewrite (Math_min_zero _ (proj1 H7)).
  destruct H1 as [_ H1], H2 as [_ H2], H3 as [_ H3], H4 as [_ H4],
    H5 as [_ H5], H6 as [_ H6], H7 as [_ H7].
  rewrite H7, H6, H5, H4, H3, H2, H1. tauto.
Qed.

(** X5.  The posture score is 0 exactly when no posture deviation is
    penalised, and the movement score is 0 exactly when all four
    frequencies reach their recommended minimum and no repetitive motion
    exceeds its lower threshold. *)
Theorem zero_scores (input : RiskCalculationInput) :
  (calculatePostureRisk (posture input) (userProfile input) == 0
   <-> neutralPosture (posture input))
  /\ (calculateMovementRisk (movement input) == 0
      <-> activeHabits (movement input)).
Proof.
  split; [apply calculatePostureRisk_zero |].
  apply calculateMovementRisk_zero.
Qed.

End ZeroScores.

(** ** More on the risk models *)

Module ModelFacts.

Import Calculations ModelSpec FactorSpec NumberMore SortFacts ScoreRange.

Lemma frequencyPenalties_le_65 movement : frequencyPenalties movement <= 65.
Proof.
  unfold frequencyPenalties.
  repeat match goal with
         | |- context [if ?b then _ else _] => destruct b
         end;
    vm_compute; discriminate.
Qed.

Lemma penalties_above_lower_threshold t c e :
  (300 < t -> typingPenalty t = 10)
  /\ (100 < c -> mouseClicksPenalty c = 8)
  /\ (20 < e -> reachingPenalty e = 10).
Proof.
  unfold typingPenalty, mouseClicksPenalty, reachingPenalty.
  split; [| split]; intro H; apply gtb_true in H; now rewrite H.
Qed.

Lemma repetitive_penalties_le t c e :
  typingPenalty t <= 10 /\ mouseClicksPenalty c <= 8 /\ reachingPenalty e <= 10.
Proof.
  unfold typingPenalty, mouseClicksPenalty, reachingPenalty, gtb.
  destruct (ltb_cases 300 t) as [[E1 H1] | [E1 H1]];
  destruct (ltb_cases 400 t) as [[E2 H2] | [E2 H2]];
  destruct (ltb_cases 100 c) as [[E3 H3] | [E3 H3]];
  destruct (ltb_cases 150 c) as [[E4 H4] | [E4 H4]];
  destruct (ltb_cases 20 e) as [[E5 H5] | [E5 H5]];
  destruct (ltb_cases 30 e) as [[E6 H6] | [E6 H6]];
  rewrite E1, ?E2, E3, ?E4, E5, ?E6; repeat split; lra.
Qed.

(** X6.  The movement score never exceeds 93, and it does not tell apart
    two typing rates above 300, two click rates above 100 or two reaching
    rates above 20: the penalties written for the upper thresholds are never
    added. *)
Theorem movement_score_saturates (movement : MovementPatterns) :
  calculateMovementRisk movement <= 93
  /\ (forall rate,
        300 < typing (repetitiveMotions movement) -> 300 < rate ->
        calculateMovementRisk (withTyping movement rate)
        = calculateMovementRisk movement)
  /\ (forall rate,
        100 < mouseClicks (repetitiveMotions movement) -> 100 < rate ->
        calculateMovementRisk (withMouseClicks movement rate)
        = calculateMovementRisk movement)
  /\ (forall rate,
        20 < reachingMovements (repetitiveMotions movement) -> 20 < rate ->
        calculateMovementRisk (withReaching movement rate)
        = calculateMovementRisk movement).
Proof.
  split; [| split; [| split]].
  - rewrite MovementBands.calculateMovementRisk_blocks. cbv zeta.
    pose proof (frequencyPenalties_le_65 movement) as HF.
    destruct (repetitive_penalties_le
                (typing (repetitiveMotions movement))
                (mouseClicks (repetitiveMotions movement))
                (reachingMovements (repetitiveMotions movement)))
      as (HT & HC & HE).
    eapply Qle_trans; [apply Math_min_le_r | lra].
  - intros rate H1 H2.
    rewrite !MovementBands.calculateMovementRisk_blocks. cbv zeta.
    cbn [withTyping repetitiveMotions typing mouseClicks reachingMovements].
    destruct (penalties_above_lower_threshold rate 0 0) as (T & _).
    destruct (penalties_above_lower_threshold
                (typing (repetitiveMotions movement)) 0 0) as (T' & _).
    rewrite (T H2), (T' H1). reflexivity.
  - intros rate H1 H2.
    rewrite !MovementBands.calculateMovementRisk_blocks. cbv zeta.
    cbn [withMouseClicks repetitiveMotions typing mouseClicks
         reachingMovements].
    destruct (penalties_above_lower_threshold 0 rate 0) as (_ & C & _).
    destruct (penalties_above_lower_threshold 0
                (mouseClicks (repetitiveMotions movement)) 0) as (_ & C' & _).
    rewrite (C H2), (C' H1). reflexivity.
  - intros rate H1 H2.
    rewrite !MovementBands.calculateMovementRisk_blocks. cbv zeta.
    cbn [withReaching repetitiveMotions typing mouseClicks reachingMovements].
    destruct (penalties_above_lower_threshold 0 0 rate) as (_ & _ & E).
    destruct (penalties_above_lower_threshold 0 0
                (reachingMovements (repetitiveMotions movement)))
      as (_ & _ & E').
    rewrite (E H2), (E' H1). reflexivity.
Qed.

Lemma Math_min_mono x y : x <= y -> Math_min 100 x <= Math_min 100 y.
Proof.
  intro H. unfold Math_min.
  destruct (ltb_cases x 100) as [[E1 H1] | [E1 H1]];
  destruct (ltb_cases y 100) as [[E2 H2] | [E2 H2]];
  rewrite E1, E2; lra.
Qed.

Lemma Math_max_mono x y : x <= y -> Math_max 0 x <= Math_max 0 y.
Proof.
  intro H. unfold Math_max.
  destruct (ltb_cases 0 x) as [[E1 H1] | [E1 H1]];
  destruct (ltb_cases 0 y) as [[E2 H2] | [E2 H2]];
  rewrite E1, E2; lra.
Qed.

(** The loop adds at least 5 for every symptom. *)
Lemma symptom_loop_base symptoms : forall acc,
  acc_riskScore acc + 5 * inject_Z (Z.of_nat (List.length symptoms))
  <= acc_riskScore (fold_left symptomStep symptoms acc).
Proof.
  induction symptoms as [| s rest IH]; intro acc.
  - simpl. change (inject_Z 0) with 0. lra.
  - cbn [fold_left List.length]. specialize (IH (symptomStep acc s)).
    rewrite Nat2Z.inj_succ, <- Z.add_1_r, inject_Z_plus.
    change (inject_Z 1) with 1.
    assert (Hs : acc_riskScore acc + 5 <= acc_riskScore (symptomStep acc s)).
    { unfold symptomStep. cbn [acc_riskScore].
      destruct (is_critical_area (symptom_type s)); lra. }
    lra.
Qed.

Lemma calculateSymptomsRisk_nonempty symptoms :
  symptoms <> [] -> 5 <= calculateSymptomsRisk symptoms.
Proof.
  destruct symptoms as [| s rest]; [now intros [] | intros _].
  unfold calculateSymptomsRisk. set (l := s :: rest). cbv zeta.
  set (start := {| acc_riskScore := 0; acc_severityMultiplier := 0;
                   acc_frequencyMultiplier := 0 |}).
  set (acc := fold_left symptomStep l start).
  assert (Hacc : acc_nonneg acc).
  { apply symptom_loop_nonneg. unfold acc_nonneg. simpl. lra. }
  destruct Hacc as (Hr & Hs & Hf).
  assert (Hlen : 1 <= inject_Z (Z.of_nat (List.length l))).
  { change 1 with (inject_Z 1). rewrite <- Zle_Qle. subst l. simpl. lia. }
  pose proof (symptom_loop_base l start) as Hbase. fold acc in Hbase.
  change (acc_riskScore start) with 0 in Hbase.
  assert (H5 : 5 <= acc_riskScore acc) by lra.
  assert (Hpos : 0 < inject_Z (Z.of_nat (List.length l))) by lra.
  pose proof (Qdiv_nonneg _ _ Hs Hpos) as Hsev.
  pose proof (Qdiv_nonneg _ _ Hf Hpos) as Hfreq.
  set (sev := acc_severityMultiplier acc / _) in *.
  set (freq := acc_frequencyMultiplier acc / _) in *.
  assert (Hm : 1 <= (1 + sev * (5 # 10)) * (1 + freq * (3 # 10))).
  { assert (0 <= sev * (5 # 10) * (freq * (3 # 10)))
      by (apply Qmult_le_0_compat; lra).
    setoid_replace ((1 + sev * (5 # 10)) * (1 + freq * (3 # 10)))
      with (1 + sev * (5 # 10) + freq * (3 # 10)
            + sev * (5 # 10) * (freq * (3 # 10))) by ring.
    lra. }
  set (m := (1 + sev * (5 # 10)) * (1 + freq * (3 # 10))) in *.
  assert (Hprod : 5 <= acc_riskScore acc * m).
  { assert (0 <= (acc_riskScore acc - 5) * (m - 1))
      by (apply Qmult_le_0_compat; lra).
    setoid_replace (acc_riskScore acc * m)
      with ((acc_riskScore acc - 5) * (m - 1) + acc_riskScore acc
            + 5 * (m - 1)) by ring.
    lra. }
  apply Math_min_glb; [lra |].
  apply Qle_trans with (Math_round 5).
  - vm_compute. discriminate.
  - now apply Math_round_mono.
Qed.

Section Ranked.

Variable Number_toString : number -> string.

(** The pushes of [collectRiskFactors], the symptom factor apart. *)
Lemma collectRiskFactors_split input :
  exists others f,
    collectRiskFactors Number_toString input
    = (others
       ++ if gtb (calculateSymptomsRisk (symptoms input)) 0
          then [f] else [])%list
    /\ Forall (fun g => name g <> discomfortName) others
    /\ name f = discomfortName.
Proof.
  unfold collectRiskFactors, push.
  destruct (gtb (calculatePostureRisk _ _) 25);
  destruct (gtb (calculateWorkspaceRisk _ _) 25);
  destruct (gtb (calculateMovementRisk _) 25);
  destruct (gtb (slice_workHoursPerDay _) 8);
  (eexists; eexists; split;
   [ destruct (gtb (calculateSymptomsRisk _) 0);
     [reflexivity | rewrite app_nil_r; reflexivity]
   | split; [cbn [app]; repeat constructor; discriminate | reflexivity] ]).
Qed.

End Ranked.

(** X7.  An empty symptom list scores 0 and any other list scores at least
    5, whatever severities and frequencies it reports; so the ranked factors
    hold the factor named Existing Discomfort/Pain exactly when some symptom
    is reported. *)
Theorem any_symptom_counts
  (Number_toString : number -> string) (input : RiskCalculationInput) :
  (symptoms input = [] -> calculateSymptomsRisk (symptoms input) = 0)
  /\ (symptoms input <> [] -> 5 <= calculateSymptomsRisk (symptoms input))
  /\ ((exists f,
         In f (generateRiskFactors Number_toString input)
         /\ name f = discomfortName)
      <-> symptoms input <> []).
Proof.
  split; [intros ->; reflexivity |].
  split; [apply calculateSymptomsRisk_nonempty |].
  unfold generateRiskFactors.
  destruct (collectRiskFactors_split Number_toString input)
    as (others & d & -> & Hothers & Hd).
  split.
  - intros (f & Hin & Hname) Hempty.
    apply Array_sort_In, in_app_or in Hin. destruct Hin as [Hin | Hin].
    + rewrite Forall_forall in Hothers. now apply (Hothers f Hin).
    + rewrite Hempty in Hin. destruct Hin.
  - intro Hne. exists d. split; [| exact Hd].
    apply Array_sort_In, in_or_app. right.
    replace (gtb (calculateSymptomsRisk (symptoms input)) 0) with true.
    + now left.
    + symmetry. apply gtb_true.
      pose proof (calculateSymptomsRisk_nonempty _ Hne). lra.
Qed.

(** X8.  The overall score does not go down when none of the four
    component scores goes down. *)
Theorem calculateOverallRiskScore_monotone
  (before after : RiskCalculationInput) :
  calculatePostureRisk (posture before) (userProfile before)
  <= calculatePostureRisk (posture after) (userProfile after) ->
  calculateWorkspaceRisk (workspace before) (userProfile before)
  <= calculateWorkspaceRisk (workspace after) (userProfile after) ->
  calculateMovementRisk (movement before)
  <= calculateMovementRisk (movement after) ->
  calculateSymptomsRisk (symptoms before)
  <= calculateSymptomsRisk (symptoms after) ->
  calculateOverallRiskScore before <= calculateOverallRiskScore after.
Proof.
  intros Hp Hw Hm Hs. unfold calculateOverallRiskScore. cbv zeta.
  apply Math_min_mono, Math_max_mono, Math_round_mono. lra.
Qed.

Lemma calculateOverallRiskScore_monotone_witness :
  calculateOverallRiskScore tiedInput
  <= calculateOverallRiskScore ModelSamples.tiedInputWithPain.
Proof.
  apply calculateOverallRiskScore_monotone; vm_compute; discriminate.
Defined.

Lemma Math_min_pos x : 0 < x -> 0 < Math_min 100 x.
Proof.
  intro H. unfold Math_min.
  destruct (ltb_cases x 100) as [[E Hx] | [E Hx]]; rewrite E; lra.
Qed.

Ltac factor_ok :=
  unfold well_formed_factor; cbn [score category severity];
  (split; [| split; [| split]]);
  [ first [lra | apply Math_min_pos; lra]
  | first [lra | apply Math_min_le_l]
  | first [intros _; reflexivity
          | let H := fresh in intro H; exfalso; apply H; reflexivity]
  | first [discriminate
          | intros _;
            match goal with
            | |- context [if ?b then _ else _] => destruct b
            end; [right | left]; reflexivity] ].

Lemma collectRiskFactors_well_formed show input :
  (List.length (collectRiskFactors show input) <= 5)%nat
  /\ Forall well_formed_factor (collectRiskFactors show input).
Proof.
  destruct (calculatePostureRisk_range (posture input) (userProfile input))
    as [_ Hp].
  destruct (calculateWorkspaceRisk_range (workspace input) (userProfile input))
    as [_ Hw].
  destruct (calculateMovementRisk_range (movement input)) as [_ Hm].
  destruct (calculateSymptomsRisk_range (symptoms input)) as [_ Hs].
  unfold collectRiskFactors, push, gtb.
  destruct (ltb_cases 25 (calculatePostureRisk (posture input)
                            (userProfile input))) as [[E1 H1] | [E1 H1]];
  destruct (ltb_cases 25 (calculateWorkspaceRisk (workspace input)
                            (userProfile input))) as [[E2 H2] | [E2 H2]];
  destruct (ltb_cases 25 (calculateMovementRisk (movement input)))
    as [[E3 H3] | [E3 H3]];
  destruct (ltb_cases 8 (slice_workHoursPerDay (userProfile input)))
    as [[E4 H4] | [E4 H4]];
  destruct (ltb_cases 0 (calculateSymptomsRisk (symptoms input)))
    as [[E5 H5] | [E5 H5]];
  rewrite E1, E2, E3, E4, E5; cbn [app List.length];
  (split; [lia |]);
  repeat first [apply Forall_nil | apply Forall_cons];
  factor_ok.
Qed.

(** X9.  [generateRiskFactors] returns at most five factors; each has a
    score above 0 and at most 100; the severity of every factor other than
    the work-hours factor is the risk level of its score, and the severity
    of the work-hours factor is moderate or high. *)
Theorem ranked_factors_well_formed
  (Number_toString : number -> string) (input : RiskCalculationInput) :
  (List.length (generateRiskFactors Number_toString input) <= 5)%nat
  /\ Forall well_formed_factor (generateRiskFactors Number_toString input).
Proof.
  destruct (collectRiskFactors_well_formed Number_toString input)
    as [Hlen Hall].
  unfold generateRiskFactors. split.
  - now rewrite Array_sort_length.
  - eapply Permutation_Forall; [apply Array_sort_perm | exact Hall].
Qed.

End ModelFacts.

(** ** Identifiers and sizes of recommendation sets *)

Module IdFacts.

Import Calculations RiskAssessment Recommendations IdSpec SortFacts.

Lemma no_underscore_app s n :
  no_underscore (s ++ String "_" n) = false.
Proof.
  induction s as [| c s IH]; simpl; [reflexivity |].
  rewrite IH. apply andb_false_r.
Qed.

Lemma lastField_app s n :
  no_underscore n = true -> lastField (s ++ String "_" n) = n.
Proof.
  intro Hn. induction s as [| c s IH]; simpl.
  - now rewrite Hn.
  - now rewrite no_underscore_app.
Qed.

Lemma digits_no_underscore d :
  no_underscore (NilEmpty.string_of_uint d) = true.
Proof. induction d; simpl; auto. Qed.

Lemma string_of_nat_no_underscore n : no_underscore (string_of_nat n) = true.
Proof.
  unfold string_of_nat, string_of_Z.
  destruct (Z.of_nat n) as [| p | p] eqn:E; simpl.
  - reflexivity.
  - unfold NilZero.string_of_uint.
    destruct (Pos.to_uint p); try reflexivity; apply digits_no_underscore.
  - pose proof (Zle_0_nat n). lia.
Qed.

Lemma to_int_not_nil z :
  Z.to_int z <> Decimal.Pos Decimal.Nil /\ Z.to_int z <> Decimal.Neg Decimal.Nil.
Proof.
  destruct z as [| p | p]; simpl; split; try discriminate;
    intro H; injection H as H;
    now apply DecimalPos.Unsigned.to_uint_nonnil in H.
Qed.

Lemma string_of_Z_inj z z' : string_of_Z z = string_of_Z z' -> z = z'.
Proof.
  unfold string_of_Z. intro H.
  apply DecimalZ.to_int_inj.
  destruct (to_int_not_nil z) as [H1 H2], (to_int_not_nil z') as [H1' H2'].
  pose proof (NilZero.isi _ H1 H2) as E. rewrite H in E.
  rewrite (NilZero.isi _ H1' H2') in E. now injection E.
Qed.

Lemma string_of_nat_inj n n' : string_of_nat n = string_of_nat n' -> n = n'.
Proof.
  unfold string_of_nat. intro H. apply string_of_Z_inj in H. lia.
Qed.

Section OneClock.

Variable clock : nat -> Z.

(** The number behind the last underscore of a fresh id is the counter. *)
Lemma freshId_index st :
  lastField (freshId clock st) = string_of_nat (next_id st).
Proof.
  unfold freshId.
  change ("rec_" ++ string_of_Z (clock (next_id st)) ++ "_"
          ++ string_of_nat (next_id st))
    with (("rec_" ++ string_of_Z (clock (next_id st)))
          ++ String "_" (string_of_nat (next_id st))).
  apply lastField_app, string_of_nat_no_underscore.
Qed.

Lemma emit_numbered st template :
  (forall id, rec_id (template id) = id) ->
  numbered st -> numbered (emit clock st template).
Proof.
  intros Hid H. unfold numbered, emit, push in *. cbn [emitted next_id].
  rewrite map_app, H, seq_S, map_app. cbn [map Nat.add].
  now rewrite Hid, freshId_index.
Qed.

Lemma factorStep_numbered st factor :
  numbered st -> numbered (factorStep clock st factor).
Proof.
  intro H. unfold factorStep.
  destruct (FactorCategory_eqb (category factor) CatPosture);
  destruct (FactorCategory_eqb (category factor) CatMovement);
  destruct (FactorCategory_eqb (category factor) CatEquipment);
  repeat (apply emit_numbered; [reflexivity |]); exact H.
Qed.

Lemma factor_loop_numbered fs : forall st,
  numbered st -> numbered (fold_left (factorStep clock) fs st).
Proof.
  induction fs as [| f fs IH]; intros st H; simpl; [exact H |].
  apply IH, factorStep_numbered, H.
Qed.

Lemma emitAll_numbered assessment riskAnalysis :
  numbered (emitAll clock assessment riskAnalysis).
Proof.
  unfold emitAll. cbv zeta.
  set (st := fold_left _ _ _).
  assert (H : numbered st) by (apply factor_loop_numbered; reflexivity).
  clearbody st.
  destruct (ltb _ 2); destruct (negb _); destruct (is_poor_or_fair _);
    repeat (apply emit_numbered; [reflexivity |]); exact H.
Qed.

End OneClock.

Lemma NoDup_firstn {A : Type} n (l : list A) : NoDup l -> NoDup (firstn n l).
Proof.
  intro H. rewrite <- (firstn_skipn n l) in H.
  now apply NoDup_app_remove_r in H.
Qed.

(** X11.  The ids in a set returned by [generateTemplateRecommendations]
    are pairwise different, whatever the clock shows, also when it stands
    still. *)
Theorem template_ids_distinct (clock : nat -> Z)
  (assessment : ErgonomicAssessment) (riskAnalysis : RiskAnalysis)
  (profile : UserProfile) :
  NoDup
    (map rec_id
       (recommendations
          (generateTemplateRecommendations clock assessment riskAnalysis
             profile))).
Proof.
  cbn [generateTemplateRecommendations recommendations]. unfold slice0.
  rewrite <- firstn_map. apply NoDup_firstn.
  apply (NoDup_map_inv lastField). rewrite map_map.
  rewrite (emitAll_numbered clock assessment riskAnalysis).
  apply Finite.Injective_map_NoDup; [| apply seq_NoDup].
  intros n n'. apply string_of_nat_inj.
Qed.

Lemma getField_app key l1 l2 :
  getField key (l1 ++ l2)
  = match getField key l1 with
    | Some v => Some v
    | None => getField key l2
    end.
Proof.
  induction l1 as [| [k v] l1 IH]; simpl; [reflexivity |].
  destruct (String.eqb k key); [reflexivity | exact IH].
Qed.

Lemma getField_setField key k v fields :
  getField key (setField k v fields)
  = if String.eqb k key then Some v else getField key fields.
Proof.
  induction fields as [| [k' w] fields IH]; simpl.
  - reflexivity.
  - destruct (String.eqb_spec k' k) as [-> | Hne]; simpl.
    + destruct (String.eqb k key); reflexivity.
    + rewrite IH. destruct (String.eqb_spec k' key) as [-> | Hne'];
        [| reflexivity].
      destruct (String.eqb_spec k key) as [-> | _];
        [now destruct Hne | reflexivity].
Qed.

(** After a run of assignments a property holds what the last assignment
    to it stored, or what it held before when there was none. *)
Lemma getField_assignments key entries : forall object,
  getField key
    (fold_left (fun obj kv => setField (fst kv) (snd kv) obj) entries object)
  = match lastAssigned key entries with
    | Some v => Some v
    | None => getField key object
    end.
Proof.
  unfold lastAssigned.
  induction entries as [| [k v] entries IH]; intro object; simpl.
  - reflexivity.
  - rewrite IH, getField_app, getField_setField. simpl.
    destruct (getField key (rev entries)); [reflexivity |].
    destruct (String.eqb k key); reflexivity.
Qed.

Lemma lastAssigned_unique key entries :
  NoDup (map fst entries) -> lastAssigned key entries = getField key entries.
Proof.
  unfold lastAssigned.
  induction entries as [| [k v] entries IH]; intro H; simpl; [reflexivity |].
  inversion H as [| ? ? Hnotin Hrest]; subst.
  rewrite getField_app, (IH Hrest). simpl.
  destruct (String.eqb k key) eqn:E.
  - apply String.eqb_eq in E. subst k.
    destruct (getField key entries) as [w |] eqn:G; [| reflexivity].
    exfalso. apply Hnotin. clear - G.
    induction entries as [| [k' w'] entries IH]; simpl in *; [discriminate |].
    destruct (String.eqb k' key) eqn:E.
    + left. now apply String.eqb_eq.
    + right. now apply IH.
  - now destruct (getField key entries).
Qed.

Lemma property_withId key id rec :
  property key (withId id rec)
  = match lastAssigned key (ownProperties rec) with
    | Some v => Some v
    | None => if String.eqb "id" key then Some (JString id) else None
    end.
Proof.
  unfold withId, property. rewrite getField_assignments. reflexivity.
Qed.

Lemma nth_error_combine_seq {A : Type} (l : list A) : forall start index x,
  nth_error l index = Some x ->
  nth_error (combine (seq start (List.length l)) l) index
  = Some ((start + index)%nat, x).
Proof.
  induction l as [| y l IH]; intros start index x H.
  - destruct index; discriminate.
  - destruct index as [| index]; simpl in *.
    + injection H as ->. now rewrite Nat.add_0_r.
    + rewrite (IH (S start) index x H). now rewrite Nat.add_succ_r.
Qed.

(** X12.  When the parsed reply has an array under [recommendations] the
    returned set holds one object per array item, in order; every property
    of an item is carried over, and the generated id is used only for an
    item that has no [id] of its own: an item's own [id] replaces it. *)
Theorem accepted_reply_carries_items (clock : nat -> Z)
  (parsed : json) (items : list json)
  (assessment : ErgonomicAssessment) (riskAnalysis : RiskAnalysis)
  (profile : UserProfile) :
  recommendationsArray parsed = Value items ->
  let result :=
    generateAIRecommendations clock (ParsedContent parsed) assessment
      riskAnalysis profile in
  List.length (recommendations result) = List.length items
  /\ forall index item,
       nth_error items index = Some item ->
       exists object,
         nth_error (recommendations result) index = Some object
         /\ (forall key v,
               lastAssigned key (ownProperties item) = Some v ->
               property key object = Some v)
         /\ (lastAssigned "id" (ownProperties item) = None ->
             property "id" object
             = Some (JString ("rec_" ++ string_of_Z (clock index) ++ "_"
                              ++ string_of_nat index))).
Proof.
  intro Harray. cbv zeta.
  unfold generateAIRecommendations, tryGenerate, parsedContent, bind.
  rewrite Harray. cbn [recommendations].
  split.
  - now rewrite length_map, length_combine, length_seq, Nat.min_id.
  - intros index item Hitem.
    set (mk := fun p : nat * json => withId _ (snd p)).
    exists (mk (index, item)). split.
    + rewrite nth_error_map.
      assert (E := nth_error_combine_seq items 0 index item Hitem).
      now rewrite E.
    + subst mk. cbn [fst snd]. split.
      * intros key v Hv. now rewrite property_withId, Hv.
      * intro Hnone. now rewrite property_withId, Hnone.
Qed.

Lemma accepted_reply_carries_items_witness :
  List.length
    (recommendations
       (generateAIRecommendations frozenClock (ParsedContent offSchemaContent)
          (assessedAt 0 60) crowdedAnalysis sampleProfile))
  = 1%nat.
Proof.
  exact (proj1 (accepted_reply_carries_items frozenClock offSchemaContent _
                  (assessedAt 0 60) crowdedAnalysis sampleProfile eq_refl)).
Defined.

Section Sizes.

Variable clock : nat -> Z.

(** The loop pushes one recommendation for every posture, movement or
    equipment factor it is given and none for any other. *)
Lemma factor_loop_size fs : forall st,
  List.length (emitted (fold_left (factorStep clock) fs st))
  = (List.length (emitted st)
     + List.length
         (filter (fun f => FactorCategory_eqb (category f) CatPosture
                           || FactorCategory_eqb (category f) CatMovement
                           || FactorCategory_eqb (category f) CatEquipment)
            fs))%nat.
Proof.
  induction fs as [| f fs IH]; intro st; simpl; [lia |].
  rewrite IH. unfold factorStep, emit, push.
  destruct (category f); cbn [FactorCategory_eqb orb emitted List.length];
    rewrite ?length_app; simpl; lia.
Qed.

Lemma emitAll_size assessment riskAnalysis :
  (List.length (emitted (emitAll clock assessment riskAnalysis))
   <= List.length (filter answered (factors riskAnalysis)) + 3)%nat.
Proof.
  unfold emitAll. cbv zeta.
  set (st := fold_left _ _ _).
  assert (H : List.length (emitted st)
              = List.length (filter answered (factors riskAnalysis))).
  { subst st. rewrite factor_loop_size. cbn [emitted List.length Nat.add].
    f_equal. unfold answered.
    induction (factors riskAnalysis) as [| f fs IH]; simpl; [reflexivity |].
    destruct (is_high_or_critical f); simpl; [| exact IH].
    destruct (_ || _); simpl; now rewrite IH. }
  clearbody st.
  unfold emit, push.
  destruct (ltb _ 2); destruct (negb _); destruct (is_poor_or_fair _);
    cbn [emitted]; rewrite ?length_app; simpl; lia.
Qed.

End Sizes.

(** At most four of the pushed factors are not the work-hours factor. *)
Lemma collectRiskFactors_answered show input :
  (List.length (filter answered (collectRiskFactors show input)) <= 4)%nat.
Proof.
  unfold collectRiskFactors, push, answered.
  destruct (gtb (calculatePostureRisk _ _) 25);
  destruct (gtb (calculateWorkspaceRisk _ _) 25);
  destruct (gtb (calculateMovementRisk _) 25);
  destruct (gtb (slice_workHoursPerDay _) 8);
  destruct (gtb (calculateSymptomsRisk _) 0);
  cbn [app filter category FactorCategory_eqb orb andb];
  rewrite ?andb_false_r;
  repeat match goal with
         | |- context [if ?b then _ else _] => destruct b
         end;
  simpl; lia.
Qed.

(** X13.  For an analysis made by [performRiskAnalysis] at most seven
    recommendations are pushed, so the cut at eight removes nothing: the
    set holds every recommendation pushed. *)
Theorem analysis_never_truncated
  (Number_toString : number -> string) (now : Z) (clock : nat -> Z)
  (assessment : ErgonomicAssessment) (profile : UserProfile) :
  let analysis := performRiskAnalysis Number_toString now assessment profile in
  let pushed := emitted (emitAll clock assessment analysis) in
  (List.length pushed <= 7)%nat
  /\ recommendations
       (generateTemplateRecommendations clock assessment analysis profile)
     = pushed.
Proof.
  cbv zeta.
  set (analysis := performRiskAnalysis Number_toString now assessment profile).
  assert (H : (List.length (emitted (emitAll clock assessment analysis))
               <= 7)%nat).
  { eapply Nat.le_trans; [apply emitAll_size |].
    subst analysis. unfold performRiskAnalysis. cbn [factors].
    unfold generateRiskFactors.
    set (input := {| workspace := _ |}).
    pose proof (collectRiskFactors_answered Number_toString input) as H4.
    assert (E : List.length
                  (filter answered
                     (Array_sort (fun a b => score b - score a)
                        (collectRiskFactors Number_toString input)))
                = List.length
                    (filter answered
                       (collectRiskFactors Number_toString input))).
    { rewrite (SortMore.filter_Array_sort _ score byScore_key).
      apply Array_sort_length. }
    rewrite E. lia. }
  split; [exact H |].
  cbn [generateTemplateRecommendations recommendations]. unfold slice0.
  apply firstn_all2. lia.
Qed.

End IdFacts.

(** ** More on priority areas and trends *)

Module AssessmentFacts.

Import Calculations RiskAssessment SortFacts SortMore PriorityFacts TrendFacts.

Lemma critical_discomfort_is_high f :
  is_critical_discomfort f = true -> is_high_or_critical f = true.
Proof.
  unfold is_critical_discomfort, is_high_or_critical.
  destruct (severity f); simpl; rewrite ?andb_false_r; auto.
Qed.

Lemma filter_implied {A : Type} (f g : A -> bool) l :
  (forall x, f x = true -> g x = true) ->
  filter f (filter g l) = filter f l.
Proof.
  intro H. induction l as [| x l IH]; simpl; [reflexivity |].
  destruct (g x) eqn:Eg; simpl.
  - now rewrite IH.
  - destruct (f x) eqn:Ef; [| exact IH].
    apply H in Ef. congruence.
Qed.

Lemma identifyPriorityAreas_high_only factors :
  identifyPriorityAreas (filter is_high_or_critical factors)
  = identifyPriorityAreas factors.
Proof.
  unfold identifyPriorityAreas.
  rewrite filter_idem.
  rewrite (filter_implied _ _ factors critical_discomfort_is_high).
  reflexivity.
Qed.

Lemma identifyPriorityAreas_NoDup factors :
  NoDup (identifyPriorityAreas factors).
Proof.
  unfold identifyPriorityAreas. cbv zeta.
  set (cats := Set_of FactorCategory_eqb _).
  unfold slice0, push, unshift. apply IdFacts.NoDup_firstn.
  destruct (Set_has FactorCategory_eqb cats CatPosture);
  destruct (Set_has FactorCategory_eqb cats CatEquipment);
  destruct (Set_has FactorCategory_eqb cats CatMovement);
  destruct (Set_has FactorCategory_eqb cats CatEnvironment);
  destruct (Set_has FactorCategory_eqb cats CatTime);
  destruct (0 <? List.length (filter is_critical_discomfort factors))%nat;
  cbn [app];
  repeat (constructor; [cbn [In]; intuition discriminate |]);
  constructor.
Qed.

Lemma identifyPriorityAreas_le_4 factors :
  (List.length (identifyPriorityAreas factors) <= 4)%nat.
Proof.
  unfold identifyPriorityAreas. cbv zeta.
  set (sorted := Array_sort _ _).
  assert (Hlen : (List.length (map category (slice0 3 sorted)) <= 3)%nat).
  { rewrite length_map. apply firstn_le_length. }
  set (l := map category (slice0 3 sorted)) in *. clearbody l. clear sorted.
  destruct (0 <? List.length (filter is_critical_discomfort factors))%nat;
  destruct l as [| a [| b [| c [| d l]]]]; simpl in Hlen; try lia;
  try destruct a; try destruct b; try destruct c; vm_compute; lia.
Qed.

Lemma identifyPriorityAreas_none factors :
  Forall (fun f => severity f = Low \/ severity f = Moderate) factors ->
  identifyPriorityAreas factors = [].
Proof.
  intro H. rewrite <- identifyPriorityAreas_high_only.
  replace (filter is_high_or_critical factors) with (@nil RiskFactor);
    [reflexivity |].
  symmetry. induction H as [| f fs Hf _ IH]; simpl; [reflexivity |].
  unfold is_high_or_critical at 1.
  destruct Hf as [-> | ->]; exact IH.
Qed.

(** X14.  [identifyPriorityAreas] returns at most four sentences, so its
    cut at five removes nothing; no sentence occurs twice; factors of low
    or moderate severity have no influence on the result; and when no
    factor is high or critical the result is empty. *)
Theorem identifyPriorityAreas_shape (factors : list RiskFactor) :
  (List.length (identifyPriorityAreas factors) <= 4)%nat
  /\ NoDup (identifyPriorityAreas factors)
  /\ identifyPriorityAreas (filter is_high_or_critical factors)
     = identifyPriorityAreas factors
  /\ (Forall (fun f => severity f = Low \/ severity f = Moderate) factors ->
      identifyPriorityAreas factors = []).
Proof.
  split; [apply identifyPriorityAreas_le_4 |].
  split; [apply identifyPriorityAreas_NoDup |].
  split; [apply identifyPriorityAreas_high_only |].
  apply identifyPriorityAreas_none.
Qed.

Lemma distinct_dates_one l :
  NoDup (map assessmentDate l) ->
  forall s, (List.length (filter (has_key negDate s) l) <= 1)%nat.
Proof.
  induction l as [| x l IH]; intros Hnd s; simpl; [lia |].
  inversion Hnd as [| ? ? Hnotin Hrest]; subst.
  specialize (IH Hrest s).
  destruct (has_key negDate s x) eqn:Ex; [| exact IH].
  destruct (filter (has_key negDate s) l) as [| y rest] eqn:Ef; [simpl; lia |].
  exfalso. apply Hnotin.
  assert (Hy : In y (filter (has_key negDate s) l)) by (rewrite Ef; now left).
  apply filter_In in Hy. destruct Hy as [Hin Ey].
  apply in_map_iff. exists y. split; [| exact Hin].
  unfold has_key, num_eqb, negDate in Ex, Ey.
  apply Qeq_bool_iff in Ex, Ey.
  apply inject_Z_injective. lra.
Qed.

(** X15.  When no two assessments carry the same date, the order in which
    they are handed to [calculateRiskTrend] does not matter. *)
Theorem calculateRiskTrend_order_independent
  (assessments rearranged : list ErgonomicAssessment) :
  Permutation assessments rearranged ->
  NoDup (map assessmentDate assessments) ->
  calculateRiskTrend rearranged = calculateRiskTrend assessments.
Proof.
  intros Hperm Hnd.
  pose proof (Permutation_length Hperm) as Hlen.
  destruct assessments as [| a [| b rest]].
  - apply Permutation_nil in Hperm. now subst.
  - apply Permutation_length_1_inv in Hperm. now subst.
  - destruct rearranged as [| a' [| b' rest']]; try discriminate Hlen.
    unfold calculateRiskTrend.
    rewrite <- (Array_sort_perm_invariant byDate negDate byDate_key
                  _ _ Hperm (distinct_dates_one _ Hnd)).
    set (sorted := Array_sort byDate (a :: b :: rest)).
    assert (Hs : (2 <= List.length sorted)%nat).
    { subst sorted. rewrite Array_sort_length. simpl. lia. }
    cbv zeta.
    rewrite (nth_indep sorted a' a (n := 0)) by lia.
    rewrite (nth_indep sorted a' a (n := List.length sorted - 1)) by lia.
    reflexivity.
Qed.

Lemma calculateRiskTrend_order_independent_witness :
  calculateRiskTrend [assessedAt 864000000 60; assessedAt 0 80]
  = calculateRiskTrend [assessedAt 0 80; assessedAt 864000000 60].
Proof.
  apply calculateRiskTrend_order_independent.
  - apply perm_swap.
  - repeat constructor; simpl; intuition discriminate.
Defined.

Lemma sorted_progression l :
  StronglySorted ascendingDates l ->
  StronglySorted (fun p q => (point_date p <= point_date q)%Z)
    (map progressionPoint l).
Proof.
  induction 1 as [| x l Hs IH Hall]; simpl; constructor; [exact IH |].
  rewrite Forall_map. exact Hall.
Qed.

(** X16.  The change rate [calculateRiskTrend] returns is never negative,
    and its progression lists one point for every assessment; with two or
    more assessments the points are in ascending order of date. *)
Theorem calculateRiskTrend_progression
  (assessments : list ErgonomicAssessment) :
  let result := calculateRiskTrend assessments in
  0 <= changeRate result
  /\ Permutation (map progressionPoint assessments) (riskProgression result)
  /\ ((2 <= List.length assessments)%nat ->
      StronglySorted (fun p q => (point_date p <= point_date q)%Z)
        (riskProgression result)).
Proof.
  cbv zeta.
  destruct assessments as [| a [| b rest]].
  - split; [apply Qle_refl |]. split; [apply Permutation_refl |].
    simpl. lia.
  - split; [apply Qle_refl |]. split; [apply Permutation_refl |].
    simpl. lia.
  - unfold calculateRiskTrend. cbv zeta. cbn [changeRate riskProgression].
    split; [apply Qabs_nonneg |]. split.
    + apply Permutation_map, Array_sort_perm.
    + intros _. apply sorted_progression, sortedByDate_ascending.
Qed.

End AssessmentFacts.

(** ** Comparing two assessments *)

Module CompareFacts.

Import AssessmentTools CompareSpec.

Lemma ltb_irrefl x : ltb x x = false.
Proof. apply ltb_false. apply Qle_refl. Qed.

Lemma Set_of_In_iff l t : In t (Set_of String.eqb l) <-> In t l.
Proof.
  split; [apply PriorityFacts.Set_of_In |].
  induction l as [| x l IH]; simpl; [trivial |].
  intros [-> | H]; [now left |].
  destruct (String.eqb_spec x t) as [-> | Hne]; [now left |].
  right. apply filter_In. split; [now apply IH |].
  apply negb_true_iff. now apply String.eqb_neq.
Qed.

Lemma Set_of_NoDup l : NoDup (Set_of String.eqb l).
Proof.
  induction l as [| x l IH]; simpl; constructor.
  - intro H. apply filter_In in H. destruct H as [_ H].
    now rewrite String.eqb_refl in H.
  - now apply NoDup_filter.
Qed.

Lemma Set_has_iff s t : Set_has String.eqb s t = true <-> In t s.
Proof.
  unfold Set_has. rewrite existsb_exists. split.
  - intros (y & Hy & E). apply String.eqb_eq in E. now subst.
  - intro H. exists t. split; [exact H | apply String.eqb_refl].
Qed.

Lemma symptomTypeSet_In a t : In t (symptomTypeSet a) <-> reported a t.
Proof.
  unfold symptomTypeSet, reported. rewrite Set_of_In_iff, in_map_iff.
  split; intros (s & H1 & H2); exists s; tauto.
Qed.

Lemma absent_In others current t :
  In t (filter (fun type => negb (Set_has String.eqb others type)) current)
  <-> In t current /\ ~ In t others.
Proof.
  rewrite filter_In, negb_true_iff.
  pose proof (Set_has_iff others t) as H.
  destruct (Set_has String.eqb others t).
  - intuition congruence.
  - assert (~ In t others) by (intro F; apply H in F; discriminate).
    tauto.
Qed.

(** X17.  In what [compareAssessments] returns, a symptom type is new
    exactly when the current assessment reports it and the previous one
    does not, and resolved exactly in the opposite case; neither list
    names a type twice and no type is both new and resolved. *)
Theorem compareAssessments_symptoms
  (previous current : ErgonomicAssessment) :
  let result := compareAssessments previous current in
  (forall t,
     In t (newSymptoms result)
     <-> reported current t /\ ~ reported previous t)
  /\ (forall t,
        In t (resolvedSymptoms result)
        <-> reported previous t /\ ~ reported current t)
  /\ NoDup (newSymptoms result)
  /\ NoDup (resolvedSymptoms result)
  /\ (forall t, In t (newSymptoms result) -> ~ In t (resolvedSymptoms result)).
Proof.
  cbv zeta.
  assert (Hnew : forall t,
             In t (newSymptoms (compareAssessments previous current))
             <-> reported current t /\ ~ reported previous t).
  { intro t. unfold compareAssessments.
    destruct (if ltb _ _ then _ else _) as [i1 w1].
    destruct (if gtb _ _ then _ else _) as [i2 w2].
    cbn [newSymptoms]. rewrite absent_In, !symptomTypeSet_In. reflexivity. }
  assert (Hres : forall t,
             In t (resolvedSymptoms (compareAssessments previous current))
             <-> reported previous t /\ ~ reported current t).
  { intro t. unfold compareAssessments.
    destruct (if ltb _ _ then _ else _) as [i1 w1].
    destruct (if gtb _ _ then _ else _) as [i2 w2].
    cbn [resolvedSymptoms]. rewrite absent_In, !symptomTypeSet_In.
    reflexivity. }
  split; [exact Hnew |]. split; [exact Hres |].
  split; [| split].
  - unfold compareAssessments.
    destruct (if ltb _ _ then _ else _) as [i1 w1].
    destruct (if gtb _ _ then _ else _) as [i2 w2].
    cbn [newSymptoms]. apply NoDup_filter, Set_of_NoDup.
  - unfold compareAssessments.
    destruct (if ltb _ _ then _ else _) as [i1 w1].
    destruct (if gtb _ _ then _ else _) as [i2 w2].
    cbn [resolvedSymptoms]. apply NoDup_filter, Set_of_NoDup.
  - intros t H1 H2. apply Hnew in H1. apply Hres in H2. tauto.
Qed.

(** X18.  Exchanging the two assessments negates the score difference and
    exchanges improved with worsened areas and new with resolved symptoms;
    no area is both improved and worsened; and comparing an assessment with
    itself reports no difference at all. *)
Theorem compareAssessments_exchange
  (previous current : ErgonomicAssessment) :
  let forward := compareAssessments previous current in
  let backward := compareAssessments current previous in
  let same := compareAssessments current current in
  scoreDifference backward == - scoreDifference forward
  /\ improvedAreas backward = worsenedAreas forward
  /\ worsenedAreas backward = improvedAreas forward
  /\ newSymptoms backward = resolvedSymptoms forward
  /\ resolvedSymptoms backward = newSymptoms forward
  /\ (forall area,
        In area (improvedAreas forward) -> ~ In area (worsenedAreas forward))
  /\ scoreDifference same == 0
  /\ improvedAreas same = [] /\ worsenedAreas same = []
  /\ newSymptoms same = [] /\ resolvedSymptoms same = [].
Proof.
  cbv zeta. unfold compareAssessments, gtb, push.
  set (pn := Math_abs (neckAngle (postureData previous))).
  set (cn := Math_abs (neckAngle (postureData current))).
  set (pb := screenBreakFrequency (movementPatterns previous)).
  set (cb := screenBreakFrequency (movementPatterns current)).
  rewrite !ltb_irrefl.
  cbn [scoreDifference improvedAreas worsenedAreas newSymptoms
       resolvedSymptoms].
  assert (Hself : forall s,
            filter (fun type => negb (Set_has String.eqb s type)) s = []).
  { intro s. destruct (filter _ s) as [| t rest] eqn:E; [reflexivity |].
    assert (H : In t (filter (fun type => negb (Set_has String.eqb s type)) s))
      by (rewrite E; now left).
    apply absent_In in H. tauto. }
  rewrite !Hself.
  destruct (ltb_cases cn pn) as [[E1 H1] | [E1 H1]];
  destruct (ltb_cases pn cn) as [[E2 H2] | [E2 H2]];
  destruct (ltb_cases pb cb) as [[E3 H3] | [E3 H3]];
  destruct (ltb_cases cb pb) as [[E4 H4] | [E4 H4]];
  rewrite E1, E2, E3, E4;
  try (exfalso; lra);
  cbn [improvedAreas worsenedAreas newSymptoms resolvedSymptoms
       scoreDifference app];
  (split; [ring |]);
  (split; [reflexivity |]); (split; [reflexivity |]);
  (split; [reflexivity |]); (split; [reflexivity |]);
  (split; [cbn [In]; intuition congruence |]);
  (split; [ring |]); repeat split.
Qed.

(** X19.  For the name of each of the four risk levels
    [getRiskLevelRecommendations] returns advice of its own with at least
    four action items, never the fallback; for every other string, such as
    an upper-case name, it returns the fallback advice. *)
Theorem getRiskLevelRecommendations_cases :
  (forall l,
     getRiskLevelRecommendations (RiskLevel_name l) <> defaultAdvice
     /\ (4 <= List.length
               (actionItems (getRiskLevelRecommendations (RiskLevel_name l))))%nat)
  /\ (forall l l',
        urgency (getRiskLevelRecommendations (RiskLevel_name l))
        = urgency (getRiskLevelRecommendations (RiskLevel_name l')) ->
        l = l')
  /\ (forall name,
        (forall l, RiskLevel_name l <> name) ->
        getRiskLevelRecommendations name = defaultAdvice)
  /\ getRiskLevelRecommendations "HIGH" = defaultAdvice.
Proof.
  split; [| split; [| split]].
  - intros []; split; try discriminate; simpl; lia.
  - intros [] []; simpl; intro H; try reflexivity; discriminate H.
  - intros name H. unfold getRiskLevelRecommendations.
    destruct (String.eqb_spec name "low") as [-> | _];
      [now destruct (H Low) |].
    destruct (String.eqb_spec name "moderate") as [-> | _];
      [now destruct (H Moderate) |].
    destruct (String.eqb_spec name "high") as [-> | _];
      [now destruct (H High) |].
    destruct (String.eqb_spec name "critical") as [-> | _];
      [now destruct (H Critical) |].
    reflexivity.
  - reflexivity.
Qed.

End CompareFacts.

(** ** Edge cases of the improvement between two scores *)

Module ImprovementEdges.

Import Calculations EdgeSpec.

Lemma sub_diag_finite s m e :
  Double.sub (S754_finite s m e) (S754_finite s m e) = S754_zero false.
Proof.
  unfold Double.sub, SFsub. cbv zeta.
  rewrite Z.sub_diag. reflexivity.
Qed.

(** X10.  [calculateImprovement] answers 0 percent and a stable trend
    whenever the previous score is not above 0 (0, negative or [NaN]),
    whatever the current score, and whenever a finite positive score has not
    changed; a current score that is [NaN] gives the percentage [NaN] and
    the trend declining. *)
Theorem calculateImprovement_edges
  (previousScore currentScore : Double.double) :
  let result := calculateImprovement previousScore currentScore in
  (Double.gtb previousScore (Double.of_Z 0) = false -> result = noChange)
  /\ (Double.gtb previousScore (Double.of_Z 0) = true ->
      previousScore <> S754_infinity false ->
      currentScore = previousScore ->
      result = noChange)
  /\ (Double.gtb previousScore (Double.of_Z 0) = true ->
      currentScore = S754_nan ->
      result = undefinedDecline).
Proof.
  cbv zeta. unfold calculateImprovement, improvementPercentage. cbv zeta.
  split; [| split].
  - intros ->. reflexivity.
  - intros Hpos Hfin ->. rewrite Hpos.
    destruct previousScore as [s | s | | s m e]; try discriminate Hpos.
    + destruct s; [discriminate Hpos | now destruct Hfin].
    + destruct s; [discriminate Hpos |].
      rewrite sub_diag_finite. reflexivity.
  - intros Hpos ->. rewrite Hpos.
    destruct previousScore as [s | s | | s m e]; try discriminate Hpos;
      reflexivity.
Qed.

End ImprovementEdges.

(** ** The quick score of the assessments route *)

Module BasicScoreFacts.

Import NumberMore Calculations AssessmentRoute RouteSpec.

Lemma addSeverity_grows acc symptom : acc <= addSeverity acc symptom.
Proof. unfold addSeverity. destruct (symptom_severity symptom); lra. Qed.

Lemma severity_loop_grows symptoms : forall acc,
  acc <= fold_left addSeverity symptoms acc.
Proof.
  induction symptoms as [| s symptoms IH]; intro acc; simpl; [lra |].
  eapply Qle_trans; [apply addSeverity_grows | apply IH].
Qed.

Lemma bump (c : bool) r k : 0 <= k -> 0 <= r -> 0 <= (if c then r + k else r).
Proof. destruct c; lra. Qed.

(** The score is [Math.min(100, base + Math.min(30, severity))] for a base
    that is not negative and does not depend on the symptoms. *)
Lemma calculateBasicRiskScore_shape data :
  exists base,
    0 <= base
    /\ forall symptoms,
         calculateBasicRiskScore (withSymptoms data symptoms)
         = Math_min 100
             (base
              + Math_min 30
                  match symptoms with
                  | Some symptoms => fold_left addSeverity symptoms 0
                  | None => 0
                  end).
Proof.
  cbv delta [calculateBasicRiskScore]; cbv beta.
  cbn [withSymptoms form_postureData form_workspaceSetup
       form_movementPatterns form_symptoms].
  cbv zeta.
  eexists. split; [| intro symptoms; reflexivity].
  repeat (apply bump; [lra |]).
  destruct (gtb _ 30); [lra |]. destruct (gtb _ 15); lra.
Qed.

Lemma severity_nonneg symptoms :
  0 <= match symptoms with
       | Some symptoms => fold_left addSeverity symptoms 0
       | None => 0
       end.
Proof. destruct symptoms; [apply severity_loop_grows | lra]. Qed.

(** X20.  The quick score of the assessments route lies between 0 and 100;
    a form without a symptom list scores as one with an empty list; adding
    symptoms to the list never lowers the score, and all symptoms together
    add at most 30 to it.  The level the route derives from a score is the
    one [getRiskLevel] gives. *)
Theorem calculateBasicRiskScore_facts (data : AssessmentFormData) :
  (0 <= calculateBasicRiskScore data /\ calculateBasicRiskScore data <= 100)
  /\ calculateBasicRiskScore (withSymptoms data None)
     = calculateBasicRiskScore (withSymptoms data (Some []))
  /\ (forall symptoms more,
        calculateBasicRiskScore (withSymptoms data (Some symptoms))
        <= calculateBasicRiskScore
             (withSymptoms data (Some (symptoms ++ more)%list)))
  /\ (forall symptoms,
        calculateBasicRiskScore (withSymptoms data symptoms)
        <= calculateBasicRiskScore (withSymptoms data None) + 30)
  /\ (forall score, getRiskLevelFromScore score = getRiskLevel score).
Proof.
  destruct (calculateBasicRiskScore_shape data) as (base & Hbase & Hshape).
  split; [| split; [| split; [| split]]].
  - replace data with (withSymptoms data (form_symptoms data))
      by (now destruct data).
    rewrite Hshape.
    pose proof (severity_nonneg (form_symptoms data)) as Hs.
    split; [| apply Math_min_le_l].
    apply Math_min_glb; [lra |].
    assert (0 <= Math_min 30 match form_symptoms data with
                             | Some symptoms => fold_left addSeverity symptoms 0
                             | None => 0
                             end)
      by (apply Math_min_glb; [lra | exact Hs]).
    lra.
  - rewrite !Hshape. reflexivity.
  - intros symptoms more. rewrite !Hshape.
    apply Math_min_monotone.
    apply Qplus_le_r, Math_min_monotone.
    rewrite fold_left_app. apply severity_loop_grows.
  - intro symptoms. rewrite !Hshape.
    pose proof (severity_nonneg symptoms) as Hs.
    set (sev := match symptoms with Some _ => _ | None => _ end) in *.
    clearbody sev.
    change (Math_min 30 0) with 0.
    assert (Hm : 0 <= Math_min 30 sev /\ Math_min 30 sev <= 30)
      by (split; [apply Math_min_glb; lra | apply Math_min_le_l]).
    destruct Hm as [Hm1 Hm2]. revert Hm1 Hm2.
    generalize (Math_min 30 sev) as m. intros m Hm1 Hm2.
    unfold Math_min.
    repeat match goal with
           | |- context [ltb ?x ?y] =>
               let E := fresh "E" in
               let H := fresh "H" in
               destruct (ltb_cases x y) as [[E H] | [E H]]; rewrite E
           end; lra.
  - intro score. reflexivity.
Qed.

End BasicScoreFacts.

(** ** Features shared by a selection of equipment *)

Module CommonFeatureFacts.

Import ListSpec ListFacts Equipment EquipmentRoute.

Lemma Array_includes_In list x : Array_includes list x = true <-> In x list.
Proof.
  unfold Array_includes. rewrite existsb_exists. split.
  - intros (y & Hy & E). apply String.eqb_eq in E. now subst.
  - intro H. exists x. split; [exact H | apply String.eqb_refl].
Qed.

(** X21.  [findCommonFeatures] returns the features that every item of the
    selection lists, taken from the first item in the order it lists them;
    a single item gives all its features back, and an empty selection gives
    none. *)
Theorem findCommonFeatures_spec (items : list EquipmentItem) :
  (forall feature,
     In feature (findCommonFeatures items)
     <-> items <> []
         /\ forall item, In item items -> In feature (features item))
  /\ (forall first rest,
        items = first :: rest ->
        Subseq (findCommonFeatures items) (features first))
  /\ (forall item, findCommonFeatures [item] = features item)
  /\ findCommonFeatures [] = [].
Proof.
  split; [| split; [| split]].
  - intro feature. destruct items as [| first rest].
    + simpl. split; [tauto | intros [H _]; now destruct H].
    + unfold findCommonFeatures. rewrite filter_In, forallb_forall.
      split.
      * intros [_ H]. split; [discriminate |].
        intros item Hitem. apply Array_includes_In, H, Hitem.
      * intros [_ H]. split; [apply H; now left |].
        intros item Hitem. apply Array_includes_In, H, Hitem.
  - intros first rest ->. apply Subseq_filter.
  - intro item. unfold findCommonFeatures. apply filter_all.
    intros feature H. simpl. rewrite andb_true_r.
    now apply Array_includes_In.
  - reflexivity.
Qed.

End CommonFeatureFacts.

(** ** Equipment suggestions *)

Module EquipmentFacts.

Import ListSpec ListFacts Equipment EquipmentSpec.

Section Table.

Variable equipmentDatabase : list EquipmentItem.
Variable toLowerCase : string -> string.
Variable budget : BudgetChoice.

Lemma offered_Subseq category count :
  Subseq (offered equipmentDatabase budget category count) equipmentDatabase.
Proof.
  unfold offered, slice0, getEquipmentByCategory.
  eapply Subseq_trans; [apply Subseq_firstn |].
  destruct (is_any budget).
  - apply Subseq_filter.
  - eapply Subseq_trans; apply Subseq_filter.
Qed.

Lemma offered_In category count item :
  In item (offered equipmentDatabase budget category count) ->
  affordable budget item
  /\ EquipmentCategory_name (item_category item) = category.
Proof.
  unfold offered, slice0, getEquipmentByCategory, affordable. intro H.
  apply (Subseq_In _ _ _ (Subseq_firstn _ _)) in H.
  destruct budget; cbn [is_any] in H;
    repeat (apply filter_In in H; destruct H as [H ?]);
    repeat match goal with
           | E : String.eqb _ _ = true |- _ => apply String.eqb_eq in E
           end;
    auto.
Qed.

Lemma everything_In item :
  In item (everything equipmentDatabase budget) ->
  In item equipmentDatabase /\ affordable budget item.
Proof.
  unfold everything. rewrite !in_app_iff.
  intros H.
  repeat match goal with
         | H : _ \/ _ |- _ => destruct H as [H | H]
         end;
    (split;
     [ eapply Subseq_In; [apply offered_Subseq | exact H]
     | apply (offered_In _ _ _ H) ]).
Qed.

Lemma everything_NoDup :
  NoDup equipmentDatabase -> NoDup (everything equipmentDatabase budget).
Proof.
  intro Hnd. unfold everything.
  repeat match goal with
         | |- NoDup (_ ++ _) => apply NoDup_app
         | |- NoDup (offered _ _ _ _) =>
             eapply Subseq_NoDup; [apply offered_Subseq | exact Hnd]
         end;
    intros item Hin Hin';
    rewrite ?in_app_iff in Hin; rewrite ?in_app_iff in Hin';
    repeat match goal with
           | H : _ \/ _ |- _ => destruct H as [H | H]
           end;
    apply offered_In in Hin; apply offered_In in Hin';
    destruct Hin as [_ Hin], Hin' as [_ Hin'];
    rewrite Hin in Hin'; discriminate Hin'.
Qed.

(** What is pushed is a selection of [everything], in its order. *)
Lemma pushed_Subseq riskFactors :
  Subseq
    (getRecommendedEquipment equipmentDatabase toLowerCase riskFactors budget)
    (everything equipmentDatabase budget).
Proof.
  unfold getRecommendedEquipment. cbv zeta.
  eapply Subseq_trans; [apply Subseq_firstn |].
  fold (offered equipmentDatabase budget "chair" 2).
  fold (offered equipmentDatabase budget "desk" 1).
  fold (offered equipmentDatabase budget "monitor" 1).
  fold (offered equipmentDatabase budget "keyboard" 1).
  fold (offered equipmentDatabase budget "mouse" 1).
  fold (offered equipmentDatabase budget "accessories" 2).
  unfold everything.
  destruct (includes "back" _ || includes "posture" _ || includes "lumbar" _);
  destruct (includes "standing" _ || includes "height" _
            || includes "movement" _);
  destruct (includes "neck" _ || includes "eye" _ || includes "monitor" _);
  destruct (includes "wrist" _ || includes "hand" _
            || includes "repetitive" _);
  cbn [app];
  repeat first
    [ apply Subseq_refl
    | apply Subseq_suffix
    | apply Subseq_same_end
    | apply Subseq_longer ].
Qed.

End Table.

(** X22.  Whatever the table holds, [getRecommendedEquipment] returns at
    most six items, all of them items of the table that fit the budget; they
    are a selection, in this order, of the first two chairs, the first desk,
    monitor, keyboard and mouse and the first two accessories that fit the
    budget; no item is returned twice when the table lists none twice; and
    when the risk factors hold none of the twelve keywords only the
    accessories are returned. *)
Theorem getRecommendedEquipment_bounds
  (equipmentDatabase : list EquipmentItem) (toLowerCase : string -> string)
  (riskFactors : list string) (budget : BudgetChoice) :
  let result :=
    getRecommendedEquipment equipmentDatabase toLowerCase riskFactors budget in
  (List.length result <= 6)%nat
  /\ Subseq result (everything equipmentDatabase budget)
  /\ (forall item,
        In item result ->
        In item equipmentDatabase /\ affordable budget item)
  /\ (NoDup equipmentDatabase -> NoDup result)
  /\ ((forall word,
         In word keywords ->
         includes word (toLowerCase (join " " riskFactors)) = false) ->
      result = offered equipmentDatabase budget "accessories" 2).
Proof.
  cbv zeta.
  pose proof (pushed_Subseq equipmentDatabase toLowerCase budget riskFactors)
    as Hsub.
  split; [| split; [exact Hsub | split; [| split]]].
  - unfold getRecommendedEquipment, slice0. cbv zeta.
    apply firstn_le_length.
  - intros item Hin. apply everything_In.
    eapply Subseq_In; [exact Hsub | exact Hin].
  - intro Hnd. eapply Subseq_NoDup; [exact Hsub |].
    now apply everything_NoDup.
  - intro Hnone. unfold getRecommendedEquipment. cbv zeta.
    rewrite !Hnone by (unfold keywords; simpl; tauto).
    cbn [orb app]. unfold offered, slice0.
    rewrite firstn_firstn. reflexivity.
Qed.

End EquipmentFacts.

(** ** The wellbeing score *)

Module WellbeingFacts.

Import NumberMore HealthMetrics WellbeingSpec.












End WellbeingFacts.

(** ** Completion of the assessment form *)

Module ProgressFacts.

Import NumberMore Recommendations FormTemplates ProgressSpec.

Lemma of_nat_S (n : nat) :
  inject_Z (Z.of_nat (S n)) == inject_Z (Z.of_nat n) + 1.
Proof.
  rewrite Nat2Z.inj_succ, <- Z.add_1_r, inject_Z_plus. reflexivity.
Qed.

Lemma countField_loop complete fields : forall completed total,
  fst (fold_left (countField complete) fields (completed, total))
  == completed + inject_Z (Z.of_nat (completedOf complete fields))
  /\ snd (fold_left (countField complete) fields (completed, total))
     == total + inject_Z (Z.of_nat (List.length fields)).
Proof.
  unfold completedOf.
  induction fields as [| field fields IH]; intros completed total.
  - cbn [fold_left fst snd filter List.length Z.of_nat].
    change (inject_Z 0) with 0. split; lra.
  - cbn [fold_left filter].
    change (countField complete (completed, total) field)
      with (if is_required field && complete field
            then (completed + 1, total + 1)
            else (completed, total + 1)).
    destruct (is_required field && complete field).
    + destruct (IH (completed + 1) (total + 1)) as [H1 H2].
      cbn [List.length]. rewrite !of_nat_S.
      split; [eapply Qeq_trans; [apply H1 |] | eapply Qeq_trans; [apply H2 |]];
        lra.
    + destruct (IH completed (total + 1)) as [H1 H2].
      cbn [List.length]. rewrite ?of_nat_S.
      split; [eapply Qeq_trans; [apply H1 |] | eapply Qeq_trans; [apply H2 |]];
        lra.
Qed.

Lemma completedOf_le complete fields :
  (completedOf complete fields
   <= List.length (filter is_required fields))%nat
  /\ (completedOf complete fields = List.length (filter is_required fields)
      <-> forall field,
            In field fields -> is_required field = true ->
            complete field = true).
Proof.
  unfold completedOf.
  induction fields as [| field fields [IH1 IH2]].
  - simpl. split; [lia |]. split; [intros _ f [] | reflexivity].
  - cbn [filter].
    destruct (is_required field) eqn:Er; cbn [andb].
    + destruct (complete field) eqn:Ec; cbn [List.length].
      * split; [lia |]. rewrite Nat.succ_inj_wd, IH2. split.
        -- intros H f [<- | Hin] Hr; [exact Ec | now apply H].
        -- intros H f Hin Hr. apply H; [now right | exact Hr].
      * split; [lia |]. split; [lia |].
        intro H. rewrite (H field (or_introl eq_refl) Er) in Ec.
        discriminate Ec.
    + split; [exact IH1 |]. rewrite IH2. split.
      * intros H f [<- | Hin] Hr; [congruence | now apply H].
      * intros H f Hin Hr. apply H; [now right | exact Hr].
Qed.

(** The progress is the rounded share of the completed fields among all 26
    fields, of which 23 are marked as required. *)
Lemma getAssessmentProgress_count data :
  getAssessmentProgress data
  == Math_round
       (inject_Z
          (Z.of_nat
             (completedOf (workspaceGiven data) workspaceFormFields
              + completedOf (postureGiven data) postureFormFields
              + completedOf (movementGiven data) movementFormFields))
        / 26 * 100).
Proof.
  unfold getAssessmentProgress. cbv zeta.
  fold (workspaceGiven data). fold (postureGiven data).
  fold (movementGiven data).
  set (p1 := fold_left (countField (workspaceGiven data)) _ _).
  assert (H1 : fst p1 == 0 + inject_Z (Z.of_nat
                 (completedOf (workspaceGiven data) workspaceFormFields))
               /\ snd p1 == 0 + inject_Z (Z.of_nat
                    (List.length workspaceFormFields)))
    by apply countField_loop.
  clearbody p1. destruct p1 as [c1 t1]. cbn [fst snd] in H1.
  set (p2 := fold_left (countField (postureGiven data)) _ _).
  assert (H2 : fst p2 == c1 + inject_Z (Z.of_nat
                 (completedOf (postureGiven data) postureFormFields))
               /\ snd p2 == t1 + inject_Z (Z.of_nat
                    (List.length postureFormFields)))
    by apply countField_loop.
  clearbody p2. destruct p2 as [c2 t2]. cbn [fst snd] in H2.
  set (p3 := fold_left (countField (movementGiven data)) _ _).
  assert (H3 : fst p3 == c2 + inject_Z (Z.of_nat
                 (completedOf (movementGiven data) movementFormFields))
               /\ snd p3 == t2 + inject_Z (Z.of_nat
                    (List.length movementFormFields)))
    by apply countField_loop.
  clearbody p3. destruct p3 as [c3 t3]. cbn [fst snd] in H3.
  destruct H1 as [Hc1 Ht1], H2 as [Hc2 Ht2], H3 as [Hc3 Ht3].
  apply Math_round_compat.
  assert (Ht : t3 == 26).
  { rewrite Ht3, Ht2, Ht1. reflexivity. }
  assert (Hc : c3 == inject_Z
                 (Z.of_nat
                    (completedOf (workspaceGiven data) workspaceFormFields
                     + completedOf (postureGiven data) postureFormFields
                     + completedOf (movementGiven data) movementFormFields))).
  { rewrite Hc3, Hc2, Hc1, !Nat2Z.inj_add, !inject_Z_plus. lra. }
  rewrite Ht, Hc. reflexivity.
Qed.

(** X24.  [getAssessmentProgress] never reports more than 88 percent: three
    of the 26 fields counted are not marked as required and are never
    counted as completed.  It reports 88 exactly when every required field
    has a value. *)
Theorem getAssessmentProgress_never_complete (data : FormObjects) :
  (0 <= getAssessmentProgress data /\ getAssessmentProgress data <= 88)
  /\ (getAssessmentProgress data == 88 <-> allRequiredGiven data).
Proof.
  rewrite getAssessmentProgress_count.
  destruct (completedOf_le (workspaceGiven data) workspaceFormFields)
    as [L1 E1].
  destruct (completedOf_le (postureGiven data) postureFormFields)
    as [L2 E2].
  destruct (completedOf_le (movementGiven data) movementFormFields)
    as [L3 E3].
  change (List.length (filter is_required workspaceFormFields))
    with 8%nat in L1, E1.
  change (List.length (filter is_required postureFormFields))
    with 8%nat in L2, E2.
  change (List.length (filter is_required movementFormFields))
    with 7%nat in L3, E3.
  unfold allRequiredGiven. rewrite <- E1, <- E2, <- E3.
  set (k1 := completedOf (workspaceGiven data) workspaceFormFields) in *.
  set (k2 := completedOf (postureGiven data) postureFormFields) in *.
  set (k3 := completedOf (movementGiven data) movementFormFields) in *.
  clearbody k1 k2 k3. clear E1 E2 E3.
  assert (Hk : (k1 + k2 + k3 <= 23)%nat) by lia.
  assert (Hall : (k1 = 8 /\ k2 = 8 /\ k3 = 7)%nat
                 <-> (k1 + k2 + k3 = 23)%nat) by lia.
  rewrite Hall. clear Hall L1 L2 L3.
  generalize dependent (k1 + k2 + k3)%nat. clear. intros k Hk.
  assert (H0 : 0 <= inject_Z (Z.of_nat k))
    by (change 0 with (inject_Z 0); rewrite <- Zle_Qle; lia).
  assert (H23 : k = 23%nat \/ inject_Z (Z.of_nat k) <= 22).
  { destruct (Nat.eq_dec k 23) as [-> | Hne]; [now left | right].
    change 22 with (inject_Z 22). rewrite <- Zle_Qle. lia. }
  split; [split |].
  - change 0 with (Math_round 0) at 1. apply Math_round_mono.
    revert H0. generalize (inject_Z (Z.of_nat k)). intros q H0.
    apply Qmult_le_0_compat; [| lra].
    apply Qle_shift_div_l; [reflexivity | lra].
  - destruct H23 as [-> | H22]; [vm_compute; discriminate |].
    change 88 with (Math_round (23 / 26 * 100)).
    apply Math_round_mono.
    revert H22. generalize (inject_Z (Z.of_nat k)). intros q H22.
    apply Qmult_le_compat_r; [| lra].
    apply Qmult_le_compat_r; [lra | vm_compute; discriminate].
  - destruct H23 as [-> | H22]; [split; [reflexivity | intros _; reflexivity] |].
    split; [| intros ->; reflexivity].
    intro H88. exfalso.
    assert (Hle : Math_round (inject_Z (Z.of_nat k) / 26 * 100)
                  <= Math_round (22 / 26 * 100)).
    { apply Math_round_mono.
      revert H22. generalize (inject_Z (Z.of_nat k)). intros q H22.
      apply Qmult_le_compat_r; [| lra].
      apply Qmult_le_compat_r; [lra | vm_compute; discriminate]. }
    rewrite H88 in Hle. vm_compute in Hle. now apply Hle.
Qed.

End ProgressFacts.

(** ** Queries on the equipment table *)

Module QueryFacts.

Import ListSpec ListFacts Equipment.

Lemma includes_empty s : includes EmptyString s = true.
Proof. destruct s; reflexivity. Qed.

(** X25.  Each query returns items of the table in the order of the table.
    Every item is found under the name of its category and under no other
    string, so a string that names no category finds nothing; and a query
    whose lower-case form is the empty string finds the whole table. *)
Theorem equipment_queries
  (equipmentDatabase : list EquipmentItem) (toLowerCase : string -> string) :
  (forall category,
     Subseq (getEquipmentByCategory equipmentDatabase category)
       equipmentDatabase)
  /\ (forall query,
        Subseq (searchEquipment equipmentDatabase toLowerCase query)
          equipmentDatabase)
  /\ (forall item category,
        In item (getEquipmentByCategory equipmentDatabase category)
        <-> In item equipmentDatabase
            /\ EquipmentCategory_name (item_category item) = category)
  /\ (forall category,
        (forall c, EquipmentCategory_name c <> category) ->
        getEquipmentByCategory equipmentDatabase category = [])
  /\ (forall query,
        toLowerCase query = EmptyString ->
        searchEquipment equipmentDatabase toLowerCase query
        = equipmentDatabase).
Proof.
  split; [| split; [| split; [| split]]].
  - intro category. apply Subseq_filter.
  - intro query. apply Subseq_filter.
  - intros item category. unfold getEquipmentByCategory.
    rewrite filter_In, String.eqb_eq. reflexivity.
  - intros category H. apply filter_nothing. intro item.
    apply String.eqb_neq, H.
  - intros query E. unfold searchEquipment. cbv zeta. rewrite E.
    apply filter_all. intros item _.
    now rewrite includes_empty.
Qed.

End QueryFacts.
